(** * BatchFlusher (src/batch.ts): a shallow embedding and its properties

    The class [BatchFlusher<T>] buffers items and hands them to a
    caller-supplied asynchronous callback, on an explicit [flush()], when a
    count threshold is reached inside [add], or when a self-rescheduling
    one-shot timer fires.

    The embedding keeps the private fields of the instance in [Instance], the
    part of the JavaScript runtime the class talks to (armed timers, suspended
    async calls) in [Runtime], and everything an observer can see (callback
    invocations, subscriber invocations, logger calls, settled promises) in
    [Trace].  Every synchronous block of the source is one function on
    [World]; every [await] of the source is a suspension point: the rest of
    the async function is stored as a [Task] and runs in a later step.

    Conventions of the model:
    - numbers of the configuration are integers ([Z]); JavaScript truthiness
      of a number is [z <> 0];
    - the flush callback and the subscriber callbacks are opaque: they do not
      call back into the instance during their synchronous part;
    - time is not measured: an armed timer may fire at any step;
    - an event that is not enabled (a timer that is not armed, a promise that
      is not pending) leaves the world unchanged. *)

From Stdlib Require Import String ZArith Bool Arith Lia List.
From Stdlib Require Import DecimalString.
Import ListNotations.

Set Implicit Arguments.

(** ** Values shared with the environment *)

(** A settled promise (or the completion of a [try] block). *)
Inductive Result (E A : Type) : Type :=
| Fulfilled (a : A)
| Rejected (e : E).
Arguments Fulfilled {E A} a.
Arguments Rejected {E A} e.

(** [interface BatchFlusherState]. *)
Record BatchFlusherState : Type := {
  size : nat;
  isRunning : bool;
  isFlushing : bool
}.

(** [interface BatchFlusherConfig]; an optional field holds [None] for
    [undefined].  A logger object is named by a number. *)
Record BatchFlusherConfig : Type := {
  flushIntervalMs : option Z;
  maxBatchSize : Z;
  flushThreshold : option Z;
  strictFlush : option bool;
  logger : option nat
}.

(** [Partial<BatchFlusherConfig>]: [None] is a key that is absent or
    [undefined]. *)
Record PartialConfig : Type := {
  p_flushIntervalMs : option Z;
  p_maxBatchSize : option Z;
  p_flushThreshold : option Z;
  p_strictFlush : option bool;
  p_logger : option nat
}.

(** Calls made on logger objects. *)
Inductive Level : Type := LDebug | LLog | LWarn | LError.

Inductive Sink : Type :=
| Console                 (* the global console *)
| Clog                    (* createClog() *)
| Custom (l : nat).       (* config.logger *)

Record LogEntry : Type := {
  log_sink : Sink;
  log_namespace : option string;   (* withNamespace(_, ns) *)
  log_level : Level;
  log_args : list string
}.

(** Who started an internally triggered flush. *)
Inductive Trigger : Type := Threshold | Timer.

(** Who awaits the promise returned by [flush()]. *)
Inductive Awaiter : Type :=
| ByCaller                      (* an explicit flush() *)
| ByDrain                       (* drain() *)
| ByDoFlush (g : Trigger).      (* #doFlush, from add or from the timer *)

(** JavaScript helpers. *)

Definition truthy (z : Z) : bool := negb (z =? 0)%Z.

Definition show_nat (n : nat) : string := NilZero.string_of_uint (Nat.to_uint n).
Definition show_Z (z : Z) : string := NilZero.string_of_int (Z.to_int z).
Definition show_bool (b : bool) : string := if b then "true"%string else "false"%string.

(** [Array.prototype.slice(start)] with an integer [start]. *)
Definition slice {A : Type} (start : Z) (l : list A) : list A :=
  let len := Z.of_nat (length l) in
  let k := if (start <? 0)%Z then Z.max (len + start) 0 else Z.min start len in
  skipn (Z.to_nat k) l.

(** The last [n] elements of a list (all of it when it is shorter). *)
Definition lastn {A : Type} (n : nat) (l : list A) : list A :=
  skipn (length l - n) l.

(** Association lists keyed by a number. *)
Fixpoint lookup {A : Type} (k : nat) (l : list (nat * A)) : option A :=
  match l with
  | [] => None
  | (k', a) :: l' => if Nat.eqb k k' then Some a else lookup k l'
  end.

Definition remove_key {A : Type} (k : nat) (l : list (nat * A)) : list (nat * A) :=
  filter (fun p => negb (Nat.eqb k (fst p))) l.

Section BatchFlusher.

(** The type of items, and of whatever the flush callback throws or rejects
    with; [to_string e] is the template literal [`${e}`]. *)
Variable T : Type.
Variable Err : Type.
Variable to_string : Err -> string.

(** The synchronous part of the [k]-th call [this._flusher(items)]:
    [Some e] when it throws [e] before returning, [None] when it returns a
    promise (or any value to await). The promise settles later, by an event. *)
Variable flusher_sync : nat -> list T -> option Err.

(** One call of the flush callback: the async call it belongs to, the array it
    received, and the instance state it can observe on entry. *)
Record FlusherCall : Type := {
  call_id : nat;
  call_items : list T;
  call_seen : BatchFlusherState
}.

(** A suspended async call. *)
Inductive Task : Type :=
| AwaitFlusher (a : Awaiter)
    (* flush() at [await this._flusher(items)]; the promise is pending *)
| AwaitFlush (a : Awaiter) (r : Result Err bool)
    (* #doFlush or drain at [await this.flush()], which settled with r *)
| AwaitDoFlush (r : Result Err unit).
    (* the timer callback at [await this.#doFlush()], which settled with r *)

(** The private fields of the instance. *)
Record Instance : Type := {
  config : BatchFlusherConfig;              (* #config *)
  items : list T;                           (* #items *)
  flushTimer : option nat;                  (* #flushTimer *)
  running : bool;                           (* #running *)
  flushing : bool;                          (* #flushing *)
  subscribers : list (nat * nat);           (* #pubsub, topic "state": (handle, callback) *)
  base_logger : Sink                        (* #logger, under the namespace BatchFlusher *)
}.

(** The runtime: armed one-shot timers (handle, delay), suspended async calls,
    and the next fresh handle. *)
Record Runtime : Type := {
  timers : list (nat * Z);
  tasks : list (nat * Task);
  next_id : nat
}.

(** What the outside sees, oldest first. *)
Record Trace : Type := {
  flusher_calls : list FlusherCall;              (* calls of this._flusher *)
  delivered : list (nat * BatchFlusherState);    (* (callback, snapshot) *)
  logged : list LogEntry;
  settled : list (nat * Result Err bool);        (* promises of flush()/drain() given to callers *)
  unhandled : list (nat * Err)                   (* rejections nobody awaits *)
}.

Record World : Type := {
  self : Instance;
  loop : Runtime;
  trace : Trace
}.

(** ** Field updates *)

Definition upd_self (f : Instance -> Instance) (w : World) : World :=
  {| self := f (self w); loop := loop w; trace := trace w |}.
Definition upd_loop (f : Runtime -> Runtime) (w : World) : World :=
  {| self := self w; loop := f (loop w); trace := trace w |}.
Definition upd_trace (f : Trace -> Trace) (w : World) : World :=
  {| self := self w; loop := loop w; trace := f (trace w) |}.

Definition set_config (c : BatchFlusherConfig) : World -> World :=
  upd_self (fun i =>
    {| config := c; items := items i; flushTimer := flushTimer i; running := running i;
       flushing := flushing i; subscribers := subscribers i; base_logger := base_logger i |}).
Definition set_items (l : list T) : World -> World :=
  upd_self (fun i =>
    {| config := config i; items := l; flushTimer := flushTimer i; running := running i;
       flushing := flushing i; subscribers := subscribers i; base_logger := base_logger i |}).
Definition set_flushTimer (t : option nat) : World -> World :=
  upd_self (fun i =>
    {| config := config i; items := items i; flushTimer := t; running := running i;
       flushing := flushing i; subscribers := subscribers i; base_logger := base_logger i |}).
Definition set_running (b : bool) : World -> World :=
  upd_self (fun i =>
    {| config := config i; items := items i; flushTimer := flushTimer i; running := b;
       flushing := flushing i; subscribers := subscribers i; base_logger := base_logger i |}).
Definition set_flushing (b : bool) : World -> World :=
  upd_self (fun i =>
    {| config := config i; items := items i; flushTimer := flushTimer i; running := running i;
       flushing := b; subscribers := subscribers i; base_logger := base_logger i |}).
Definition set_subscribers (s : list (nat * nat)) : World -> World :=
  upd_self (fun i =>
    {| config := config i; items := items i; flushTimer := flushTimer i; running := running i;
       flushing := flushing i; subscribers := s; base_logger := base_logger i |}).
Definition set_base_logger (s : Sink) : World -> World :=
  upd_self (fun i =>
    {| config := config i; items := items i; flushTimer := flushTimer i; running := running i;
       flushing := flushing i; subscribers := subscribers i; base_logger := s |}).

Definition set_timers (l : list (nat * Z)) : World -> World :=
  upd_loop (fun r => {| timers := l; tasks := tasks r; next_id := next_id r |}).
Definition set_tasks (l : list (nat * Task)) : World -> World :=
  upd_loop (fun r => {| timers := timers r; tasks := l; next_id := next_id r |}).
Definition set_next_id (n : nat) : World -> World :=
  upd_loop (fun r => {| timers := timers r; tasks := tasks r; next_id := n |}).

Definition push_call (c : FlusherCall) : World -> World :=
  upd_trace (fun t =>
    {| flusher_calls := flusher_calls t ++ [c]; delivered := delivered t; logged := logged t;
       settled := settled t; unhandled := unhandled t |}).
Definition push_delivered (d : list (nat * BatchFlusherState)) : World -> World :=
  upd_trace (fun t =>
    {| flusher_calls := flusher_calls t; delivered := delivered t ++ d; logged := logged t;
       settled := settled t; unhandled := unhandled t |}).
Definition push_log (e : LogEntry) : World -> World :=
  upd_trace (fun t =>
    {| flusher_calls := flusher_calls t; delivered := delivered t; logged := logged t ++ [e];
       settled := settled t; unhandled := unhandled t |}).
Definition push_settled (k : nat) (r : Result Err bool) : World -> World :=
  upd_trace (fun t =>
    {| flusher_calls := flusher_calls t; delivered := delivered t; logged := logged t;
       settled := settled t ++ [(k, r)]; unhandled := unhandled t |}).
Definition push_unhandled (k : nat) (e : Err) : World -> World :=
  upd_trace (fun t =>
    {| flusher_calls := flusher_calls t; delivered := delivered t; logged := logged t;
       settled := settled t; unhandled := unhandled t ++ [(k, e)] |}).

(** A synchronous block is a world transformer; blocks run in sequence, and
    [read] gives a block the world it starts from. *)
Definition Cmd : Type := World -> World.
Definition skip : Cmd := fun w => w.
Definition seq (a b : Cmd) : Cmd := fun w => b (a w).
Definition read (f : World -> Cmd) : Cmd := fun w => f w w.

Notation "a ;; b" := (seq a b) (at level 61, right associativity).

(** ** The runtime *)

(** [setTimeout(cb, delay)]: arms a fresh one-shot timer; its handle is the
    [next_id] of the world it starts from. *)
Definition setTimeout (delay : Z) : Cmd :=
  read (fun w =>
    set_timers (timers (loop w) ++ [(next_id (loop w), delay)]) ;;
    set_next_id (S (next_id (loop w)))).

(** [clearTimeout(h)]; [clearTimeout(undefined)] does nothing. *)
Definition clearTimeout (h : option nat) : Cmd :=
  match h with
  | Some t => read (fun w => set_timers (remove_key t (timers (loop w))))
  | None => skip
  end.

Definition set_task (k : nat) (t : Task) : Cmd :=
  read (fun w => set_tasks (remove_key k (tasks (loop w)) ++ [(k, t)])).

Definition remove_task (k : nat) : Cmd :=
  read (fun w => set_tasks (remove_key k (tasks (loop w)))).

(** A fresh handle for an async call. *)
Definition fresh (f : nat -> Cmd) : Cmd :=
  read (fun w => set_next_id (S (next_id (loop w))) ;; f (next_id (loop w))).

(** ** The class *)

(** [this.#logger.debug(msg)]. *)
Definition debug (msg : string) : Cmd :=
  read (fun w =>
    push_log {| log_sink := base_logger (self w); log_namespace := Some "BatchFlusher"%string;
                log_level := LDebug; log_args := [msg] |}).

(** [#getState()]. *)
Definition getState (w : World) : BatchFlusherState :=
  {| size := length (items (self w));
     isRunning := running (self w);
     isFlushing := flushing (self w) |}.

(** Modelled from the spec: the publish/subscribe utility
    (the package @marianmeres/pubsub is not part of the sources) is an observer
    list; [publish] calls every registered callback once, in order, with the
    published value. *)
Definition publish (st : BatchFlusherState) : Cmd :=
  read (fun w => push_delivered (map (fun s => (snd s, st)) (subscribers (self w)))).

(** [#notify()]. *)
Definition notify : Cmd := read (fun w => publish (getState w)).

(** Getters [size], [isRunning], [isFlushing], and [dump()]. *)
Definition get_size (w : World) : nat := length (items (self w)).
Definition get_isRunning (w : World) : bool := running (self w).
Definition get_isFlushing (w : World) : bool := flushing (self w).
Definition dump (w : World) : list T := items (self w).

(** [configure(config)]: every entry whose value is not [undefined] is
    assigned. *)
Definition merge_config (p : PartialConfig) (c : BatchFlusherConfig) : BatchFlusherConfig :=
  {| flushIntervalMs :=
       match p_flushIntervalMs p with Some v => Some v | None => flushIntervalMs c end;
     maxBatchSize :=
       match p_maxBatchSize p with Some v => v | None => maxBatchSize c end;
     flushThreshold :=
       match p_flushThreshold p with Some v => Some v | None => flushThreshold c end;
     strictFlush :=
       match p_strictFlush p with Some v => Some v | None => strictFlush c end;
     logger :=
       match p_logger p with Some v => Some v | None => logger c end |}.

Definition configure (p : PartialConfig) : Cmd :=
  read (fun w => set_config (merge_config p (config (self w)))).

(** The promise of [flush()] has settled with [r]: an external caller gets
    it; #doFlush and drain continue in a later step. *)
Definition flush_settled (k : nat) (a : Awaiter) (r : Result Err bool) : Cmd :=
  match a with
  | ByCaller => remove_task k ;; push_settled k r
  | _ => set_task k (AwaitFlush a r)
  end.

(** The [finally] block of [flush()]. *)
Definition flush_finally : Cmd :=
  set_flushing false ;; notify.

(** [flush()] up to its first [await], inside the async call [k]. *)
Definition flush (k : nat) (a : Awaiter) : Cmd :=
  read (fun w =>
    match items (self w) with
    | [] =>
        debug "flush skipped (empty)" ;;
        flush_settled k a (Fulfilled true)
    | _ :: _ =>
        let snapshot := items (self w) in
        set_items [] ;;
        set_flushing true ;;
        notify ;;
        debug ("flushing " ++ show_nat (length snapshot) ++ " items...")%string ;;
        read (fun w' =>
          push_call {| call_id := k; call_items := snapshot; call_seen := getState w' |}) ;;
        match flusher_sync k snapshot with
        | Some e => flush_finally ;; flush_settled k a (Rejected e)
        | None => set_task k (AwaitFlusher a)
        end
    end).

(** [flush()] after [await this._flusher(items)] settled with [r]. *)
Definition flush_resume (k : nat) (a : Awaiter) (r : Result Err bool) : Cmd :=
  match r with
  | Fulfilled b => debug ("flush complete (result: " ++ show_bool b ++ ")")%string
  | Rejected _ => skip
  end ;;
  flush_finally ;;
  flush_settled k a r.

(** [#doFlush()] up to its [await]: a new async call around [flush()]. *)
Definition doFlush (g : Trigger) : Cmd :=
  fresh (fun k => flush k (ByDoFlush g)).

Definition is_strict (c : BatchFlusherConfig) : bool :=
  match strictFlush c with Some true => true | _ => false end.

(** The [try]/[catch] of [#doFlush] once [flush()] settled with [r]. *)
Definition doFlush_catch (r : Result Err bool) (w : World) : Result Err unit * World :=
  match r with
  | Fulfilled _ => (Fulfilled tt, w)
  | Rejected e =>
      if is_strict (config (self w)) then (Rejected e, w)
      else
        (Fulfilled tt,
         push_log {| log_sink := match logger (config (self w)) with
                                 | Some l => Custom l
                                 | None => Console
                                 end;
                     log_namespace := None;
                     log_level := LWarn;
                     log_args := ["[BatchFlusher] Flush error ignored"%string; to_string e] |} w)
  end.

(** [#scheduleFlush()]. *)
Definition scheduleFlush : Cmd :=
  read (fun w =>
    match flushIntervalMs (config (self w)) with
    | Some interval =>
        if truthy interval then
          set_flushTimer (Some (next_id (loop w))) ;; setTimeout interval
        else skip
    | None => skip
    end).

(** [start()]. *)
Definition start : Cmd :=
  debug "start" ;;
  set_running true ;;
  notify ;;
  scheduleFlush.

(** [stop()]. *)
Definition stop : Cmd :=
  debug "stop" ;;
  set_running false ;;
  read (fun w => clearTimeout (flushTimer (self w))) ;;
  notify.

(** [add(item)]. *)
Definition add (item : T) : Cmd :=
  read (fun w => set_items (items (self w) ++ [item])) ;;
  read (fun w => debug ("add (size: " ++ show_nat (length (items (self w))) ++ ")")%string) ;;
  read (fun w =>
    if (maxBatchSize (config (self w)) <? Z.of_nat (length (items (self w))))%Z then
      set_items (slice (- maxBatchSize (config (self w))) (items (self w))) ;;
      read (fun w' =>
        debug ("maxBatchSize cap applied (size: "
               ++ show_nat (length (items (self w'))) ++ ")")%string)
    else skip) ;;
  notify ;;
  read (fun w =>
    match flushThreshold (config (self w)) with
    | Some threshold =>
        if truthy threshold && (threshold <=? Z.of_nat (length (items (self w))))%Z then
          debug ("flushThreshold reached (" ++ show_Z threshold ++ "), flushing...")%string ;;
          doFlush Threshold
        else skip
    | None => skip
    end).

(** [reset()]. *)
Definition reset : Cmd :=
  set_items [] ;; notify.

(** [drain()] up to its [await]. *)
Definition drain : Cmd :=
  debug "drain" ;;
  fresh (fun k => flush k ByDrain).

(** [subscribe(callback)]: the callback is called at once with the current
    state and then registered; the returned unsubscribe function is named by
    the fresh handle. *)
Definition subscribe (callback : nat) : Cmd :=
  read (fun w => push_delivered [(callback, getState w)]) ;;
  fresh (fun h => read (fun w => set_subscribers (subscribers (self w) ++ [(h, callback)]))).

(** Modelled from the spec: calling the function returned by [subscribe]
    removes that registration from the observer list. *)
Definition unsubscribe (h : nat) : Cmd :=
  read (fun w => set_subscribers (remove_key h (subscribers (self w)))).

(** The timer callback of [#scheduleFlush], up to its [await]. *)
Definition timer_fire (t : nat) : Cmd :=
  read (fun w =>
    match lookup t (timers (loop w)) with
    | Some _ => set_timers (remove_key t (timers (loop w))) ;; doFlush Timer
    | None => skip
    end).

(** The continuation of a suspended call whose awaited promise has settled. *)
Definition resume (k : nat) : Cmd :=
  read (fun w =>
    match lookup k (tasks (loop w)) with
    | Some (AwaitFlush ByDrain r) =>
        (* drain: const result = await this.flush(); this.stop(); return result *)
        remove_task k ;;
        match r with
        | Fulfilled b => stop ;; push_settled k (Fulfilled b)
        | Rejected e => push_settled k (Rejected e)
        end
    | Some (AwaitFlush (ByDoFlush g) r) =>
        fun w0 =>
          let (r', w1) := doFlush_catch r w0 in
          match g with
          | Threshold =>
              (* add does not await: a rejection is unhandled *)
              match r' with
              | Fulfilled _ => remove_task k w1
              | Rejected e => (remove_task k ;; push_unhandled k e) w1
              end
          | Timer => set_task k (AwaitDoFlush r') w1
          end
    | Some (AwaitDoFlush r) =>
        (* await this.#doFlush(); clearTimeout(this.#flushTimer); this.#scheduleFlush() *)
        remove_task k ;;
        match r with
        | Fulfilled _ =>
            read (fun w' => clearTimeout (flushTimer (self w'))) ;; scheduleFlush
        | Rejected e => push_unhandled k e
        end
    | _ => skip
    end).

(** The promise returned by the [k]-th callback invocation settles. *)
Definition settle (k : nat) (r : Result Err bool) : Cmd :=
  read (fun w =>
    match lookup k (tasks (loop w)) with
    | Some (AwaitFlusher a) => flush_resume k a r
    | _ => skip
    end).

(** ** Events and runs *)

Inductive Event : Type :=
| EvAdd (item : T)
| EvFlush
| EvDrain
| EvStart
| EvStop
| EvReset
| EvConfigure (p : PartialConfig)
| EvSubscribe (callback : nat)
| EvUnsubscribe (h : nat)
| EvTimer (t : nat)
| EvSettle (k : nat) (r : Result Err bool)
| EvResume (k : nat).

Definition step (w : World) (e : Event) : World :=
  match e with
  | EvAdd item => add item w
  | EvFlush => fresh (fun k => flush k ByCaller) w
  | EvDrain => drain w
  | EvStart => start w
  | EvStop => stop w
  | EvReset => reset w
  | EvConfigure p => configure p w
  | EvSubscribe cb => subscribe cb w
  | EvUnsubscribe h => unsubscribe h w
  | EvTimer t => timer_fire t w
  | EvSettle k r => settle k r w
  | EvResume k => resume k w
  end.

Definition run (w : World) (evs : list Event) : World := fold_left step evs w.

(** The constructor: field initialisers, [configure], the namespaced logger,
    and [autostart && this.start()]. *)
Definition default_config : BatchFlusherConfig :=
  {| flushIntervalMs := Some 1000%Z; maxBatchSize := 100%Z; flushThreshold := None;
     strictFlush := Some false; logger := None |}.

Definition blank : World :=
  {| self := {| config := default_config; items := []; flushTimer := None; running := false;
                flushing := false; subscribers := []; base_logger := Clog |};
     loop := {| timers := []; tasks := []; next_id := 0 |};
     trace := {| flusher_calls := []; delivered := []; logged := []; settled := [];
                 unhandled := [] |} |}.

Definition new_BatchFlusher (cfg : option PartialConfig) (autostart : bool) : World :=
  ((match cfg with Some p => configure p | None => skip end) ;;
   read (fun w =>
     set_base_logger (match logger (config (self w)) with
                      | Some l => Custom l
                      | None => Clog
                      end)) ;;
   (if autostart then start else skip)) blank.

End BatchFlusher.

Arguments EvAdd {T Err} item.
Arguments EvFlush {T Err}.
Arguments EvDrain {T Err}.
Arguments EvStart {T Err}.
Arguments EvStop {T Err}.
Arguments EvReset {T Err}.
Arguments EvConfigure {T Err} p.
Arguments EvSubscribe {T Err} callback.
Arguments EvUnsubscribe {T Err} h.
Arguments EvTimer {T Err} t.
Arguments EvSettle {T Err} k r.
Arguments EvResume {T Err} k.
Arguments AwaitFlusher {Err} a.
Arguments AwaitFlush {Err} a r.
Arguments AwaitDoFlush {Err} r.

Arguments slice : simpl never.
Arguments lastn : simpl never.
Arguments show_nat : simpl never.
Arguments show_Z : simpl never.

(** ** Vocabulary of the properties *)

(** What [add] leaves in the buffer before it notifies: the whole list, or
    its [slice(-maxBatchSize)] when it is longer than [maxBatchSize]. *)
Definition capped {A : Type} (m : Z) (l : list A) : list A :=
  if (m <? Z.of_nat (length l))%Z then slice (- m) l else l.

(** The count threshold is configured (non-zero) and a buffer of [n] items
    reaches it. *)
Definition threshold_reached (c : BatchFlusherConfig) (n : nat) : bool :=
  match flushThreshold c with
  | Some t => truthy t && (t <=? Z.of_nat n)%Z
  | None => false
  end.

(** One [publish]: every registered callback, with the same snapshot. *)
Definition broadcast (subs : list (nat * nat)) (st : BatchFlusherState)
  : list (nat * BatchFlusherState) :=
  map (fun s => (snd s, st)) subs.

(** The invocations of the callback [cb] in a list of deliveries. *)
Definition calls_of (cb : nat) (d : list (nat * BatchFlusherState))
  : list BatchFlusherState :=
  map snd (filter (fun p => Nat.eqb (fst p) cb) d).

(** How many registrations the callback [cb] has. *)
Definition registrations (cb : nat) (subs : list (nat * nat)) : nat :=
  length (filter (fun s => Nat.eqb (snd s) cb) subs).

(** The callback invocations in flight that an internal trigger started. *)
Definition is_internal_in_flight {Err : Type} (p : nat * Task Err) : bool :=
  match snd p with
  | AwaitFlusher (ByDoFlush _) => true
  | _ => false
  end.

Definition internal_in_flight {T Err : Type} (w : World T Err) : list (nat * Task Err) :=
  filter is_internal_in_flight (tasks (loop w)).

(** Everything handed to the flush callback so far, in order. *)
Definition delivered_items {T Err : Type} (w : World T Err) : list T :=
  concat (map (@call_items T) (flusher_calls (trace w))).

(** The items a list of events adds, in order. *)
Definition added {T Err : Type} (evs : list (Event T Err)) : list T :=
  flat_map (fun e => match e with EvAdd x => [x] | _ => [] end) evs.

(** Events that neither empty the buffer by [reset] nor change the
    configuration. *)
Definition keeps_items {T Err : Type} (e : Event T Err) : bool :=
  match e with
  | EvReset | EvConfigure _ => false
  | _ => true
  end.

Definition is_add {T Err : Type} (e : Event T Err) : bool :=
  match e with
  | EvAdd _ => true
  | _ => false
  end.

(** Handles of suspended calls are older than the next fresh handle. *)
Definition tasks_fresh {T Err : Type} (w : World T Err) : Prop :=
  forall k t, In (k, t) (tasks (loop w)) -> k < next_id (loop w).

(** How the settled promise of [flush()] reaches whoever awaits it: an
    external caller sees it settle; #doFlush and drain are queued to go on. *)
Definition handed_to {T Err : Type} (k : nat) (a : Awaiter) (r : Result Err bool)
  (v w' : World T Err) : Prop :=
  match a with
  | ByCaller =>
      tasks (loop w') = remove_key k (tasks (loop v))
      /\ settled (trace w') = settled (trace v) ++ [(k, r)]
  | _ =>
      tasks (loop w') = remove_key k (tasks (loop v)) ++ [(k, AwaitFlush a r)]
      /\ settled (trace w') = settled (trace v)
  end.

(** A step on the suspended calls that concerns the call [k] only. *)
Definition touches_only {Err : Type} (k : nat) (l l' : list (nat * Task Err)) : Prop :=
  exists tl, l' = remove_key k l ++ tl /\ forall p, In p tl -> fst p = k.

(** The event [e] is the settlement or the continuation of the call [k]. *)
Definition concerns {T Err : Type} (k : nat) (e : Event T Err) : bool :=
  match e with
  | EvSettle j _ => Nat.eqb j k
  | EvResume j => Nat.eqb j k
  | _ => false
  end.

(** Order-preserving sub-lists: [subseq l l'] when [l] is [l'] with some
    elements left out. *)
Inductive subseq {A : Type} : list A -> list A -> Prop :=
| subseq_nil : subseq [] []
| subseq_skip (x : A) (l l' : list A) : subseq l l' -> subseq l (x :: l')
| subseq_keep (x : A) (l l' : list A) : subseq l l' -> subseq (x :: l) (x :: l').

(** A check of [tasks_fresh] that computes. *)
Definition tasks_fresh_check {T Err : Type} (w : World T Err) : bool :=
  forallb (fun p => Nat.ltb (fst p) (next_id (loop w))) (tasks (loop w)).

(** The deliveries made between two worlds of a run. *)
Definition news {T Err : Type} (v v' : World T Err) : list (nat * BatchFlusherState) :=
  skipn (length (delivered (trace v))) (delivered (trace v')).

Definition is_subscribe_of {T Err : Type} (cb : nat) (e : Event T Err) : bool :=
  match e with
  | EvSubscribe cb' => Nat.eqb cb' cb
  | _ => false
  end.

(** At most the timer named by [#flushTimer] is armed. *)
Definition single_timer {T Err : Type} (w : World T Err) : Prop :=
  forall t d, In (t, d) (timers (loop w)) -> flushTimer (self w) = Some t.

(** [start()] is called while a timer is armed. *)
Definition rearms {T Err : Type} (w : World T Err) (e : Event T Err) : bool :=
  match e with
  | EvStart => match timers (loop w) with [] => false | _ :: _ => true end
  | _ => false
  end.


(** What [#scheduleFlush] arms under the configuration [c]: one timer with
    the handle [h], or nothing when the interval is 0 or undefined. *)
Definition next_timer (c : BatchFlusherConfig) (h : nat) : list (nat * Z) :=
  match flushIntervalMs c with
  | Some i => if truthy i then [(h, i)] else []
  | None => []
  end.

(** The timers left by [clearTimeout(this.#flushTimer)]. *)
Definition cleared {T Err : Type} (w : World T Err) : list (nat * Z) :=
  match flushTimer (self w) with
  | Some t => remove_key t (timers (loop w))
  | None => timers (loop w)
  end.

(** The message of the [catch] of [#doFlush]. *)
Definition warning {T Err : Type} (to_string : Err -> string) (w : World T Err) (e : Err)
  : LogEntry :=
  {| log_sink := match logger (config (self w)) with
                 | Some l => Custom l
                 | None => Console
                 end;
     log_namespace := None;
     log_level := LWarn;
     log_args := ["[BatchFlusher] Flush error ignored"%string; to_string e] |}.

(** A message of [this.#logger.debug]. *)
Definition debug_entry {T Err : Type} (w : World T Err) (msg : string) : LogEntry :=
  {| log_sink := base_logger (self w); log_namespace := Some "BatchFlusher"%string;
     log_level := LDebug; log_args := [msg] |}.

(** The suspended calls that belong to a timer callback. *)
Definition is_timer_task {Err : Type} (p : nat * Task Err) : bool :=
  match snd p with
  | AwaitFlusher (ByDoFlush Timer) => true
  | AwaitFlush (ByDoFlush Timer) _ => true
  | AwaitDoFlush _ => true
  | _ => false
  end.

(** No timer is armed and no timer callback is suspended. *)
Definition timer_idle {T Err : Type} (w : World T Err) : Prop :=
  timers (loop w) = []
  /\ forall p, In p (tasks (loop w)) -> is_timer_task p = false.

Definition timer_idle_check {T Err : Type} (w : World T Err) : bool :=
  match timers (loop w) with [] => true | _ :: _ => false end
  && forallb (fun p => negb (is_timer_task p)) (tasks (loop w)).

Definition is_start {T Err : Type} (e : Event T Err) : bool :=
  match e with
  | EvStart => true
  | _ => false
  end.

(** The event is a [configure] call that sets [maxBatchSize]. *)
Definition sets_cap {T Err : Type} (e : Event T Err) : bool :=
  match e with
  | EvConfigure p => match p_maxBatchSize p with Some _ => true | None => false end
  | _ => false
  end.

(** The two kinds of logger calls the class makes: [debug] on the logger the
    constructor built, under the namespace, and the [warn] of [#doFlush] on
    the configured logger or the console. *)
Definition class_log (base : Sink) (e : LogEntry) : Prop :=
  match log_level e with
  | LDebug => log_sink e = base /\ log_namespace e = Some "BatchFlusher"%string
  | LWarn =>
      log_sink e <> Clog
      /\ log_namespace e = None
      /\ exists msg, log_args e = ["[BatchFlusher] Flush error ignored"%string; msg]
  | _ => False
  end.

(** The event is a [configure] call that sets [flushIntervalMs]. *)
Definition sets_interval {T Err : Type} (e : Event T Err) : bool :=
  match e with
  | EvConfigure p => match p_flushIntervalMs p with Some _ => true | None => false end
  | _ => false
  end.

(** The event is a [configure] call that turns [strictFlush] on. *)
Definition sets_strict {T Err : Type} (e : Event T Err) : bool :=
  match e with
  | EvConfigure p => match p_strictFlush p with Some true => true | _ => false end
  | _ => false
  end.

(** A timer callback whose [#doFlush] has rejected. *)
Definition is_rejected_timer_task {Err : Type} (p : nat * Task Err) : bool :=
  match snd p with
  | AwaitDoFlush (Rejected _) => true
  | _ => false
  end.

(** The event changes the subscriptions. *)
Definition is_subscription {T Err : Type} (e : Event T Err) : bool :=
  match e with
  | EvSubscribe _ | EvUnsubscribe _ => true
  | _ => false
  end.

(** ** A concrete instance: string items, string errors, a callback that
    always returns a promise. *)

Definition demo_to_string (e : string) : string := e.
Definition demo_flusher (k : nat) (l : list string) : option string := None.
Definition throwing_flusher (k : nat) (l : list string) : option string := Some "boom"%string.

Definition demo_config (interval cap : Z) (threshold : option Z) (strict : option bool)
  : PartialConfig :=
  {| p_flushIntervalMs := Some interval; p_maxBatchSize := Some cap;
     p_flushThreshold := threshold; p_strictFlush := strict; p_logger := None |}.

Definition demo_new (interval cap : Z) (threshold : option Z) (strict : option bool)
  (autostart : bool) : World string string :=
  new_BatchFlusher string string (Some (demo_config interval cap threshold strict)) autostart.

Definition demo_run : World string string -> list (Event string string) -> World string string :=
  run demo_to_string demo_flusher.

(** Worlds taken from the test suite of the repository. *)

(** Interval mode with [maxBatchSize = 4], four items added. *)
Definition w_cap : World string string :=
  Eval vm_compute in
  demo_run (demo_new 20 4 None None true)
    [EvAdd "a"%string; EvAdd "b"%string; EvAdd "c"%string; EvAdd "d"%string].

(** Amount mode: no timer, [flushThreshold = 3]. *)
Definition w_amount : World string string :=
  Eval vm_compute in demo_new 0 100 (Some 3%Z) None true.

(** A running accumulator with three buffered items. *)
Definition w_three : World string string :=
  Eval vm_compute in
  demo_run (demo_new 1000 100 None None true)
    [EvAdd "a"%string; EvAdd "b"%string; EvAdd "c"%string].

(** Not started, no timer, nothing buffered. *)
Definition w_idle : World string string :=
  Eval vm_compute in demo_new 0 100 None None false.

(** A threshold flush whose callback has rejected; [#doFlush] (call 0) is
    about to catch. Without and with [strictFlush]. *)
Definition w_failed : World string string :=
  Eval vm_compute in
  demo_run (demo_new 0 100 (Some 1%Z) (Some false) true)
    [EvAdd "a"%string; EvSettle 0 (Rejected "boom"%string)].

Definition w_failed_strict : World string string :=
  Eval vm_compute in
  demo_run (demo_new 0 100 (Some 1%Z) (Some true) true)
    [EvAdd "a"%string; EvSettle 0 (Rejected "boom"%string)].

(** [flushThreshold = 1] and one invocation in flight. *)
Definition w_busy : World string string :=
  Eval vm_compute in
  demo_run (demo_new 0 100 (Some 1%Z) None true) [EvAdd "a"%string].

(** Just constructed: running, the first timer armed, nothing buffered. *)
Definition w_fresh : World string string :=
  Eval vm_compute in demo_new 1000 100 None None true.

(** Interval mode under [strictFlush], one item buffered. *)
Definition w_strict : World string string :=
  Eval vm_compute in
  demo_run (demo_new 1000 100 None (Some true) true) [EvAdd "a"%string].

(** [flushThreshold = 1] and two invocations in flight. *)
Definition w_two : World string string :=
  Eval vm_compute in
  demo_run (demo_new 0 100 (Some 1%Z) None true) [EvAdd "a"%string; EvAdd "b"%string].

(** [maxBatchSize] 0 and -1, no timer, no threshold. *)
Definition w_zero : World string string :=
  Eval vm_compute in demo_new 0 0 None None true.

Definition w_negative : World string string :=
  Eval vm_compute in demo_new 0 (-1) None None true.

(** ** Proof automation *)

(** Evaluation of the blocks of the class on a world given by its fields. *)
Ltac world w :=
  destruct w as [[[?fi ?mb ?th ?sf ?lgr] ?it ?ft ?rn ?fl ?sb ?bl] [?tm ?tk ?nx]
                  [?fc ?dl ?lg ?st ?uh]].

Ltac run_blocks :=
  cbv beta iota zeta delta
    [step add reset start stop drain subscribe unsubscribe configure merge_config timer_fire
     settle resume doFlush_catch doFlush flush flush_resume flush_finally flush_settled
     scheduleFlush setTimeout clearTimeout set_task remove_task fresh notify publish debug
     getState is_strict seq read skip broadcast handed_to
     set_config set_items set_flushTimer set_running set_flushing set_subscribers
     set_base_logger set_timers set_tasks set_next_id push_call push_delivered push_log
     push_settled push_unhandled upd_self upd_loop upd_trace
     self loop trace config items flushTimer running flushing subscribers base_logger
     timers tasks next_id flusher_calls delivered logged settled unhandled
     flushIntervalMs maxBatchSize flushThreshold strictFlush logger].

Ltac run_blocks_in H :=
  cbv beta iota zeta delta
    [step add reset start stop drain subscribe unsubscribe configure merge_config timer_fire
     settle resume doFlush_catch doFlush flush flush_resume flush_finally flush_settled
     scheduleFlush setTimeout clearTimeout set_task remove_task fresh notify publish debug
     getState is_strict seq read skip broadcast handed_to
     set_config set_items set_flushTimer set_running set_flushing set_subscribers
     set_base_logger set_timers set_tasks set_next_id push_call push_delivered push_log
     push_settled push_unhandled upd_self upd_loop upd_trace
     self loop trace config items flushTimer running flushing subscribers base_logger
     timers tasks next_id flusher_calls delivered logged settled unhandled
     flushIntervalMs maxBatchSize flushThreshold strictFlush logger] in H.

Ltac finish := repeat split; reflexivity.

(** Projections of a field update. *)
Ltac proj :=
  cbn [set_config set_items set_flushTimer set_running set_flushing set_subscribers
       upd_self self config items flushTimer running flushing subscribers].

(** A step appends log entries of the expected kinds. *)
Ltac logs_done :=
  eexists; split;
  [rewrite <- ?app_assoc; first [reflexivity | symmetry; apply app_nil_r]
  | split; [repeat constructor; cbn; repeat split; try reflexivity; try discriminate;
            eexists; reflexivity
           | reflexivity]].

(** * Properties *)

Unset Implicit Arguments.

(** ** Lists *)

Lemma lastn_length {A : Type} (n : nat) (l : list A) :
  length (lastn n l) = Nat.min n (length l).
Proof. unfold lastn. rewrite length_skipn. lia. Qed.

Lemma lastn_all {A : Type} (n : nat) (l : list A) :
  length l <= n -> lastn n l = l.
Proof.
  intros H. unfold lastn. replace (length l - n) with 0 by lia. reflexivity.
Qed.

Lemma lastn_app_long {A : Type} (n : nat) (p s : list A) :
  n <= length s -> lastn n (p ++ s) = lastn n s.
Proof.
  intros H. unfold lastn. rewrite length_app, skipn_app.
  replace (length p + length s - n - length p) with (length s - n) by lia.
  rewrite skipn_all2 by lia. reflexivity.
Qed.

Lemma lastn_lastn_app {A : Type} (n : nat) (l xs : list A) :
  lastn n (lastn n l ++ xs) = lastn n (l ++ xs).
Proof.
  destruct (Nat.le_gt_cases (length l) n) as [Hle | Hgt].
  - rewrite (lastn_all n l Hle). reflexivity.
  - rewrite <- (firstn_skipn (length l - n) l) at 2.
    rewrite <- app_assoc. fold (lastn n l).
    apply eq_sym, lastn_app_long.
    rewrite length_app, lastn_length. lia.
Qed.

Lemma lastn_snoc {A : Type} (n : nat) (l : list A) (x : A) :
  0 < n -> exists front, lastn n (l ++ [x]) = front ++ [x].
Proof.
  intros Hn. unfold lastn. rewrite length_app, skipn_app. cbn [length].
  replace (length l + 1 - n - length l) with 0 by lia.
  exists (skipn (length l + 1 - n) l). reflexivity.
Qed.

Lemma slice_neg_lastn {A : Type} (m : Z) (l : list A) :
  (0 < m)%Z -> slice (- m) l = lastn (Z.to_nat m) l.
Proof.
  intros Hm. unfold slice, lastn.
  replace (- m <? 0)%Z with true by (symmetry; apply Z.ltb_lt; lia).
  f_equal. lia.
Qed.

Lemma capped_lastn {A : Type} (m : Z) (l : list A) :
  (0 < m)%Z -> capped m l = lastn (Z.to_nat m) l.
Proof.
  intros Hm. unfold capped.
  destruct (m <? Z.of_nat (length l))%Z eqn:E.
  - apply slice_neg_lastn, Hm.
  - apply Z.ltb_ge in E. symmetry. apply lastn_all. lia.
Qed.

Lemma lookup_remove_key_ne {A : Type} (k k' : nat) (l : list (nat * A)) :
  k <> k' -> lookup k (remove_key k' l) = lookup k l.
Proof.
  intros Hne. unfold remove_key.
  induction l as [| [j a] l IH]; cbn; [reflexivity |].
  destruct (Nat.eqb_spec k' j) as [E | Hj]; cbn.
  - rewrite IH. destruct (Nat.eqb_spec k j); [congruence | reflexivity].
  - rewrite IH. reflexivity.
Qed.

Lemma lookup_remove_key_eq {A : Type} (k : nat) (l : list (nat * A)) :
  lookup k (remove_key k l) = None.
Proof.
  unfold remove_key.
  induction l as [| [j a] l IH]; cbn; [reflexivity |].
  destruct (Nat.eqb_spec k j) as [E | Hj]; cbn; [exact IH |].
  destruct (Nat.eqb_spec k j); [congruence | exact IH].
Qed.

Lemma lookup_app {A : Type} (k : nat) (l1 l2 : list (nat * A)) :
  lookup k (l1 ++ l2) = match lookup k l1 with Some a => Some a | None => lookup k l2 end.
Proof.
  induction l1 as [| [j a] l1 IH]; cbn; [reflexivity |].
  destruct (Nat.eqb k j); [reflexivity | exact IH].
Qed.

Lemma lookup_In {A : Type} (k : nat) (a : A) (l : list (nat * A)) :
  lookup k l = Some a -> In (k, a) l.
Proof.
  induction l as [| [j b] l IH]; cbn; [discriminate |].
  destruct (Nat.eqb_spec k j) as [-> | Hj].
  - intros [= ->]. left. reflexivity.
  - intros H. right. apply IH, H.
Qed.

Lemma remove_key_fresh {A : Type} (k : nat) (l : list (nat * A)) :
  (forall j a, In (j, a) l -> j <> k) -> remove_key k l = l.
Proof.
  unfold remove_key.
  induction l as [| [j a] l IH]; cbn; intros H; [reflexivity |].
  destruct (Nat.eqb_spec k j) as [E | Hj]; cbn.
  - exfalso. apply (H j a); [left; reflexivity | congruence].
  - f_equal. apply IH. intros j' a' Hin. apply (H j' a'). right. exact Hin.
Qed.

Lemma In_remove_key {A : Type} (k j : nat) (a : A) (l : list (nat * A)) :
  In (j, a) (remove_key k l) -> In (j, a) l.
Proof. unfold remove_key. intros H. apply filter_In in H. apply H. Qed.

Lemma remove_key_only {A : Type} (k : nat) (l : list (nat * A)) :
  (forall j a, In (j, a) l -> j = k) -> remove_key k l = [].
Proof.
  unfold remove_key. induction l as [| [j a] l IH]; cbn; intros H; [reflexivity |].
  rewrite (H j a (or_introl eq_refl)), Nat.eqb_refl. cbn.
  apply IH. intros j' a' Hin. apply (H j' a'). right. exact Hin.
Qed.

Lemma remove_key_app {A : Type} (k : nat) (l1 l2 : list (nat * A)) :
  remove_key k (l1 ++ l2) = remove_key k l1 ++ remove_key k l2.
Proof. unfold remove_key. apply filter_app. Qed.

Lemma remove_key_twice {A : Type} (k : nat) (l : list (nat * A)) :
  remove_key k (remove_key k l) = remove_key k l.
Proof.
  unfold remove_key. induction l as [| [j a] l IH]; cbn; [reflexivity |].
  destruct (Nat.eqb k j) eqn:E; cbn; [exact IH |]. rewrite E. cbn. f_equal. exact IH.
Qed.

Lemma subseq_refl {A : Type} (l : list A) : subseq l l.
Proof. induction l; constructor; assumption. Qed.

Lemma subseq_trans {A : Type} (l1 l2 l3 : list A) :
  subseq l1 l2 -> subseq l2 l3 -> subseq l1 l3.
Proof.
  intros H12 H23. revert l1 H12.
  induction H23 as [| x l2 l3 H IH | x l2 l3 H IH]; intros l1 H12.
  - exact H12.
  - constructor. apply IH, H12.
  - inversion H12 as [| y l0 l0' H0 | y l0 l0' H0]; subst.
    + apply subseq_skip. apply IH. exact H0.
    + apply subseq_keep. apply IH. exact H0.
Qed.

Lemma subseq_app {A : Type} (l1 l1' l2 l2' : list A) :
  subseq l1 l1' -> subseq l2 l2' -> subseq (l1 ++ l2) (l1' ++ l2').
Proof.
  intros H1 H2. induction H1; cbn; [exact H2 | |].
  - apply subseq_skip. assumption.
  - apply subseq_keep. assumption.
Qed.

Lemma subseq_skipn {A : Type} (n : nat) (l : list A) : subseq (skipn n l) l.
Proof.
  revert l. induction n as [| n IH]; intros l; [apply subseq_refl |].
  destruct l as [| x l]; cbn; [constructor |]. apply subseq_skip. apply IH.
Qed.


Section Properties.

Variables T Err : Type.
Variable to_string : Err -> string.
Variable flusher_sync : nat -> list T -> option Err.

(** ** [flush] *)

Lemma flush_settled_spec (k : nat) (a : Awaiter) (r : Result Err bool) (v : World T Err) :
  let w' := flush_settled k a r v in
  self w' = self v
  /\ timers (loop w') = timers (loop v)
  /\ next_id (loop w') = next_id (loop v)
  /\ flusher_calls (trace w') = flusher_calls (trace v)
  /\ delivered (trace w') = delivered (trace v)
  /\ logged (trace w') = logged (trace v)
  /\ unhandled (trace w') = unhandled (trace v)
  /\ handed_to k a r v w'.
Proof. world v. destruct a as [| | g]; run_blocks; finish. Qed.

(** [flush()] on a non-empty buffer whose callback returns a promise. *)
Lemma flush_pending (k : nat) (a : Awaiter) (w : World T Err) :
  items (self w) <> [] ->
  flusher_sync k (items (self w)) = None ->
  let w' := flush flusher_sync k a w in
  let seen := {| size := 0; isRunning := running (self w); isFlushing := true |} in
  self w' = self (set_flushing true (set_items [] w))
  /\ timers (loop w') = timers (loop w)
  /\ next_id (loop w') = next_id (loop w)
  /\ tasks (loop w') = remove_key k (tasks (loop w)) ++ [(k, AwaitFlusher a)]
  /\ flusher_calls (trace w') =
       flusher_calls (trace w)
       ++ [{| call_id := k; call_items := items (self w); call_seen := seen |}]
  /\ delivered (trace w') = delivered (trace w) ++ broadcast (subscribers (self w)) seen
  /\ settled (trace w') = settled (trace w)
  /\ unhandled (trace w') = unhandled (trace w).
Proof.
  world w. destruct it as [| x l]; [intros H; exfalso; apply H; reflexivity |].
  intros _ Hs. run_blocks_in Hs. run_blocks. rewrite Hs. finish.
Qed.

(** [flush()] on a non-empty buffer whose callback throws before returning:
    the [finally] block runs in the same synchronous block. *)
Lemma flush_thrown (k : nat) (a : Awaiter) (e : Err) (w : World T Err) :
  items (self w) <> [] ->
  flusher_sync k (items (self w)) = Some e ->
  let w' := flush flusher_sync k a w in
  let seen := {| size := 0; isRunning := running (self w); isFlushing := true |} in
  let after := {| size := 0; isRunning := running (self w); isFlushing := false |} in
  self w' = self (set_flushing false (set_items [] w))
  /\ timers (loop w') = timers (loop w)
  /\ next_id (loop w') = next_id (loop w)
  /\ flusher_calls (trace w') =
       flusher_calls (trace w)
       ++ [{| call_id := k; call_items := items (self w); call_seen := seen |}]
  /\ delivered (trace w') =
       (delivered (trace w) ++ broadcast (subscribers (self w)) seen)
       ++ broadcast (subscribers (self w)) after
  /\ unhandled (trace w') = unhandled (trace w)
  /\ handed_to k a (Rejected e) w w'.
Proof.
  world w. destruct it as [| x l]; [intros H; exfalso; apply H; reflexivity |].
  intros _ Hs. run_blocks_in Hs.
  destruct a as [| | g]; run_blocks; rewrite Hs; finish.
Qed.

(** [flush()] on an empty buffer: no callback, no notification, [true]. *)
Lemma flush_empty (k : nat) (a : Awaiter) (w : World T Err) :
  items (self w) = [] ->
  let w' := flush flusher_sync k a w in
  self w' = self w
  /\ timers (loop w') = timers (loop w)
  /\ next_id (loop w') = next_id (loop w)
  /\ flusher_calls (trace w') = flusher_calls (trace w)
  /\ delivered (trace w') = delivered (trace w)
  /\ unhandled (trace w') = unhandled (trace w)
  /\ handed_to k a (Fulfilled true) w w'.
Proof.
  world w. intros E. run_blocks_in E. subst it.
  destruct a as [| | g]; run_blocks; finish.
Qed.

(** The rest of [flush()] once the callback's promise settled: the [finally]
    block, then the result goes to whoever awaits. *)
Lemma settle_spec (k : nat) (a : Awaiter) (r : Result Err bool) (w : World T Err) :
  lookup k (tasks (loop w)) = Some (AwaitFlusher a) ->
  let w' := settle k r w in
  self w' = self (set_flushing false w)
  /\ timers (loop w') = timers (loop w)
  /\ next_id (loop w') = next_id (loop w)
  /\ flusher_calls (trace w') = flusher_calls (trace w)
  /\ delivered (trace w') =
       delivered (trace w)
       ++ broadcast (subscribers (self w))
            {| size := length (items (self w)); isRunning := running (self w);
               isFlushing := false |}
  /\ unhandled (trace w') = unhandled (trace w)
  /\ handed_to k a r w w'.
Proof.
  world w. intros Hk. run_blocks_in Hk. run_blocks. rewrite Hk.
  destruct a as [| | g]; destruct r as [b | e]; finish.
Qed.

(** A promise that is not pending cannot settle. *)
Lemma settle_not_pending (k : nat) (r : Result Err bool) (w : World T Err) :
  (forall a, lookup k (tasks (loop w)) <> Some (AwaitFlusher a)) ->
  settle k r w = w.
Proof.
  intros H. unfold settle, read.
  destruct (lookup k (tasks (loop w))) as [[a | a r' | r'] |] eqn:E; try reflexivity.
  exfalso. apply (H a). reflexivity.
Qed.

(** [settle] never touches the buffer, the running flag or the timers. *)
Lemma settle_frame (k : nat) (r : Result Err bool) (w : World T Err) :
  let w' := settle k r w in
  items (self w') = items (self w)
  /\ running (self w') = running (self w)
  /\ config (self w') = config (self w)
  /\ flushTimer (self w') = flushTimer (self w)
  /\ subscribers (self w') = subscribers (self w)
  /\ timers (loop w') = timers (loop w)
  /\ flusher_calls (trace w') = flusher_calls (trace w).
Proof.
  cbn zeta. destruct (lookup k (tasks (loop w))) as [[a | a r' | r'] |] eqn:E;
    try (rewrite settle_not_pending by (intros a'; rewrite E; discriminate); finish).
  destruct (settle_spec k a r w E) as (-> & -> & _ & -> & _). finish.
Qed.

(** [flush()] leaves the configuration, the running flag, the timer handle
    and the subscribers alone, and the buffer is empty afterwards. *)
Lemma flush_frame (k : nat) (a : Awaiter) (w : World T Err) :
  let w' := flush flusher_sync k a w in
  config (self w') = config (self w)
  /\ running (self w') = running (self w)
  /\ flushTimer (self w') = flushTimer (self w)
  /\ subscribers (self w') = subscribers (self w)
  /\ items (self w') = []
  /\ settled (trace w') = settled (trace w) ++
       match a with
       | ByCaller =>
           match items (self w) with
           | [] => [(k, Fulfilled true)]
           | _ :: _ => match flusher_sync k (items (self w)) with
                       | Some e => [(k, Rejected e)]
                       | None => []
                       end
           end
       | _ => []
       end
  /\ unhandled (trace w') = unhandled (trace w).
Proof.
  cbn zeta. destruct (items (self w)) as [| x l] eqn:E.
  - destruct (flush_empty k a w E) as (-> & _ & _ & _ & _ & -> & Hh).
    rewrite E. unfold handed_to in Hh.
    destruct a as [| | g]; destruct Hh as [_ ->]; rewrite ?app_nil_r; finish.
  - assert (Hne : items (self w) <> []) by (rewrite E; discriminate).
    rewrite <- E. destruct (flusher_sync k (items (self w))) as [e |] eqn:Hs.
    + destruct (flush_thrown k a e w Hne Hs) as (-> & _ & _ & _ & _ & -> & Hh).
      unfold handed_to in Hh.
      destruct a as [| | g]; destruct Hh as [_ ->]; rewrite ?app_nil_r; finish.
    + destruct (flush_pending k a w Hne Hs) as (-> & _ & _ & _ & _ & _ & -> & ->).
      destruct a as [| | g]; rewrite ?app_nil_r; finish.
Qed.

(** ** [add] *)

(** [add] when the threshold is not reached: the buffer is appended to and
    capped, the subscribers are told, and that is all. *)
Lemma add_quiet (x : T) (w : World T Err) :
  let l := capped (maxBatchSize (config (self w))) (items (self w) ++ [x]) in
  let told := {| size := length l; isRunning := running (self w);
                 isFlushing := flushing (self w) |} in
  threshold_reached (config (self w)) (length l) = false ->
  let w' := add flusher_sync x w in
  self w' = self (set_items l w)
  /\ loop w' = loop w
  /\ flusher_calls (trace w') = flusher_calls (trace w)
  /\ delivered (trace w') = delivered (trace w) ++ broadcast (subscribers (self w)) told
  /\ settled (trace w') = settled (trace w)
  /\ unhandled (trace w') = unhandled (trace w).
Proof.
  world w. unfold capped, threshold_reached.
  cbv beta iota zeta delta
    [add doFlush fresh notify publish debug getState seq read skip broadcast
     set_items set_next_id push_delivered push_log upd_self upd_loop upd_trace
     self loop trace config items flushTimer running flushing subscribers base_logger
     timers tasks next_id flusher_calls delivered logged settled unhandled
     flushIntervalMs maxBatchSize flushThreshold strictFlush logger].
  destruct (mb <? Z.of_nat (length (it ++ [x])))%Z;
    (destruct th as [t |];
     [destruct (truthy t && (t <=? Z.of_nat (length _))%Z) |]);
    intros H; try discriminate H; cbn; finish.
Qed.

(** [add] when the threshold is reached: after the same first part,
    [flush()] starts inside a fresh async [#doFlush]. *)
Lemma add_reached (x : T) (w : World T Err) :
  let l := capped (maxBatchSize (config (self w))) (items (self w) ++ [x]) in
  let told := {| size := length l; isRunning := running (self w);
                 isFlushing := flushing (self w) |} in
  threshold_reached (config (self w)) (length l) = true ->
  exists v : World T Err,
    add flusher_sync x w = flush flusher_sync (next_id (loop w)) (ByDoFlush Threshold) v
    /\ self v = self (set_items l w)
    /\ loop v = loop (set_next_id (S (next_id (loop w))) w)
    /\ flusher_calls (trace v) = flusher_calls (trace w)
    /\ delivered (trace v) = delivered (trace w) ++ broadcast (subscribers (self w)) told
    /\ settled (trace v) = settled (trace w)
    /\ unhandled (trace v) = unhandled (trace w).
Proof.
  world w. unfold capped, threshold_reached.
  cbv beta iota zeta delta
    [add doFlush fresh notify publish debug getState seq read skip broadcast
     set_items set_next_id push_delivered push_log upd_self upd_loop upd_trace
     self loop trace config items flushTimer running flushing subscribers base_logger
     timers tasks next_id flusher_calls delivered logged settled unhandled
     flushIntervalMs maxBatchSize flushThreshold strictFlush logger].
  destruct (mb <? Z.of_nat (length (it ++ [x])))%Z;
    (destruct th as [t |];
     [destruct (truthy t && (t <=? Z.of_nat (length _))%Z) |]);
    intros H; try discriminate H;
    eexists; (split; [reflexivity |]); cbn; finish.
Qed.

(** [add] never touches the configuration. *)
Lemma add_config (x : T) (w : World T Err) :
  config (self (add flusher_sync x w)) = config (self w).
Proof.
  destruct (threshold_reached (config (self w))
              (length (capped (maxBatchSize (config (self w))) (items (self w) ++ [x]))))
    eqn:E.
  - destruct (add_reached x w E) as (v & -> & Hv & _).
    destruct (items (self v)) as [| y l] eqn:Ei.
    + destruct (flush_empty (next_id (loop w)) (ByDoFlush Threshold) v Ei) as (-> & _).
      rewrite Hv. reflexivity.
    + assert (Hne : items (self v) <> []) by (rewrite Ei; discriminate).
      destruct (flusher_sync (next_id (loop w)) (items (self v))) as [e |] eqn:Hs.
      * destruct (flush_thrown _ (ByDoFlush Threshold) e v Hne Hs) as (-> & _).
        cbn. rewrite Hv. reflexivity.
      * destruct (flush_pending _ (ByDoFlush Threshold) v Hne Hs) as (-> & _).
        cbn. rewrite Hv. reflexivity.
  - destruct (add_quiet x w E) as (-> & _). reflexivity.
Qed.

(** The buffer when [add] returns, when the threshold is reached on a
    non-empty buffer: the buffer went to the callback. *)
Lemma add_flushing (x : T) (w : World T Err) :
  let l := capped (maxBatchSize (config (self w))) (items (self w) ++ [x]) in
  threshold_reached (config (self w)) (length l) = true ->
  l <> [] ->
  items (self (add flusher_sync x w)) = []
  /\ flusher_calls (trace (add flusher_sync x w)) =
       flusher_calls (trace w) ++
       [{| call_id := next_id (loop w); call_items := l;
           call_seen := {| size := 0; isRunning := running (self w); isFlushing := true |} |}].
Proof.
  intros l Hr Hne.
  destruct (add_reached x w Hr) as (v & -> & Hv & _ & Hc & _).
  assert (Hi : items (self v) = l) by (rewrite Hv; reflexivity).
  assert (Hrun : running (self v) = running (self w)) by (rewrite Hv; reflexivity).
  assert (Hne' : items (self v) <> []) by (rewrite Hi; exact Hne).
  destruct (flusher_sync (next_id (loop w)) (items (self v))) as [e |] eqn:Hs.
  - destruct (flush_thrown _ (ByDoFlush Threshold) e v Hne' Hs) as (-> & _ & _ & -> & _).
    rewrite Hc, Hi, Hrun. split; reflexivity.
  - destruct (flush_pending _ (ByDoFlush Threshold) v Hne' Hs) as (-> & _ & _ & _ & -> & _).
    rewrite Hc, Hi, Hrun. split; reflexivity.
Qed.

(** A run of [add] calls that never reaches the threshold keeps the last
    [maxBatchSize] items and calls nothing. *)
Lemma run_adds_quiet (xs : list T) :
  forall w : World T Err,
  (0 < maxBatchSize (config (self w)))%Z ->
  (forall n, n <= Z.to_nat (maxBatchSize (config (self w))) ->
             threshold_reached (config (self w)) n = false) ->
  let m := Z.to_nat (maxBatchSize (config (self w))) in
  let w' := run to_string flusher_sync w (map EvAdd xs) in
  lastn m (items (self w')) = lastn m (items (self w) ++ xs)
  /\ (xs <> [] -> length (items (self w')) <= m)
  /\ flusher_calls (trace w') = flusher_calls (trace w).
Proof.
  induction xs as [| x xs IH]; intros w Hm Hoff m; cbn zeta.
  - cbn. rewrite app_nil_r. split; [reflexivity | split; [congruence | reflexivity]].
  - change (run to_string flusher_sync w (map EvAdd (x :: xs)))
      with (run to_string flusher_sync (add flusher_sync x w) (map EvAdd xs)).
    assert (Hkept : capped (maxBatchSize (config (self w))) (items (self w) ++ [x])
                    = lastn m (items (self w) ++ [x])) by (apply capped_lastn, Hm).
    destruct (add_quiet x w) as (Hs & _ & Hc & _).
    { rewrite Hkept. apply Hoff. rewrite lastn_length. fold m. lia. }
    assert (Hi : items (self (add flusher_sync x w)) = lastn m (items (self w) ++ [x]))
      by (rewrite Hs, <- Hkept; reflexivity).
    specialize (IH (add flusher_sync x w)).
    rewrite add_config in IH. fold m in IH.
    destruct (IH Hm Hoff) as (IH1 & IH2 & IH3).
    split; [| split].
    + rewrite IH1, Hi, lastn_lastn_app, <- app_assoc. reflexivity.
    + intros _. destruct xs as [| y ys].
      * cbn. rewrite Hi, lastn_length. lia.
      * apply IH2. discriminate.
    + rewrite IH3. exact Hc.
Qed.

(** C1 (amended). With a positive [maxBatchSize], [add] appends the item and
    keeps the last [maxBatchSize] items of the buffer in order; the buffer is
    never longer than [maxBatchSize] when [add] returns, and the new item is
    always kept. When the count threshold is not reached these items are the
    buffer on return and nothing is flushed, also when items were discarded;
    when it is reached they are handed to the flush callback and the buffer is
    empty on return. Hence a sequence of [add] calls that cannot reach the
    threshold leaves exactly the most recently added [maxBatchSize] items. *)
Theorem add_cap_invariant (w : World T Err) (item : T) :
  (0 < maxBatchSize (config (self w)))%Z ->
  let m := Z.to_nat (maxBatchSize (config (self w))) in
  let kept := lastn m (items (self w) ++ [item]) in
  let w' := add flusher_sync item w in
  length (items (self w')) <= m
  /\ (exists front, kept = front ++ [item])
  /\ (threshold_reached (config (self w)) (length kept) = false ->
        items (self w') = kept
        /\ flusher_calls (trace w') = flusher_calls (trace w)
        /\ loop w' = loop w)
  /\ (threshold_reached (config (self w)) (length kept) = true ->
        items (self w') = []
        /\ map (@call_items T) (flusher_calls (trace w')) =
             map (@call_items T) (flusher_calls (trace w)) ++ [kept])
  /\ (forall xs : list T,
        xs <> [] ->
        (forall n, n <= m -> threshold_reached (config (self w)) n = false) ->
        let w2 := run to_string flusher_sync w (map EvAdd xs) in
        items (self w2) = lastn m (items (self w) ++ xs)
        /\ length (items (self w2)) <= m
        /\ flusher_calls (trace w2) = flusher_calls (trace w)).
Proof.
  intros Hm m kept w'.
  assert (Hkept : capped (maxBatchSize (config (self w))) (items (self w) ++ [item]) = kept)
    by (apply capped_lastn, Hm).
  assert (Hlen : length kept <= m) by (unfold kept; rewrite lastn_length; lia).
  destruct (lastn_snoc m (items (self w)) item) as [front Hfront]; [lia |].
  assert (Hne : kept <> []).
  { unfold kept. rewrite Hfront. destruct front; discriminate. }
  assert (Hq : threshold_reached (config (self w)) (length kept) = false ->
               items (self w') = kept
               /\ flusher_calls (trace w') = flusher_calls (trace w)
               /\ loop w' = loop w).
  { intros H. rewrite <- Hkept in H.
    destruct (add_quiet item w H) as (Hs & Hl & Hc & _).
    fold w' in Hs, Hl, Hc. rewrite Hs, Hl, Hc, Hkept. finish. }
  assert (Hf : threshold_reached (config (self w)) (length kept) = true ->
               items (self w') = []
               /\ map (@call_items T) (flusher_calls (trace w')) =
                    map (@call_items T) (flusher_calls (trace w)) ++ [kept]).
  { intros H. rewrite <- Hkept in H, Hne.
    destruct (add_flushing item w H Hne) as [Hi Hc].
    split; [exact Hi |]. unfold w'. rewrite Hc, map_app, Hkept. reflexivity. }
  split; [| split; [| split; [| split]]].
  - destruct (threshold_reached (config (self w)) (length kept)) eqn:E.
    + destruct (Hf eq_refl) as [-> _]. cbn. lia.
    + destruct (Hq eq_refl) as [-> _]. exact Hlen.
  - exists front. exact Hfront.
  - exact Hq.
  - exact Hf.
  - intros xs Hxs Hoff w2.
    destruct (run_adds_quiet xs w Hm Hoff) as (H1 & H2 & H3).
    fold m in H1, H2. fold w2 in H1, H2, H3.
    split; [| split].
    + rewrite <- H1. symmetry. apply lastn_all, H2, Hxs.
    + apply H2, Hxs.
    + exact H3.
Qed.

(** ** [start], [stop], [reset], [configure] *)

Lemma stop_spec (w : World T Err) :
  let w' := stop w in
  self w' = self (set_running false w)
  /\ timers (loop w') =
       match flushTimer (self w) with
       | Some t => remove_key t (timers (loop w))
       | None => timers (loop w)
       end
  /\ tasks (loop w') = tasks (loop w)
  /\ next_id (loop w') = next_id (loop w)
  /\ flusher_calls (trace w') = flusher_calls (trace w)
  /\ delivered (trace w') =
       delivered (trace w)
       ++ broadcast (subscribers (self w))
            {| size := length (items (self w)); isRunning := false;
               isFlushing := flushing (self w) |}
  /\ settled (trace w') = settled (trace w)
  /\ unhandled (trace w') = unhandled (trace w).
Proof. world w. destruct ft; run_blocks; finish. Qed.

(** After [stop()] the timer named by [#flushTimer] is not armed. *)
Lemma stop_cancels (w : World T Err) (t : nat) :
  flushTimer (self w) = Some t -> lookup t (timers (loop (stop w))) = None.
Proof.
  intros H. destruct (stop_spec w) as (_ & -> & _). rewrite H.
  apply lookup_remove_key_eq.
Qed.

Lemma start_spec (w : World T Err) :
  let w' := start w in
  let armed := match flushIntervalMs (config (self w)) with
               | Some i => truthy i
               | None => false
               end in
  running (self w') = true
  /\ items (self w') = items (self w)
  /\ flushing (self w') = flushing (self w)
  /\ config (self w') = config (self w)
  /\ subscribers (self w') = subscribers (self w)
  /\ delivered (trace w') =
       delivered (trace w)
       ++ broadcast (subscribers (self w))
            {| size := length (items (self w)); isRunning := true;
               isFlushing := flushing (self w) |}
  /\ flusher_calls (trace w') = flusher_calls (trace w)
  /\ tasks (loop w') = tasks (loop w)
  /\ (armed = true ->
        flushTimer (self w') = Some (next_id (loop w))
        /\ next_id (loop w') = S (next_id (loop w))
        /\ exists i, flushIntervalMs (config (self w)) = Some i
                     /\ timers (loop w') = timers (loop w) ++ [(next_id (loop w), i)])
  /\ (armed = false ->
        flushTimer (self w') = flushTimer (self w) /\ loop w' = loop w).
Proof.
  world w. destruct fi as [i |]; run_blocks.
  - destruct (truthy i); repeat split; try reflexivity; try discriminate.
    exists i. split; reflexivity.
  - repeat split; try reflexivity; discriminate.
Qed.

Lemma reset_spec (w : World T Err) :
  let w' := reset w in
  self w' = self (set_items [] w)
  /\ loop w' = loop w
  /\ flusher_calls (trace w') = flusher_calls (trace w)
  /\ delivered (trace w') =
       delivered (trace w)
       ++ broadcast (subscribers (self w))
            {| size := 0; isRunning := running (self w); isFlushing := flushing (self w) |}.
Proof. world w. run_blocks. finish. Qed.

(** [configure] writes the configuration and nothing else. *)
Lemma configure_spec (p : PartialConfig) (w : World T Err) :
  let w' := configure p w in
  config (self w') = merge_config p (config (self w))
  /\ items (self w') = items (self w)
  /\ flushTimer (self w') = flushTimer (self w)
  /\ running (self w') = running (self w)
  /\ flushing (self w') = flushing (self w)
  /\ subscribers (self w') = subscribers (self w)
  /\ base_logger (self w') = base_logger (self w)
  /\ loop w' = loop w
  /\ trace w' = trace w.
Proof. world w. run_blocks. finish. Qed.

(** C9. [configure] overwrites exactly the keys whose value is defined and
    keeps the stored value of every other key; it changes nothing else of the
    instance (buffer, timer handle, running, flushing, subscribers, the
    logger built by the constructor), nothing of the runtime, and it calls
    neither a subscriber nor the logger nor the flush callback. *)
Theorem configure_frame (p : PartialConfig) (w : World T Err) :
  let w' := configure p w in
  let c := config (self w) in
  let c' := config (self w') in
  flushIntervalMs c' =
    match p_flushIntervalMs p with Some v => Some v | None => flushIntervalMs c end
  /\ maxBatchSize c' =
       match p_maxBatchSize p with Some v => v | None => maxBatchSize c end
  /\ flushThreshold c' =
       match p_flushThreshold p with Some v => Some v | None => flushThreshold c end
  /\ strictFlush c' =
       match p_strictFlush p with Some v => Some v | None => strictFlush c end
  /\ logger c' =
       match p_logger p with Some v => Some v | None => logger c end
  /\ items (self w') = items (self w)
  /\ flushTimer (self w') = flushTimer (self w)
  /\ running (self w') = running (self w)
  /\ flushing (self w') = flushing (self w)
  /\ subscribers (self w') = subscribers (self w)
  /\ base_logger (self w') = base_logger (self w)
  /\ getState w' = getState w
  /\ loop w' = loop w
  /\ trace w' = trace w.
Proof. world w. run_blocks. finish. Qed.

(** ** Continuations *)

(** [drain] after [flush()] fulfilled: [stop()], then the result. *)
Lemma resume_drain_fulfilled (k : nat) (b : bool) (w : World T Err) :
  lookup k (tasks (loop w)) = Some (AwaitFlush ByDrain (Fulfilled b)) ->
  resume to_string k w = push_settled k (Fulfilled b) (stop (remove_task k w)).
Proof. intros H. unfold resume, read. rewrite H. reflexivity. Qed.

(** [drain] after [flush()] rejected: the rejection, and nothing else. *)
Lemma resume_drain_rejected (k : nat) (e : Err) (w : World T Err) :
  lookup k (tasks (loop w)) = Some (AwaitFlush ByDrain (Rejected e)) ->
  resume to_string k w = push_settled k (Rejected e) (remove_task k w).
Proof. intros H. unfold resume, read. rewrite H. reflexivity. Qed.

(** The [catch] of [#doFlush] rethrows exactly under [strictFlush]. *)
Lemma doFlush_catch_rethrows (e : Err) (w : World T Err) :
  fst (doFlush_catch to_string (Rejected e) w) = Rejected e
  <-> strictFlush (config (self w)) = Some true.
Proof.
  world w. run_blocks. destruct sf as [[|] |]; cbn; split; congruence.
Qed.

Lemma drain_spec (w : World T Err) :
  drain flusher_sync w =
  flush flusher_sync (next_id (loop w)) ByDrain
    (set_next_id (S (next_id (loop w))) (debug "drain" w)).
Proof. reflexivity. Qed.

Lemma explicit_flush_spec (w : World T Err) :
  step to_string flusher_sync w EvFlush =
  flush flusher_sync (next_id (loop w)) ByCaller (set_next_id (S (next_id (loop w))) w).
Proof. reflexivity. Qed.

Lemma run_app (w : World T Err) (evs1 evs2 : list (Event T Err)) :
  run to_string flusher_sync w (evs1 ++ evs2)
  = run to_string flusher_sync (run to_string flusher_sync w evs1) evs2.
Proof. unfold run. apply fold_left_app. Qed.

Lemma lookup_set_task (k : nat) (t : Task Err) (l : list (nat * Task Err)) :
  lookup k (remove_key k l ++ [(k, t)]) = Some t.
Proof.
  rewrite lookup_app, lookup_remove_key_eq. cbn. rewrite Nat.eqb_refl. reflexivity.
Qed.


(** Events other than [add] never put anything into the buffer. *)
Lemma flush_keeps_empty (k : nat) (a : Awaiter) (w : World T Err) :
  items (self w) = [] -> items (self (flush flusher_sync k a w)) = [].
Proof.
  intros E. destruct (flush_empty k a w E) as (-> & _). exact E.
Qed.

Lemma resume_frame (k : nat) (w : World T Err) :
  let w' := resume to_string k w in
  items (self w') = items (self w)
  /\ flushing (self w') = flushing (self w)
  /\ config (self w') = config (self w)
  /\ subscribers (self w') = subscribers (self w)
  /\ flusher_calls (trace w') = flusher_calls (trace w).
Proof.
  world w. run_blocks.
  destruct (lookup k tk) as [[a | a r | r] |]; try finish.
  - destruct a as [| | g]; try finish.
    + destruct r as [b | e]; [destruct ft |]; finish.
    + destruct r as [b | e]; [| destruct sf as [[|] |]]; destruct g; finish.
  - destruct r as [[] | e]; [| finish].
    destruct ft; destruct fi as [i |]; try destruct (truthy i); finish.
Qed.

Lemma step_keeps_empty (w : World T Err) (e : Event T Err) :
  is_add e = false ->
  items (self w) = [] ->
  items (self (step to_string flusher_sync w e)) = [].
Proof.
  intros Ha E. destruct e; try discriminate; cbn [step].
  - apply flush_keeps_empty. exact E.
  - rewrite drain_spec. apply flush_keeps_empty. exact E.
  - destruct (start_spec w) as (_ & -> & _). exact E.
  - destruct (stop_spec w) as (-> & _). exact E.
  - destruct (reset_spec w) as (-> & _). reflexivity.
  - destruct (configure_spec p w) as (_ & -> & _). exact E.
  - world w. run_blocks. run_blocks_in E. exact E.
  - world w. run_blocks. run_blocks_in E. exact E.
  - unfold timer_fire, read. destruct (lookup t (timers (loop w))); [| exact E].
    apply flush_keeps_empty. exact E.
  - destruct (settle_frame k r w) as (-> & _). exact E.
  - destruct (resume_frame k w) as (-> & _). exact E.
Qed.

Lemma run_keeps_empty (evs : list (Event T Err)) :
  forall w : World T Err,
  Forall (fun e => is_add e = false) evs ->
  items (self w) = [] ->
  items (self (run to_string flusher_sync w evs)) = [].
Proof.
  induction evs as [| e evs IH]; intros w Hall E; [exact E |].
  inversion Hall as [| ? ? He Hrest]; subst.
  cbn [run fold_left]. apply IH; [exact Hrest |].
  apply step_keeps_empty; assumption.
Qed.

(** ** The suspended calls *)

Lemma touches_only_lookup (k j : nat) (l l' : list (nat * Task Err)) :
  touches_only k l l' -> j <> k -> lookup j l' = lookup j l.
Proof.
  intros (tl & -> & Htl) Hne. rewrite lookup_app, lookup_remove_key_ne by exact Hne.
  destruct (lookup j l); [reflexivity |].
  induction tl as [| [i t] tl IH]; [reflexivity |]. cbn.
  destruct (Nat.eqb_spec j i) as [-> | _].
  - exfalso. apply Hne. apply (Htl (i, t)). left. reflexivity.
  - apply IH. intros p Hp. apply Htl. right. exact Hp.
Qed.

Lemma touches_only_In (k j : nat) (t : Task Err) (l l' : list (nat * Task Err)) :
  touches_only k l l' -> In (j, t) l' -> In (j, t) l \/ j = k.
Proof.
  intros (tl & -> & Htl) Hin. apply in_app_or in Hin. destruct Hin as [Hin | Hin].
  - left. apply In_remove_key in Hin. exact Hin.
  - right. apply (Htl (j, t) Hin).
Qed.

Lemma touches_only_remove (k : nat) (l : list (nat * Task Err)) :
  touches_only k l (remove_key k l).
Proof. exists []. rewrite app_nil_r. split; [reflexivity | intros p []]. Qed.

Lemma touches_only_set (k : nat) (t : Task Err) (l : list (nat * Task Err)) :
  touches_only k l (remove_key k l ++ [(k, t)]).
Proof.
  exists [(k, t)]. split; [reflexivity |].
  intros p [<- | []]. reflexivity.
Qed.

Lemma handed_to_touches (k : nat) (a : Awaiter) (r : Result Err bool) (v w' : World T Err) :
  handed_to k a r v w' -> touches_only k (tasks (loop v)) (tasks (loop w')).
Proof.
  unfold handed_to.
  destruct a as [| | g]; intros [-> _];
    first [apply touches_only_remove | apply touches_only_set].
Qed.

(** [flush()] inside the call [k] concerns the call [k] only. *)
Lemma flush_loop (k : nat) (a : Awaiter) (w : World T Err) :
  let w' := flush flusher_sync k a w in
  timers (loop w') = timers (loop w)
  /\ next_id (loop w') = next_id (loop w)
  /\ touches_only k (tasks (loop w)) (tasks (loop w')).
Proof.
  cbn zeta. destruct (items (self w)) as [| x l] eqn:E.
  - destruct (flush_empty k a w E) as (_ & H1 & H2 & _ & _ & _ & H3).
    split; [exact H1 | split; [exact H2 |]]. apply (handed_to_touches _ _ _ _ _ H3).
  - assert (Hne : items (self w) <> []) by (rewrite E; discriminate).
    destruct (flusher_sync k (items (self w))) as [e |] eqn:Hs.
    + destruct (flush_thrown k a e w Hne Hs) as (_ & H1 & H2 & _ & _ & _ & H3).
      split; [exact H1 | split; [exact H2 |]]. apply (handed_to_touches _ _ _ _ _ H3).
    + destruct (flush_pending k a w Hne Hs) as (_ & H1 & H2 & H3 & _).
      split; [exact H1 | split; [exact H2 |]]. rewrite H3. apply touches_only_set.
Qed.

(** [add] leaves the runtime alone, or starts one async [#doFlush]. *)
Lemma add_loop (x : T) (w : World T Err) :
  loop (add flusher_sync x w) = loop w
  \/ exists v : World T Err,
       loop (add flusher_sync x w)
       = loop (flush flusher_sync (next_id (loop w)) (ByDoFlush Threshold) v)
       /\ tasks (loop v) = tasks (loop w)
       /\ timers (loop v) = timers (loop w)
       /\ next_id (loop v) = S (next_id (loop w)).
Proof.
  destruct (threshold_reached (config (self w))
              (length (capped (maxBatchSize (config (self w))) (items (self w) ++ [x]))))
    eqn:E.
  - right. destruct (add_reached x w E) as (v & -> & _ & Hl & _).
    exists v. rewrite Hl. finish.
  - left. apply (add_quiet x w E).
Qed.

Lemma resume_loop (k : nat) (w : World T Err) :
  let w' := resume to_string k w in
  next_id (loop w) <= next_id (loop w')
  /\ (tasks (loop w') = tasks (loop w)
      \/ touches_only k (tasks (loop w)) (tasks (loop w'))).
Proof.
  world w. run_blocks.
  destruct (lookup k tk) as [[a | a r | r] |]; try (split; [lia | left; reflexivity]).
  - destruct a as [| | g]; try (split; [lia | left; reflexivity]).
    + destruct r as [b | e]; [destruct ft |];
        (split; [lia | right; apply touches_only_remove]).
    + destruct r as [b | e]; [| destruct sf as [[|] |]]; destruct g;
        (split; [lia | right; first [apply touches_only_remove | apply touches_only_set]]).
  - destruct r as [[] | e].
    + destruct ft; destruct fi as [i |]; try destruct (truthy i);
        (split; [cbn; lia | right; apply touches_only_remove]).
    + split; [lia | right; apply touches_only_remove].
Qed.

Lemma settle_loop (k : nat) (r : Result Err bool) (w : World T Err) :
  let w' := settle k r w in
  next_id (loop w') = next_id (loop w)
  /\ (tasks (loop w') = tasks (loop w)
      \/ touches_only k (tasks (loop w)) (tasks (loop w'))).
Proof.
  cbn zeta.
  destruct (lookup k (tasks (loop w))) as [[a | a r' | r'] |] eqn:E.
  - destruct (settle_spec k a r w E) as (_ & _ & H1 & _ & _ & _ & H2).
    split; [exact H1 | right; apply (handed_to_touches _ _ _ _ _ H2)].
  - rewrite settle_not_pending; [split; [reflexivity | left; reflexivity] |].
    intros a'. rewrite E. discriminate.
  - rewrite settle_not_pending; [split; [reflexivity | left; reflexivity] |].
    intros a'. rewrite E. discriminate.
  - rewrite settle_not_pending; [split; [reflexivity | left; reflexivity] |].
    intros a'. rewrite E. discriminate.
Qed.

(** What one step does to the suspended calls: nothing, or it concerns one
    call, which is the call the event is about or a fresh one. *)
Lemma step_loop (w : World T Err) (e : Event T Err) :
  let w' := step to_string flusher_sync w e in
  next_id (loop w) <= next_id (loop w')
  /\ (tasks (loop w') = tasks (loop w)
      \/ exists k,
           touches_only k (tasks (loop w)) (tasks (loop w'))
           /\ (concerns k e = true
               \/ (k = next_id (loop w) /\ next_id (loop w') = S (next_id (loop w))))).
Proof.
  cbn zeta. destruct e as [x | | | | | | p | cb | h | t | k r | k].
  - cbn [step]. destruct (add_loop x w) as [-> | (v & -> & Ht & _ & Hn)].
    + split; [lia | left; reflexivity].
    + destruct (flush_loop (next_id (loop w)) (ByDoFlush Threshold) v) as (_ & -> & Hto).
      rewrite Hn, Ht in *. split; [lia |]. right. exists (next_id (loop w)).
      split; [exact Hto | right; split; reflexivity].
  - rewrite explicit_flush_spec.
    destruct (flush_loop (next_id (loop w)) ByCaller (set_next_id (S (next_id (loop w))) w))
      as (_ & -> & Hto).
    cbn in *. split; [lia |]. right. exists (next_id (loop w)).
    split; [exact Hto | right; split; reflexivity].
  - cbn [step]. rewrite drain_spec.
    destruct (flush_loop (next_id (loop w)) ByDrain
                (set_next_id (S (next_id (loop w))) (debug "drain" w))) as (_ & -> & Hto).
    cbn in *. split; [lia |]. right. exists (next_id (loop w)).
    split; [exact Hto | right; split; reflexivity].
  - cbn [step]. destruct (start_spec w) as (_ & _ & _ & _ & _ & _ & _ & Ht & Ha & Hb).
    split; [| left; exact Ht].
    destruct (match flushIntervalMs (config (self w)) with
              | Some i => truthy i | None => false end).
    + destruct (Ha eq_refl) as (_ & -> & _). lia.
    + destruct (Hb eq_refl) as (_ & ->). lia.
  - cbn [step]. destruct (stop_spec w) as (_ & _ & Ht & -> & _). split; [lia | left; exact Ht].
  - cbn [step]. destruct (reset_spec w) as (_ & -> & _). split; [lia | left; reflexivity].
  - cbn [step]. destruct (configure_spec p w) as (_ & _ & _ & _ & _ & _ & _ & -> & _).
    split; [lia | left; reflexivity].
  - world w. run_blocks. split; [lia | left; reflexivity].
  - world w. run_blocks. split; [lia | left; reflexivity].
  - cbn [step]. unfold timer_fire, read, skip.
    destruct (lookup t (timers (loop w))); [| split; [lia | left; reflexivity]].
    unfold seq, doFlush, fresh, read, seq.
    match goal with
    | |- context [flush flusher_sync ?k ?a ?v] =>
        destruct (flush_loop k a v) as (_ & -> & Hto)
    end.
    cbn in *. split; [lia |]. right. exists (next_id (loop w)).
    split; [exact Hto | right; split; reflexivity].
  - cbn [step]. destruct (settle_loop k r w) as (-> & [Ht | Hto]).
    + split; [lia | left; exact Ht].
    + split; [lia |]. right. exists k. split; [exact Hto |].
      left. cbn. apply Nat.eqb_refl.
  - cbn [step]. destruct (resume_loop k w) as (Hn & [Ht | Hto]).
    + split; [exact Hn | left; exact Ht].
    + split; [exact Hn |]. right. exists k. split; [exact Hto |].
      left. cbn. apply Nat.eqb_refl.
Qed.

(** Handles of suspended calls stay older than the next fresh handle. *)
Lemma tasks_fresh_step (w : World T Err) (e : Event T Err) :
  tasks_fresh w -> tasks_fresh (step to_string flusher_sync w e).
Proof.
  intros Hf. destruct (step_loop w e) as (Hn & [Ht | (k & Hto & Hk)]);
    unfold tasks_fresh in *.
  - rewrite Ht. intros j t Hin. specialize (Hf j t Hin). lia.
  - intros j t Hin. destruct (touches_only_In k j t _ _ Hto Hin) as [Hold | ->].
    + specialize (Hf j t Hold). lia.
    + destruct Hk as [Hc | [-> ->]]; [| lia].
      destruct (touches_only_In k k t _ _ Hto Hin) as [Hold | _].
      * specialize (Hf k t Hold). lia.
      * (* the call the event concerns was suspended before *)
        destruct e as [x | | | | | | p | cb | h | t0 | k0 r | k0]; try discriminate Hc;
          cbn in Hc; apply Nat.eqb_eq in Hc; subst k0; cbn [step] in *.
        -- destruct (lookup k (tasks (loop w))) as [t1 |] eqn:E.
           ++ apply lookup_In in E. specialize (Hf k t1 E). lia.
           ++ rewrite settle_not_pending in Hin by (intros a; rewrite E; discriminate).
              specialize (Hf k t Hin). lia.
        -- destruct (lookup k (tasks (loop w))) as [t1 |] eqn:E.
           ++ apply lookup_In in E. specialize (Hf k t1 E).
              destruct (resume_loop k w) as (Hn' & _). lia.
           ++ unfold resume, read in Hin. rewrite E in Hin. specialize (Hf k t Hin). lia.
Qed.

Lemma tasks_fresh_run (evs : list (Event T Err)) :
  forall w : World T Err,
  tasks_fresh w -> tasks_fresh (run to_string flusher_sync w evs).
Proof.
  induction evs as [| e evs IH]; intros w Hf; [exact Hf |].
  cbn [run fold_left]. apply IH, tasks_fresh_step, Hf.
Qed.

Lemma tasks_fresh_new (cfg : option PartialConfig) (autostart : bool) :
  tasks_fresh (new_BatchFlusher T Err cfg autostart).
Proof.
  unfold tasks_fresh, new_BatchFlusher, seq, read.
  intros k t Hin. exfalso. revert Hin.
  destruct autostart.
  - match goal with
    | |- context [start ?v] => destruct (start_spec v) as (_ & _ & _ & _ & _ & _ & _ & -> & _)
    end.
    destruct cfg; cbn; auto.
  - destruct cfg; cbn; auto.
Qed.

(** Every world a program can reach has fresh handles. *)
Lemma tasks_fresh_reachable (cfg : option PartialConfig) (autostart : bool)
  (evs : list (Event T Err)) :
  tasks_fresh (run to_string flusher_sync (new_BatchFlusher T Err cfg autostart) evs).
Proof. apply tasks_fresh_run, tasks_fresh_new. Qed.

(** A suspended call stays as it is until an event concerns it. *)
Lemma step_keeps_task (w : World T Err) (e : Event T Err) (k : nat) (t : Task Err) :
  tasks_fresh w ->
  lookup k (tasks (loop w)) = Some t ->
  concerns k e = false ->
  lookup k (tasks (loop (step to_string flusher_sync w e))) = Some t.
Proof.
  intros Hf Hk Hc.
  destruct (step_loop w e) as (_ & [-> | (j & Hto & Hj)]); [exact Hk |].
  rewrite (touches_only_lookup j k _ _ Hto); [exact Hk |].
  intros ->. destruct Hj as [Hj | [-> _]]; [congruence |].
  apply lookup_In in Hk. specialize (Hf _ _ Hk). lia.
Qed.

Lemma run_keeps_task (evs : list (Event T Err)) (k : nat) (t : Task Err) :
  forall w : World T Err,
  tasks_fresh w ->
  lookup k (tasks (loop w)) = Some t ->
  Forall (fun e => concerns k e = false) evs ->
  lookup k (tasks (loop (run to_string flusher_sync w evs))) = Some t.
Proof.
  induction evs as [| e evs IH]; intros w Hf Hk Hall; [exact Hk |].
  inversion Hall as [| ? ? He Hrest]; subst.
  cbn [run fold_left]. apply IH; [apply tasks_fresh_step, Hf | | exact Hrest].
  apply step_keeps_task; assumption.
Qed.

(** ** One timer *)

Lemma single_timer_none (w w' : World T Err) :
  timers (loop w') = [] -> single_timer w'.
Proof. intros H t d Hin. rewrite H in Hin. destruct Hin. Qed.

Lemma single_timer_same (w w' : World T Err) :
  timers (loop w') = timers (loop w) ->
  flushTimer (self w') = flushTimer (self w) ->
  single_timer w -> single_timer w'.
Proof. intros Ht Hf H t d Hin. rewrite Ht in Hin. rewrite Hf. apply (H t d Hin). Qed.

Lemma single_timer_cleared (w : World T Err) :
  single_timer w ->
  match flushTimer (self w) with
  | Some t => remove_key t (timers (loop w))
  | None => timers (loop w)
  end = [].
Proof.
  intros H. destruct (flushTimer (self w)) as [t |] eqn:E.
  - apply remove_key_only. intros j a Hin. specialize (H j a Hin). congruence.
  - destruct (timers (loop w)) as [| [j a] l] eqn:Et; [reflexivity |].
    assert (Hin : In (j, a) (timers (loop w))) by (rewrite Et; left; reflexivity).
    specialize (H j a Hin). congruence.
Qed.

(** Unless [start()] is called while a timer is armed, at most the timer
    named by [#flushTimer] is armed. *)
Lemma step_single_timer (w : World T Err) (e : Event T Err) :
  single_timer w ->
  rearms w e = false ->
  single_timer (step to_string flusher_sync w e).
Proof.
  intros H Hr.
  assert (Hflush : forall (k : nat) (a : Awaiter) (v : World T Err),
            timers (loop v) = timers (loop w) ->
            flushTimer (self v) = flushTimer (self w) ->
            single_timer (flush flusher_sync k a v)).
  { intros k a v Ht Hf.
    destruct (flush_loop k a v) as (L1 & _).
    destruct (flush_frame k a v) as (_ & _ & F3 & _).
    apply (single_timer_same w); [rewrite L1; exact Ht | rewrite F3; exact Hf | exact H]. }
  destruct e as [x | | | | | | p | cb | h | t | k r | k].
  - cbn [step].
    destruct (threshold_reached (config (self w))
                (length (capped (maxBatchSize (config (self w))) (items (self w) ++ [x]))))
      eqn:E.
    + destruct (add_reached x w E) as (v & -> & Hv & Hl & _).
      apply Hflush; [rewrite Hl | rewrite Hv]; reflexivity.
    + destruct (add_quiet x w E) as (Hs & Hl & _).
      apply (single_timer_same w); [rewrite Hl | rewrite Hs | exact H]; reflexivity.
  - rewrite explicit_flush_spec. apply Hflush; reflexivity.
  - cbn [step]. rewrite drain_spec. apply Hflush; reflexivity.
  - (* start: no timer was armed *)
    cbn [step]. cbn in Hr.
    destruct (timers (loop w)) as [| p l] eqn:Et; [| discriminate].
    destruct (start_spec w) as (_ & _ & _ & _ & _ & _ & _ & _ & Ha & Hb).
    destruct (match flushIntervalMs (config (self w)) with
              | Some i => truthy i | None => false end).
    + destruct (Ha eq_refl) as (A1 & _ & (i & _ & A3)).
      intros t d Hin. rewrite A3, Et in Hin. cbn in Hin.
      destruct Hin as [[= <- <-] | []]. exact A1.
    + destruct (Hb eq_refl) as (_ & B2). apply (single_timer_none w). rewrite B2. exact Et.
  - cbn [step]. destruct (stop_spec w) as (_ & S2 & _).
    apply (single_timer_none w). rewrite S2. apply single_timer_cleared, H.
  - cbn [step]. destruct (reset_spec w) as (S1 & S2 & _).
    apply (single_timer_same w); [rewrite S2 | rewrite S1 | exact H]; reflexivity.
  - cbn [step]. destruct (configure_spec p w) as (_ & _ & S3 & _ & _ & _ & _ & S8 & _).
    apply (single_timer_same w); [rewrite S8; reflexivity | exact S3 | exact H].
  - apply (single_timer_same w); [| | exact H]; clear; world w; run_blocks; reflexivity.
  - apply (single_timer_same w); [| | exact H]; clear; world w; run_blocks; reflexivity.
  - cbn [step]. unfold timer_fire, read, skip.
    destruct (lookup t (timers (loop w))) as [d |] eqn:El; [| exact H].
    unfold seq, doFlush, fresh, read, seq.
    match goal with
    | |- context [flush flusher_sync ?k ?a ?v] =>
        destruct (flush_loop k a v) as (L1 & _)
    end.
    apply (single_timer_none w). rewrite L1. cbn.
    apply remove_key_only. intros j a Hin.
    apply lookup_In in El.
    pose proof (H j a Hin) as H1. pose proof (H t d El) as H2. congruence.
  - cbn [step]. destruct (settle_frame k r w) as (_ & _ & _ & S4 & _ & S6 & _).
    apply (single_timer_same w); [exact S6 | exact S4 | exact H].
  - (* continuations: stop, or the timer callback arming the next timer *)
    cbn [step].
    pose proof (single_timer_cleared w H) as Hc. revert H Hc. clear. unfold single_timer.
    world w. run_blocks. intros H Hc.
    destruct (lookup k tk) as [[a | a r | r] |]; try exact H.
    + destruct a as [| | g]; try exact H.
      * destruct r as [b | e]; [| exact H].
        destruct ft; run_blocks; run_blocks_in Hc; rewrite Hc; intros t' d [].
      * destruct r as [b | e]; [| destruct sf as [[|] |]]; destruct g; exact H.
    + destruct r as [[] | e]; [| exact H].
      destruct ft; destruct fi as [i |]; try destruct (truthy i);
        run_blocks; run_blocks_in Hc; rewrite Hc;
        intros t' d Hin; cbn in Hin; try contradiction;
        destruct Hin as [[= <- <-] | []]; reflexivity.
Qed.



(** A fresh accumulator has at most its own timer armed. *)
Lemma single_timer_new (cfg : option PartialConfig) (autostart : bool) :
  single_timer (new_BatchFlusher T Err cfg autostart).
Proof.
  unfold new_BatchFlusher, seq, read.
  destruct autostart; [| intros t d Hin; destruct cfg; destruct Hin].
  match goal with
  | |- single_timer (start ?v) =>
      assert (Hv : timers (loop v) = []) by (destruct cfg; reflexivity);
      assert (E : start v = step to_string flusher_sync v EvStart) by reflexivity;
      rewrite E; apply step_single_timer;
      [apply (single_timer_none v); exact Hv | unfold rearms; rewrite Hv; reflexivity]
  end.
Qed.

(** C10. When the flush callback fails during [drain()] - it throws before
    returning, or its promise rejects - the promise of [drain()] rejects with
    that failure and [stop()] never runs: in every step of the call the
    running flag, the stored timer handle and the armed timers stay as they
    were, although [flush()] already cleared the buffer and reset
    [flushing]. *)
Theorem drain_failure_skips_stop (w : World T Err) (e : Err) :
  items (self w) <> [] ->
  let k := next_id (loop w) in
  let w1 := drain flusher_sync w in
  (* the synchronous part of drain *)
  items (self w1) = []
  /\ running (self w1) = running (self w)
  /\ flushTimer (self w1) = flushTimer (self w)
  /\ timers (loop w1) = timers (loop w)
  /\ (flusher_sync k (items (self w)) = None ->
        lookup k (tasks (loop w1)) = Some (AwaitFlusher ByDrain))
  /\ (flusher_sync k (items (self w)) = Some e ->
        lookup k (tasks (loop w1)) = Some (AwaitFlush ByDrain (Rejected e))
        /\ flushing (self w1) = false)
  (* the callback's promise rejects, whatever happened in between *)
  /\ (forall w2 : World T Err,
        lookup k (tasks (loop w2)) = Some (AwaitFlusher ByDrain) ->
        let w3 := settle k (Rejected e) w2 in
        lookup k (tasks (loop w3)) = Some (AwaitFlush ByDrain (Rejected e))
        /\ flushing (self w3) = false
        /\ items (self w3) = items (self w2)
        /\ running (self w3) = running (self w2)
        /\ flushTimer (self w3) = flushTimer (self w2)
        /\ timers (loop w3) = timers (loop w2)
        /\ settled (trace w3) = settled (trace w2))
  (* drain goes on after the rejected flush() *)
  /\ (forall w4 : World T Err,
        lookup k (tasks (loop w4)) = Some (AwaitFlush ByDrain (Rejected e)) ->
        let w5 := resume to_string k w4 in
        settled (trace w5) = settled (trace w4) ++ [(k, Rejected e)]
        /\ self w5 = self w4
        /\ timers (loop w5) = timers (loop w4)
        /\ lookup k (tasks (loop w5)) = None
        /\ delivered (trace w5) = delivered (trace w4)
        /\ logged (trace w5) = logged (trace w4))
  (* with nothing in between *)
  /\ (flusher_sync k (items (self w)) = None ->
        let w' := run to_string flusher_sync w
                    [EvDrain; EvSettle k (Rejected e); EvResume k] in
        settled (trace w') = settled (trace w) ++ [(k, Rejected e)]
        /\ items (self w') = []
        /\ flushing (self w') = false
        /\ running (self w') = running (self w)
        /\ flushTimer (self w') = flushTimer (self w)
        /\ timers (loop w') = timers (loop w)).
Proof.
  intros Hne k w1.
  assert (Hne' : items (self (set_next_id (S k) (debug "drain" w))) <> []) by exact Hne.
  assert (Hsettle : forall w2 : World T Err,
            lookup k (tasks (loop w2)) = Some (AwaitFlusher ByDrain) ->
            let w3 := settle k (Rejected e) w2 in
            lookup k (tasks (loop w3)) = Some (AwaitFlush ByDrain (Rejected e))
            /\ flushing (self w3) = false
            /\ items (self w3) = items (self w2)
            /\ running (self w3) = running (self w2)
            /\ flushTimer (self w3) = flushTimer (self w2)
            /\ timers (loop w3) = timers (loop w2)
            /\ settled (trace w3) = settled (trace w2)).
  { intros w2 H2 w3.
    destruct (settle_spec k ByDrain (Rejected e) w2 H2)
      as (Hs & Ht & _ & _ & _ & _ & Htk & Hst).
    fold w3 in Hs, Ht, Htk, Hst.
    rewrite Hs, Ht, Htk, Hst. cbn. rewrite lookup_set_task. repeat split; reflexivity. }
  assert (Hresume : forall w4 : World T Err,
            lookup k (tasks (loop w4)) = Some (AwaitFlush ByDrain (Rejected e)) ->
            let w5 := resume to_string k w4 in
            settled (trace w5) = settled (trace w4) ++ [(k, Rejected e)]
            /\ self w5 = self w4
            /\ timers (loop w5) = timers (loop w4)
            /\ lookup k (tasks (loop w5)) = None
            /\ delivered (trace w5) = delivered (trace w4)
            /\ logged (trace w5) = logged (trace w4)).
  { intros w4 H4 w5. unfold w5. rewrite (resume_drain_rejected k e w4 H4).
    clear. world w4. run_blocks. rewrite lookup_remove_key_eq. finish. }
  assert (Hpend : flusher_sync k (items (self w)) = None ->
            self w1 = self (set_flushing true (set_items [] w))
            /\ timers (loop w1) = timers (loop w)
            /\ lookup k (tasks (loop w1)) = Some (AwaitFlusher ByDrain)
            /\ settled (trace w1) = settled (trace w)).
  { intros Hs. unfold w1. rewrite drain_spec. fold k.
    destruct (flush_pending k ByDrain _ Hne' Hs) as (H1 & H2 & _ & H4 & _ & _ & H7 & _).
    rewrite H1, H2, H4, H7. rewrite lookup_set_task. repeat split; reflexivity. }
  assert (Hthrow : flusher_sync k (items (self w)) = Some e ->
            self w1 = self (set_flushing false (set_items [] w))
            /\ timers (loop w1) = timers (loop w)
            /\ lookup k (tasks (loop w1)) = Some (AwaitFlush ByDrain (Rejected e))).
  { intros Hs. unfold w1. rewrite drain_spec. fold k.
    destruct (flush_thrown k ByDrain e _ Hne' Hs) as (H1 & H2 & _ & _ & _ & _ & H7 & _).
    rewrite H1, H2, H7. rewrite lookup_set_task. repeat split; reflexivity. }
  assert (Hsync : self w1 = self (set_flushing true (set_items [] w))
                  \/ self w1 = self (set_flushing false (set_items [] w))).
  { destruct (flusher_sync k (items (self w))) as [e' |] eqn:Hs.
    - right. unfold w1. rewrite drain_spec. fold k.
      destruct (flush_thrown k ByDrain e' _ Hne' Hs) as (H1 & _). exact H1.
    - left. apply Hpend. reflexivity. }
  assert (Htimers : timers (loop w1) = timers (loop w)).
  { destruct (flusher_sync k (items (self w))) as [e' |] eqn:Hs.
    - unfold w1. rewrite drain_spec. fold k.
      destruct (flush_thrown k ByDrain e' _ Hne' Hs) as (_ & H2 & _). exact H2.
    - apply Hpend. reflexivity. }
  repeat match goal with |- _ /\ _ => split end.
  - destruct Hsync as [-> | ->]; reflexivity.
  - destruct Hsync as [-> | ->]; reflexivity.
  - destruct Hsync as [-> | ->]; reflexivity.
  - exact Htimers.
  - intros Hs. apply Hpend, Hs.
  - intros Hs. destruct (Hthrow Hs) as (H1 & _ & H3). split; [exact H3 |].
    rewrite H1. reflexivity.
  - exact Hsettle.
  - exact Hresume.
  - intros Hs w'.
    destruct (Hpend Hs) as (P1 & P2 & P3 & P4).
    assert (E : w' = resume to_string k (settle k (Rejected e) w1)) by reflexivity.
    destruct (Hsettle w1 P3) as (S1 & S2 & S3 & S4 & S5 & S6 & S7).
    destruct (Hresume _ S1) as (R1 & R2 & R3 & _).
    rewrite E, R1, R2, R3, S2, S3, S4, S5, S6, S7, P1, P2, P4. cbn.
    repeat split; reflexivity.
Qed.


(** The threshold test of [add], in the words of the configuration. *)
Lemma threshold_reached_iff (c : BatchFlusherConfig) (n : nat) :
  threshold_reached c n = true
  <-> exists t, flushThreshold c = Some t /\ t <> 0%Z /\ (t <= Z.of_nat n)%Z.
Proof.
  unfold threshold_reached, truthy. destruct (flushThreshold c) as [t |].
  - rewrite andb_true_iff, negb_true_iff, Z.eqb_neq, Z.leb_le. split.
    + intros [H1 H2]. exists t. auto.
    + intros (t' & [= <-] & H1 & H2). auto.
  - split; [discriminate | intros (t & H & _); discriminate].
Qed.

(** C6. [add] tests the threshold on the buffer it has just appended to and
    capped: the test succeeds exactly when [flushThreshold] is configured,
    non-zero and at most the buffer length (so never for 0 or absent). When
    it fails [add] starts nothing. When it succeeds [add] starts one async
    [#doFlush] and returns while that call is still suspended: on a non-empty
    buffer the callback has been called once with the whole buffer in order
    and the buffer is empty, and nothing is reported to the caller of [add].
    With [flushThreshold = 3], an empty buffer and room for three items,
    three [add] calls make exactly one callback call, with the three items in
    order, and leave size 0. *)
Theorem add_threshold_trigger (w : World T Err) (item : T) :
  let c := config (self w) in
  let l := capped (maxBatchSize c) (items (self w) ++ [item]) in
  let k := next_id (loop w) in
  let w' := add flusher_sync item w in
  (threshold_reached c (length l) = true
   <-> exists t, flushThreshold c = Some t /\ t <> 0%Z /\ (t <= Z.of_nat (length l))%Z)
  /\ (flushThreshold c = None \/ flushThreshold c = Some 0%Z ->
      threshold_reached c (length l) = false)
  /\ (threshold_reached c (length l) = false ->
        items (self w') = l
        /\ loop w' = loop w
        /\ flusher_calls (trace w') = flusher_calls (trace w))
  /\ (threshold_reached c (length l) = true ->
        next_id (loop w') = S k
        /\ (exists t, lookup k (tasks (loop w')) = Some t)
        /\ settled (trace w') = settled (trace w)
        /\ unhandled (trace w') = unhandled (trace w)
        /\ items (self w') = []
        /\ (l <> [] ->
              flusher_calls (trace w') =
                flusher_calls (trace w)
                ++ [{| call_id := k; call_items := l;
                       call_seen := {| size := 0; isRunning := running (self w);
                                       isFlushing := true |} |}])
        /\ (l <> [] -> flusher_sync k l = None ->
              lookup k (tasks (loop w')) = Some (AwaitFlusher (ByDoFlush Threshold))
              /\ flushing (self w') = true))
  /\ (forall x1 x2 x3 : T,
        items (self w) = [] ->
        flushThreshold c = Some 3%Z ->
        (3 <= maxBatchSize c)%Z ->
        let w3 := run to_string flusher_sync w [EvAdd x1; EvAdd x2; EvAdd x3] in
        flusher_calls (trace w3) =
          flusher_calls (trace w)
          ++ [{| call_id := k; call_items := [x1; x2; x3];
                 call_seen := {| size := 0; isRunning := running (self w);
                                 isFlushing := true |} |}]
        /\ get_size w3 = 0).
Proof.
  intros c l k w'.
  split; [apply threshold_reached_iff |].
  split.
  { unfold threshold_reached. intros [-> | ->]; reflexivity. }
  split.
  { intros H. destruct (add_quiet item w H) as (Hs & Hl & Hc & _).
    fold w' in Hs, Hl, Hc. rewrite Hs, Hl, Hc. finish. }
  split.
  { intros H. destruct (add_reached item w H) as (v & Hv & Hs & Hl & Hc & _ & Hst & Hu).
    fold k in Hv. unfold w'. rewrite Hv.
    destruct (flush_loop k (ByDoFlush Threshold) v) as (_ & Hn & Hto).
    destruct (flush_frame k (ByDoFlush Threshold) v) as (_ & _ & _ & _ & Hi & Hse & Hun).
    assert (Hil : items (self v) = l) by (rewrite Hs; reflexivity).
    assert (Hrv : running (self v) = running (self w)) by (rewrite Hs; reflexivity).
    split; [rewrite Hn, Hl; reflexivity |].
    split.
    { destruct (items (self v)) as [| y ys] eqn:Ei.
      - destruct (flush_empty k (ByDoFlush Threshold) v Ei) as (_ & _ & _ & _ & _ & _ & Hh).
        destruct Hh as [-> _]. rewrite lookup_set_task. eexists. reflexivity.
      - assert (Hne : items (self v) <> []) by (rewrite Ei; discriminate).
        destruct (flusher_sync k (items (self v))) as [e |] eqn:Hsy.
        + destruct (flush_thrown k (ByDoFlush Threshold) e v Hne Hsy)
            as (_ & _ & _ & _ & _ & _ & Hh).
          destruct Hh as [-> _]. rewrite lookup_set_task. eexists. reflexivity.
        + destruct (flush_pending k (ByDoFlush Threshold) v Hne Hsy) as (_ & _ & _ & -> & _).
          rewrite lookup_set_task. eexists. reflexivity. }
    split; [rewrite Hse, app_nil_r; exact Hst |].
    split; [rewrite Hun; exact Hu |].
    split; [exact Hi |].
    split.
    { intros Hne. destruct (add_flushing item w H Hne) as [_ Hcalls].
      rewrite Hv in Hcalls. exact Hcalls. }
    intros Hne Hsy. rewrite <- Hil in Hne, Hsy.
    destruct (flush_pending k (ByDoFlush Threshold) v Hne Hsy) as (-> & _ & _ & -> & _).
    rewrite lookup_set_task. finish. }
  intros x1 x2 x3 Hempty Hth Hcap w3.
  assert (Hcapped : forall (v : World T Err) (xs : list T),
            config (self v) = c -> length xs <= 3 -> capped (maxBatchSize (config (self v))) xs = xs).
  { intros v xs -> Hlen. unfold capped.
    destruct (maxBatchSize c <? Z.of_nat (length xs))%Z eqn:E; [| reflexivity].
    apply Z.ltb_lt in E. lia. }
  assert (Hno : forall (v : World T Err) (n : nat),
            config (self v) = c -> n < 3 -> threshold_reached (config (self v)) n = false).
  { intros v n -> Hn. unfold threshold_reached. rewrite Hth.
    apply andb_false_iff. right. apply Z.leb_gt. lia. }
  (* first add *)
  set (w1 := add flusher_sync x1 w).
  destruct (add_quiet x1 w) as (S1 & L1 & C1 & _).
  { rewrite Hempty. cbn [app]. rewrite (Hcapped w [x1] eq_refl) by (cbn; lia).
    apply (Hno w 1 eq_refl). lia. }
  fold w1 in S1, L1, C1.
  rewrite Hempty in S1. cbn [app] in S1.
  rewrite (Hcapped w [x1] eq_refl) in S1 by (cbn; lia).
  assert (I1 : items (self w1) = [x1]) by (rewrite S1; reflexivity).
  assert (G1 : config (self w1) = c) by (rewrite S1; reflexivity).
  assert (R1 : running (self w1) = running (self w)) by (rewrite S1; reflexivity).
  (* second add *)
  set (w2 := add flusher_sync x2 w1).
  destruct (add_quiet x2 w1) as (S2 & L2 & C2 & _).
  { rewrite I1. cbn [app]. rewrite (Hcapped w1 [x1; x2] G1) by (cbn; lia).
    apply (Hno w1 2 G1). lia. }
  fold w2 in S2, L2, C2.
  rewrite I1 in S2. cbn [app] in S2.
  rewrite (Hcapped w1 [x1; x2] G1) in S2 by (cbn; lia).
  assert (I2 : items (self w2) = [x1; x2]) by (rewrite S2; reflexivity).
  assert (G2 : config (self w2) = c) by (rewrite S2; exact G1).
  assert (R2 : running (self w2) = running (self w)) by (rewrite S2; exact R1).
  (* third add *)
  assert (E3 : w3 = add flusher_sync x3 w2) by reflexivity.
  assert (K3 : capped (maxBatchSize (config (self w2))) (items (self w2) ++ [x3]) = [x1; x2; x3]).
  { rewrite I2. cbn [app]. apply (Hcapped w2 _ G2). cbn. lia. }
  destruct (add_flushing x3 w2) as (I3 & C3).
  { rewrite K3, G2. apply threshold_reached_iff. exists 3%Z. cbn. repeat split; [exact Hth | lia | lia]. }
  { rewrite K3. discriminate. }
  rewrite K3 in C3. rewrite E3. unfold get_size.
  rewrite I3, C3, C2, C1, L2, L1, R2. finish.
Qed.

(** [#doFlush] after [flush()] rejected. *)
Lemma resume_doFlush_rejected (k : nat) (g : Trigger) (e : Err) (w : World T Err) :
  lookup k (tasks (loop w)) = Some (AwaitFlush (ByDoFlush g) (Rejected e)) ->
  let w' := resume to_string k w in
  let warning :=
    {| log_sink := match logger (config (self w)) with
                   | Some l => Custom l
                   | None => Console
                   end;
       log_namespace := None;
       log_level := LWarn;
       log_args := ["[BatchFlusher] Flush error ignored"%string; to_string e] |} in
  self w' = self w
  /\ timers (loop w') = timers (loop w)
  /\ next_id (loop w') = next_id (loop w)
  /\ settled (trace w') = settled (trace w)
  /\ flusher_calls (trace w') = flusher_calls (trace w)
  /\ delivered (trace w') = delivered (trace w)
  /\ (strictFlush (config (self w)) = Some true ->
        logged (trace w') = logged (trace w)
        /\ match g with
           | Threshold =>
               unhandled (trace w') = unhandled (trace w) ++ [(k, e)]
               /\ lookup k (tasks (loop w')) = None
           | Timer =>
               unhandled (trace w') = unhandled (trace w)
               /\ lookup k (tasks (loop w')) = Some (AwaitDoFlush (Rejected e))
           end)
  /\ (strictFlush (config (self w)) <> Some true ->
        logged (trace w') = logged (trace w) ++ [warning]
        /\ unhandled (trace w') = unhandled (trace w)
        /\ match g with
           | Threshold => lookup k (tasks (loop w')) = None
           | Timer => lookup k (tasks (loop w')) = Some (AwaitDoFlush (Fulfilled tt))
           end).
Proof.
  world w. intros Hk. run_blocks_in Hk. run_blocks. rewrite Hk.
  destruct sf as [[|] |]; destruct g; cbn;
    rewrite ?lookup_remove_key_eq, ?lookup_set_task;
    repeat split; try reflexivity; try congruence; intros H; try discriminate H;
    try (exfalso; apply H; reflexivity); repeat split; reflexivity.
Qed.

(** The timer callback after [#doFlush] rejected: an unhandled rejection,
    and no timer is armed. *)
Lemma resume_timer_rejected (k : nat) (e : Err) (w : World T Err) :
  lookup k (tasks (loop w)) = Some (AwaitDoFlush (Rejected e)) ->
  let w' := resume to_string k w in
  self w' = self w
  /\ timers (loop w') = timers (loop w)
  /\ unhandled (trace w') = unhandled (trace w) ++ [(k, e)]
  /\ settled (trace w') = settled (trace w)
  /\ lookup k (tasks (loop w')) = None.
Proof.
  world w. intros Hk. run_blocks_in Hk. run_blocks. rewrite Hk.
  rewrite lookup_remove_key_eq. finish.
Qed.

(** The timer callback after [#doFlush] returned: the stored timer is
    cleared and, with a non-zero interval, a fresh one is armed. *)
Lemma resume_timer_fulfilled (k : nat) (w : World T Err) :
  lookup k (tasks (loop w)) = Some (AwaitDoFlush (Fulfilled tt)) ->
  let w' := resume to_string k w in
  let cleared := match flushTimer (self w) with
                 | Some t => remove_key t (timers (loop w))
                 | None => timers (loop w)
                 end in
  lookup k (tasks (loop w')) = None
  /\ unhandled (trace w') = unhandled (trace w)
  /\ match flushIntervalMs (config (self w)) with
     | Some i =>
         if truthy i
         then flushTimer (self w') = Some (next_id (loop w))
              /\ timers (loop w') = cleared ++ [(next_id (loop w), i)]
         else flushTimer (self w') = flushTimer (self w) /\ timers (loop w') = cleared
     | None => flushTimer (self w') = flushTimer (self w) /\ timers (loop w') = cleared
     end.
Proof.
  world w. intros Hk. run_blocks_in Hk. run_blocks. rewrite Hk.
  destruct ft; destruct fi as [i |]; try destruct (truthy i); cbn;
    rewrite lookup_remove_key_eq; finish.
Qed.

(** [add] reports nothing to its caller, whatever the callback does. *)
Lemma add_reports_nothing (x : T) (w : World T Err) :
  settled (trace (add flusher_sync x w)) = settled (trace w)
  /\ unhandled (trace (add flusher_sync x w)) = unhandled (trace w).
Proof.
  destruct (threshold_reached (config (self w))
              (length (capped (maxBatchSize (config (self w))) (items (self w) ++ [x]))))
    eqn:E.
  - destruct (add_reached x w E) as (v & -> & _ & _ & _ & _ & Hs & Hu).
    destruct (flush_frame (next_id (loop w)) (ByDoFlush Threshold) v)
      as (_ & _ & _ & _ & _ & -> & ->).
    rewrite app_nil_r. split; assumption.
  - destruct (add_quiet x w E) as (_ & _ & _ & _ & -> & ->). finish.
Qed.

(** C5. A flush started by the threshold or by the timer runs inside
    [#doFlush], which catches a failure of [flush()]. The [finally] of
    [flush()] has reset [flushing] by then and the buffer stays as cleared;
    the [catch] changes nothing of the instance and reports nothing to any
    caller. With [strictFlush] true the failure is rethrown: from [add]
    nobody awaits it (an unhandled rejection), from the timer the timer
    callback rejects in turn. Otherwise there is one call of [warn] on the
    configured logger (the console by default) with the stringified error,
    and [#doFlush] returns normally. [add] itself never reports a failure. *)
Theorem internal_flush_failure_policy (w : World T Err) (k : nat) (g : Trigger) (e : Err) :
  lookup k (tasks (loop w)) = Some (AwaitFlush (ByDoFlush g) (Rejected e)) ->
  let w' := resume to_string k w in
  let warning :=
    {| log_sink := match logger (config (self w)) with
                   | Some l => Custom l
                   | None => Console
                   end;
       log_namespace := None;
       log_level := LWarn;
       log_args := ["[BatchFlusher] Flush error ignored"%string; to_string e] |} in
  (* the catch *)
  self w' = self w
  /\ timers (loop w') = timers (loop w)
  /\ settled (trace w') = settled (trace w)
  /\ (fst (doFlush_catch to_string (Rejected e) w) = Rejected e
      <-> strictFlush (config (self w)) = Some true)
  /\ (strictFlush (config (self w)) = Some true ->
        logged (trace w') = logged (trace w)
        /\ match g with
           | Threshold =>
               unhandled (trace w') = unhandled (trace w) ++ [(k, e)]
               /\ lookup k (tasks (loop w')) = None
           | Timer =>
               unhandled (trace w') = unhandled (trace w)
               /\ lookup k (tasks (loop w')) = Some (AwaitDoFlush (Rejected e))
           end)
  /\ (strictFlush (config (self w)) <> Some true ->
        logged (trace w') = logged (trace w) ++ [warning]
        /\ unhandled (trace w') = unhandled (trace w)
        /\ match g with
           | Threshold => lookup k (tasks (loop w')) = None
           | Timer => lookup k (tasks (loop w')) = Some (AwaitDoFlush (Fulfilled tt))
           end)
  (* how the call got there: the finally of flush(), by a rejected promise
     or by a callback that threw at once *)
  /\ (forall w0 : World T Err,
        lookup k (tasks (loop w0)) = Some (AwaitFlusher (ByDoFlush g)) ->
        let w1 := settle k (Rejected e) w0 in
        lookup k (tasks (loop w1)) = Some (AwaitFlush (ByDoFlush g) (Rejected e))
        /\ flushing (self w1) = false
        /\ items (self w1) = items (self w0)
        /\ settled (trace w1) = settled (trace w0)
        /\ unhandled (trace w1) = unhandled (trace w0))
  /\ (forall (w0 : World T Err) (j : nat),
        items (self w0) <> [] ->
        flusher_sync j (items (self w0)) = Some e ->
        let w1 := flush flusher_sync j (ByDoFlush g) w0 in
        lookup j (tasks (loop w1)) = Some (AwaitFlush (ByDoFlush g) (Rejected e))
        /\ flushing (self w1) = false
        /\ items (self w1) = []
        /\ settled (trace w1) = settled (trace w0)
        /\ unhandled (trace w1) = unhandled (trace w0))
  (* the caller of add *)
  /\ (forall (w0 : World T Err) (x : T),
        settled (trace (add flusher_sync x w0)) = settled (trace w0)
        /\ unhandled (trace (add flusher_sync x w0)) = unhandled (trace w0)).
Proof.
  intros Hk w' warning.
  destruct (resume_doFlush_rejected k g e w Hk) as (R1 & R2 & _ & R4 & _ & _ & R7 & R8).
  split; [exact R1 |]. split; [exact R2 |]. split; [exact R4 |].
  split; [apply doFlush_catch_rethrows |].
  split; [exact R7 |]. split; [exact R8 |].
  split.
  { intros w0 H0 w1.
    destruct (settle_spec k (ByDoFlush g) (Rejected e) w0 H0)
      as (S1 & _ & _ & _ & _ & S6 & S7 & S8).
    fold w1 in S1, S6, S7, S8. rewrite S1, S6, S7, S8, lookup_set_task. finish. }
  split.
  { intros w0 j Hne Hs w1.
    destruct (flush_thrown j (ByDoFlush g) e w0 Hne Hs) as (S1 & _ & _ & _ & _ & S6 & S7 & S8).
    fold w1 in S1, S6, S7, S8. rewrite S1, S6, S7, S8, lookup_set_task. finish. }
  intros w0 x. apply add_reports_nothing.
Qed.

(** C4. An explicit [flush()] on a non-empty buffer. When the callback
    fails - it throws at once, or its promise rejects - the promise of
    [flush()] rejects with that failure; when the promise fulfils with [b],
    the promise of [flush()] fulfils with [b]. Nothing of this reads
    [strictFlush]. In every case the [finally] block sets [flushing] to false
    and notifies once, and the buffer is left as it is: the items of the
    batch are not put back. *)
Theorem explicit_flush_contract (w : World T Err) :
  items (self w) <> [] ->
  let k := next_id (loop w) in
  let w1 := step to_string flusher_sync w EvFlush in
  let seen := {| size := 0; isRunning := running (self w); isFlushing := true |} in
  let after := {| size := 0; isRunning := running (self w); isFlushing := false |} in
  (* up to the await *)
  items (self w1) = []
  /\ flusher_calls (trace w1) =
       flusher_calls (trace w)
       ++ [{| call_id := k; call_items := items (self w); call_seen := seen |}]
  /\ (forall e,
        flusher_sync k (items (self w)) = Some e ->
        settled (trace w1) = settled (trace w) ++ [(k, Rejected e)]
        /\ flushing (self w1) = false
        /\ delivered (trace w1) =
             (delivered (trace w) ++ broadcast (subscribers (self w)) seen)
             ++ broadcast (subscribers (self w)) after
        /\ unhandled (trace w1) = unhandled (trace w))
  /\ (flusher_sync k (items (self w)) = None ->
        lookup k (tasks (loop w1)) = Some (AwaitFlusher ByCaller)
        /\ flushing (self w1) = true
        /\ settled (trace w1) = settled (trace w))
  (* the promise of the callback settles, whatever happened in between *)
  /\ (forall (w2 : World T Err) (r : Result Err bool),
        lookup k (tasks (loop w2)) = Some (AwaitFlusher ByCaller) ->
        let w3 := settle k r w2 in
        settled (trace w3) = settled (trace w2) ++ [(k, r)]
        /\ flushing (self w3) = false
        /\ items (self w3) = items (self w2)
        /\ config (self w3) = config (self w2)
        /\ delivered (trace w3) =
             delivered (trace w2)
             ++ broadcast (subscribers (self w2))
                  {| size := length (items (self w2)); isRunning := running (self w2);
                     isFlushing := false |}
        /\ unhandled (trace w3) = unhandled (trace w2)
        /\ lookup k (tasks (loop w3)) = None)
  (* the whole call, with any events in between *)
  /\ (forall (evs : list (Event T Err)) (r : Result Err bool),
        tasks_fresh w ->
        flusher_sync k (items (self w)) = None ->
        Forall (fun e => concerns k e = false) evs ->
        let w' := run to_string flusher_sync w (EvFlush :: evs ++ [EvSettle k r]) in
        In (k, r) (settled (trace w'))
        /\ flushing (self w') = false
        /\ (Forall (fun e => is_add e = false) evs -> items (self w') = [])).
Proof.
  intros Hne k w1 seen after.
  assert (Hne' : items (self (set_next_id (S k) w)) <> []) by exact Hne.
  assert (E1 : w1 = flush flusher_sync k ByCaller (set_next_id (S k) w))
    by (unfold w1; apply explicit_flush_spec).
  assert (Hsettle : forall (w2 : World T Err) (r : Result Err bool),
            lookup k (tasks (loop w2)) = Some (AwaitFlusher ByCaller) ->
            let w3 := settle k r w2 in
            settled (trace w3) = settled (trace w2) ++ [(k, r)]
            /\ flushing (self w3) = false
            /\ items (self w3) = items (self w2)
            /\ config (self w3) = config (self w2)
            /\ delivered (trace w3) =
                 delivered (trace w2)
                 ++ broadcast (subscribers (self w2))
                      {| size := length (items (self w2)); isRunning := running (self w2);
                         isFlushing := false |}
            /\ unhandled (trace w3) = unhandled (trace w2)
            /\ lookup k (tasks (loop w3)) = None).
  { intros w2 r H2 w3.
    destruct (settle_spec k ByCaller r w2 H2) as (S1 & _ & _ & _ & S5 & S6 & S7 & S8).
    fold w3 in S1, S5, S6, S7, S8.
    rewrite S1, S5, S6, S7, S8, lookup_remove_key_eq. finish. }
  assert (Hpend : flusher_sync k (items (self w)) = None ->
            lookup k (tasks (loop w1)) = Some (AwaitFlusher ByCaller)
            /\ flushing (self w1) = true
            /\ settled (trace w1) = settled (trace w)
            /\ items (self w1) = []).
  { intros Hs. rewrite E1.
    destruct (flush_pending k ByCaller _ Hne' Hs) as (P1 & _ & _ & P4 & _ & _ & P7 & _).
    rewrite P1, P4, P7, lookup_set_task. finish. }
  destruct (flush_frame k ByCaller (set_next_id (S k) w)) as (_ & _ & _ & _ & Hi & _).
  rewrite <- E1 in Hi.
  split; [exact Hi |].
  split.
  { rewrite E1. destruct (flusher_sync k (items (self w))) as [e |] eqn:Hs.
    - destruct (flush_thrown k ByCaller e _ Hne' Hs) as (_ & _ & _ & P4 & _). exact P4.
    - destruct (flush_pending k ByCaller _ Hne' Hs) as (_ & _ & _ & _ & P5 & _). exact P5. }
  split.
  { intros e Hs. rewrite E1.
    destruct (flush_thrown k ByCaller e _ Hne' Hs) as (P1 & _ & _ & _ & P5 & P6 & _ & P8).
    rewrite P1, P5, P6, P8. finish. }
  split.
  { intros Hs. destruct (Hpend Hs) as (Q1 & Q2 & Q3 & _). repeat split; assumption. }
  split; [exact Hsettle |].
  intros evs r Hf Hs Hall w'.
  destruct (Hpend Hs) as (Q1 & _ & _ & Q4).
  assert (Hf1 : tasks_fresh w1) by (apply (tasks_fresh_step w EvFlush Hf)).
  set (w2 := run to_string flusher_sync w1 evs).
  assert (E : w' = settle k r w2).
  { unfold w', w2, w1.
    change (EvFlush :: evs ++ [EvSettle k r]) with ([EvFlush] ++ evs ++ [EvSettle k r]).
    rewrite !run_app. reflexivity. }
  assert (K2 : lookup k (tasks (loop w2)) = Some (AwaitFlusher ByCaller))
    by (apply run_keeps_task; assumption).
  destruct (Hsettle w2 r K2) as (S1 & S2 & S3 & _).
  rewrite E. split; [| split].
  - rewrite S1. apply in_or_app. right. left. reflexivity.
  - exact S2.
  - intros Hadd. rewrite S3. apply run_keeps_empty; assumption.
Qed.

Lemma tasks_fresh_of_check (w : World T Err) :
  tasks_fresh_check w = true -> tasks_fresh w.
Proof.
  unfold tasks_fresh_check, tasks_fresh. intros H k t Hin.
  rewrite forallb_forall in H. specialize (H (k, t) Hin).
  apply Nat.ltb_lt in H. exact H.
Qed.

(** ** Several flushes in flight *)

Lemma internal_in_flight_set (k : nat) (t : Task Err) (w w' : World T Err) :
  tasks_fresh w ->
  next_id (loop w) <= k ->
  tasks (loop w') = remove_key k (tasks (loop w)) ++ [(k, t)] ->
  internal_in_flight w' =
    internal_in_flight w ++ (if is_internal_in_flight (k, t) then [(k, t)] else []).
Proof.
  intros Hf Hk Ht. unfold internal_in_flight. rewrite Ht, filter_app.
  rewrite remove_key_fresh; [reflexivity |].
  intros j a Hin. specialize (Hf j a Hin). lia.
Qed.

Lemma timer_fire_spec (t : nat) (d : Z) (w : World T Err) :
  lookup t (timers (loop w)) = Some d ->
  timer_fire flusher_sync t w =
  flush flusher_sync (next_id (loop w)) (ByDoFlush Timer)
    (set_next_id (S (next_id (loop w))) (set_timers (remove_key t (timers (loop w))) w)).
Proof. intros H. unfold timer_fire, read. rewrite H. reflexivity. Qed.

(** C3 (amended). Nothing keeps internally triggered flushes apart: an
    [add] that reaches the threshold, and a timer that fires, call the
    callback on a non-empty buffer whatever is already in flight, and the
    invocations already in flight stay in flight. A timer that fires is
    disarmed, and its callback arms the next one-shot timer only after its
    own [#doFlush] returned. [start()] sets the running flag, notifies once
    and, with a non-zero interval, arms a fresh one-shot timer whose handle
    it stores. *)
Theorem internal_flushes_not_exclusive (w : World T Err) :
  tasks_fresh w ->
  let k := next_id (loop w) in
  let c := config (self w) in
  (forall item : T,
     let l := capped (maxBatchSize c) (items (self w) ++ [item]) in
     threshold_reached c (length l) = true ->
     l <> [] ->
     flusher_sync k l = None ->
     internal_in_flight (add flusher_sync item w)
     = internal_in_flight w ++ [(k, AwaitFlusher (ByDoFlush Threshold))])
  /\ (forall (t : nat) (d : Z),
        lookup t (timers (loop w)) = Some d ->
        let w' := timer_fire flusher_sync t w in
        timers (loop w') = remove_key t (timers (loop w))
        /\ flushTimer (self w') = flushTimer (self w)
        /\ (items (self w) <> [] ->
            flusher_sync k (items (self w)) = None ->
            internal_in_flight w'
            = internal_in_flight w ++ [(k, AwaitFlusher (ByDoFlush Timer))]))
  /\ (forall (j : nat) (i : Z),
        lookup j (tasks (loop w)) = Some (AwaitDoFlush (Fulfilled tt)) ->
        flushIntervalMs c = Some i ->
        i <> 0%Z ->
        let w' := resume to_string j w in
        flushTimer (self w') = Some k /\ In (k, i) (timers (loop w')))
  /\ (forall i : Z,
        flushIntervalMs c = Some i ->
        i <> 0%Z ->
        let w' := start w in
        running (self w') = true
        /\ flushTimer (self w') = Some k
        /\ In (k, i) (timers (loop w'))
        /\ delivered (trace w') =
             delivered (trace w)
             ++ broadcast (subscribers (self w))
                  {| size := length (items (self w)); isRunning := true;
                     isFlushing := flushing (self w) |}).
Proof.
  intros Hf k c.
  split; [| split; [| split]].
  - intros item l Hr Hne Hs.
    destruct (add_reached item w Hr) as (v & -> & Hv & Hl & _).
    assert (Hi : items (self v) = l) by (rewrite Hv; reflexivity).
    rewrite <- Hi in Hne, Hs. fold k in Hs |- *.
    destruct (flush_pending k (ByDoFlush Threshold) v Hne Hs) as (_ & _ & _ & Ht & _).
    rewrite Hl in Ht. cbn in Ht.
    rewrite (internal_in_flight_set k (AwaitFlusher (ByDoFlush Threshold)) w _ Hf (le_n _) Ht).
    reflexivity.
  - intros t d Ht w'. unfold w'. rewrite (timer_fire_spec t d w Ht). fold k.
    set (v := set_next_id (S k) (set_timers (remove_key t (timers (loop w))) w)).
    destruct (flush_loop k (ByDoFlush Timer) v) as (L1 & _ & _).
    destruct (flush_frame k (ByDoFlush Timer) v) as (_ & _ & F3 & _).
    split; [rewrite L1; reflexivity |]. split; [rewrite F3; reflexivity |].
    intros Hne Hs.
    assert (Hne' : items (self v) <> []) by exact Hne.
    destruct (flush_pending k (ByDoFlush Timer) v Hne' Hs) as (_ & _ & _ & Htk & _).
    cbn in Htk.
    rewrite (internal_in_flight_set k (AwaitFlusher (ByDoFlush Timer)) w _ Hf (le_n _) Htk).
    reflexivity.
  - intros j i Hj Hi Hnz w'.
    destruct (resume_timer_fulfilled j w Hj) as (_ & _ & H).
    fold c in H. rewrite Hi in H.
    assert (Ht : truthy i = true) by (unfold truthy; apply negb_true_iff, Z.eqb_neq, Hnz).
    rewrite Ht in H. destruct H as [H1 H2]. fold w' in H1, H2. fold k in H1, H2.
    split; [exact H1 |]. rewrite H2. apply in_or_app. right. left. reflexivity.
  - intros i Hi Hnz w'.
    destruct (start_spec w) as (S1 & _ & _ & _ & _ & S6 & _ & _ & S9 & _).
    fold c in S9. rewrite Hi in S9.
    assert (Ht : truthy i = true) by (unfold truthy; apply negb_true_iff, Z.eqb_neq, Hnz).
    destruct (S9 Ht) as (A1 & _ & (i' & Hi' & A3)).
    fold w' in S1, S6, A1, A3. fold k in A1, A3.
    split; [exact S1 |]. split; [exact A1 |]. split; [| exact S6].
    rewrite A3. apply in_or_app. right. left.
    assert (E : i' = i) by congruence. rewrite E. reflexivity.
Qed.

(** ** Where the items go *)

Lemma capped_skipn (m : Z) (l : list T) :
  exists n, capped m l = skipn n l /\ ((Z.of_nat (length l) <= m)%Z -> n = 0).
Proof.
  unfold capped, slice. destruct (m <? Z.of_nat (length l))%Z eqn:E.
  - eexists. split; [reflexivity |]. apply Z.ltb_lt in E. lia.
  - exists 0. split; reflexivity.
Qed.

Lemma delivered_items_snoc (w w' : World T Err) (c : FlusherCall T) :
  flusher_calls (trace w') = flusher_calls (trace w) ++ [c] ->
  delivered_items w' = delivered_items w ++ call_items c.
Proof.
  intros H. unfold delivered_items. rewrite H, map_app, concat_app. cbn.
  rewrite app_nil_r. reflexivity.
Qed.

Lemma delivered_items_same (w w' : World T Err) :
  flusher_calls (trace w') = flusher_calls (trace w) ->
  delivered_items w' = delivered_items w.
Proof. intros H. unfold delivered_items. rewrite H. reflexivity. Qed.

(** [flush()] moves the buffer, as it is, to the callback. *)
Lemma flush_accounting (k : nat) (a : Awaiter) (w : World T Err) :
  let w' := flush flusher_sync k a w in
  delivered_items w' ++ items (self w') = delivered_items w ++ items (self w)
  /\ exists later, flusher_calls (trace w') = flusher_calls (trace w) ++ later.
Proof.
  cbn zeta. destruct (flush_frame k a w) as (_ & _ & _ & _ & Hi & _). rewrite Hi, app_nil_r.
  destruct (items (self w)) as [| x l] eqn:E.
  - destruct (flush_empty k a w E) as (_ & _ & _ & Hc & _).
    rewrite (delivered_items_same _ _ Hc), app_nil_r.
    split; [reflexivity |]. exists []. rewrite app_nil_r. exact Hc.
  - assert (Hne : items (self w) <> []) by (rewrite E; discriminate).
    destruct (flusher_sync k (items (self w))) as [e |] eqn:Hs.
    + destruct (flush_thrown k a e w Hne Hs) as (_ & _ & _ & Hc & _).
      rewrite (delivered_items_snoc _ _ _ Hc). cbn. rewrite E.
      split; [reflexivity |]. eexists. exact Hc.
    + destruct (flush_pending k a w Hne Hs) as (_ & _ & _ & _ & Hc & _).
      rewrite (delivered_items_snoc _ _ _ Hc). cbn. rewrite E.
      split; [reflexivity |]. eexists. exact Hc.
Qed.

(** One step: what was delivered plus what is buffered is what it was plus
    the added item, less a prefix of the buffer ([maxBatchSize], [reset]);
    nothing is less when the event is neither [reset] nor [configure] and
    the buffer stays within [maxBatchSize]. *)
Lemma step_accounting (w : World T Err) (e : Event T Err) :
  let w' := step to_string flusher_sync w e in
  exists n,
    delivered_items w' ++ items (self w')
    = delivered_items w ++ skipn n (items (self w) ++ added [e])
    /\ length (items (self w')) <= length (items (self w)) + length (added [e])
    /\ (exists later, flusher_calls (trace w') = flusher_calls (trace w) ++ later)
    /\ (keeps_items e = true -> config (self w') = config (self w))
    /\ (keeps_items e = true ->
        (Z.of_nat (length (items (self w)) + length (added [e]))
         <= maxBatchSize (config (self w)))%Z ->
        n = 0).
Proof.
  cbn zeta.
  assert (Hsame : forall w' : World T Err,
            items (self w') = items (self w) ->
            flusher_calls (trace w') = flusher_calls (trace w) ->
            config (self w') = config (self w) ->
            added [e] = [] ->
            exists n,
              delivered_items w' ++ items (self w')
              = delivered_items w ++ skipn n (items (self w) ++ added [e])
              /\ length (items (self w')) <= length (items (self w)) + length (added [e])
              /\ (exists later, flusher_calls (trace w') = flusher_calls (trace w) ++ later)
              /\ (keeps_items e = true -> config (self w') = config (self w))
              /\ (keeps_items e = true ->
                  (Z.of_nat (length (items (self w)) + length (added [e]))
                   <= maxBatchSize (config (self w)))%Z ->
                  n = 0)).
  { intros w' Hi Hc Hg Ha. exists 0. rewrite Ha, Hi, (delivered_items_same _ _ Hc), app_nil_r.
    cbn. split; [reflexivity |]. split; [lia |].
    split; [exists []; rewrite app_nil_r; exact Hc |]. split; [intros _; exact Hg | reflexivity]. }
  assert (Hflush : forall (k : nat) (a : Awaiter) (v : World T Err),
            items (self v) = items (self w) ->
            flusher_calls (trace v) = flusher_calls (trace w) ->
            config (self v) = config (self w) ->
            added [e] = [] ->
            let w' := flush flusher_sync k a v in
            exists n,
              delivered_items w' ++ items (self w')
              = delivered_items w ++ skipn n (items (self w) ++ added [e])
              /\ length (items (self w')) <= length (items (self w)) + length (added [e])
              /\ (exists later, flusher_calls (trace w') = flusher_calls (trace w) ++ later)
              /\ (keeps_items e = true -> config (self w') = config (self w))
              /\ (keeps_items e = true ->
                  (Z.of_nat (length (items (self w)) + length (added [e]))
                   <= maxBatchSize (config (self w)))%Z ->
                  n = 0)).
  { intros k a v Hi Hc Hg Ha w'. exists 0.
    destruct (flush_accounting k a v) as (Hacc & later & Hl).
    destruct (flush_frame k a v) as (Fg & _ & _ & _ & Fi & _).
    fold w' in Hacc, Hl, Fg, Fi.
    rewrite Hacc, Ha, Hi, (delivered_items_same _ _ Hc), app_nil_r, Fi, Hl, Hc, Fg, Hg.
    cbn. split; [reflexivity |]. split; [lia |].
    split; [exists later; reflexivity |]. split; reflexivity. }
  destruct e as [x | | | | | | p | cb | h | t | k r | k].
  - (* add *)
    cbn [step added flat_map app keeps_items].
    destruct (capped_skipn (maxBatchSize (config (self w))) (items (self w) ++ [x]))
      as (n & Hn & Hn0).
    exists n.
    assert (Hlen : length (capped (maxBatchSize (config (self w))) (items (self w) ++ [x]))
                   <= length (items (self w)) + 1).
    { rewrite Hn, length_skipn, length_app. cbn. lia. }
    split; [| split; [| split; [| split]]].
    + destruct (threshold_reached (config (self w))
                  (length (capped (maxBatchSize (config (self w))) (items (self w) ++ [x]))))
        eqn:E.
      * destruct (add_reached x w E) as (v & -> & Hv & _ & Hc & _).
        destruct (flush_accounting (next_id (loop w)) (ByDoFlush Threshold) v) as (-> & _).
        rewrite (delivered_items_same _ _ Hc), Hv, <- Hn. reflexivity.
      * destruct (add_quiet x w E) as (Hs & _ & Hc & _).
        rewrite (delivered_items_same _ _ Hc), Hs, <- Hn. reflexivity.
    + destruct (threshold_reached (config (self w))
                  (length (capped (maxBatchSize (config (self w))) (items (self w) ++ [x]))))
        eqn:E.
      * destruct (add_reached x w E) as (v & -> & _).
        destruct (flush_frame (next_id (loop w)) (ByDoFlush Threshold) v)
          as (_ & _ & _ & _ & -> & _).
        cbn. lia.
      * destruct (add_quiet x w E) as (-> & _). exact Hlen.
    + destruct (threshold_reached (config (self w))
                  (length (capped (maxBatchSize (config (self w))) (items (self w) ++ [x]))))
        eqn:E.
      * destruct (add_reached x w E) as (v & -> & _ & _ & Hc & _).
        destruct (flush_accounting (next_id (loop w)) (ByDoFlush Threshold) v)
          as (_ & later & ->).
        exists later. rewrite Hc. reflexivity.
      * destruct (add_quiet x w E) as (_ & _ & -> & _). exists []. rewrite app_nil_r.
        reflexivity.
    + intros _. apply add_config.
    + intros _ Hcap. apply Hn0. rewrite length_app. cbn [length] in *. lia.
  - rewrite explicit_flush_spec. apply Hflush; reflexivity.
  - cbn [step]. rewrite drain_spec. apply Hflush; reflexivity.
  - cbn [step]. destruct (start_spec w) as (_ & S2 & _ & S4 & _ & _ & S7 & _).
    apply Hsame; auto.
  - cbn [step]. destruct (stop_spec w) as (S1 & _ & _ & _ & S5 & _).
    apply Hsame; auto; rewrite S1; reflexivity.
  - (* reset *)
    cbn [step added flat_map app keeps_items]. exists (length (items (self w))).
    destruct (reset_spec w) as (S1 & _ & S3 & _).
    split; [| split; [| split; [| split]]]; try discriminate.
    + rewrite (delivered_items_same _ _ S3), S1. cbn.
      rewrite (app_nil_r (items (self w))), skipn_all. reflexivity.
    + rewrite S1. cbn. lia.
    + exists []. rewrite app_nil_r. exact S3.
  - (* configure *)
    cbn [step added flat_map app keeps_items]. exists 0.
    destruct (configure_spec p w) as (_ & S6 & _ & _ & _ & _ & _ & _ & S14).
    unfold delivered_items. rewrite S6, S14, app_nil_r. cbn.
    split; [reflexivity |]. split; [lia |].
    split; [exists []; rewrite app_nil_r; reflexivity |]. split; discriminate.
  - apply Hsame; try reflexivity. 
  - apply Hsame; try reflexivity.
  - cbn [step]. unfold timer_fire, read, skip.
    destruct (lookup t (timers (loop w))) as [d |]; [| apply Hsame; reflexivity].
    unfold seq, doFlush, fresh, read, seq. apply Hflush; reflexivity.
  - cbn [step]. destruct (settle_frame k r w) as (S1 & _ & S3 & _ & _ & _ & S7).
    apply Hsame; auto.
  - cbn [step]. destruct (resume_frame k w) as (S1 & _ & S3 & _ & S5).
    apply Hsame; auto.
Qed.

Lemma added_cons (e : Event T Err) (evs : list (Event T Err)) :
  added (e :: evs) = added [e] ++ added evs.
Proof. unfold added. cbn. rewrite app_nil_r. reflexivity. Qed.

(** Whatever happens, nothing is handed to the callback twice and nothing is
    invented: the delivered items followed by the buffer are, in order, among
    the items that were there followed by the added ones. *)
Lemma run_subseq (evs : list (Event T Err)) :
  forall w : World T Err,
  let w' := run to_string flusher_sync w evs in
  subseq (delivered_items w' ++ items (self w'))
         (delivered_items w ++ items (self w) ++ added evs).
Proof.
  induction evs as [| e evs IH]; intros w; cbn zeta.
  - cbn. rewrite app_nil_r. apply subseq_refl.
  - change (run to_string flusher_sync w (e :: evs))
      with (run to_string flusher_sync (step to_string flusher_sync w e) evs).
    destruct (step_accounting w e) as (n & Hn & _).
    eapply subseq_trans; [apply IH |].
    rewrite added_cons, !app_assoc. apply subseq_app; [| apply subseq_refl].
    rewrite <- app_assoc, Hn. apply subseq_app; [apply subseq_refl | apply subseq_skipn].
Qed.

(** Without [reset] and [configure], and within [maxBatchSize], nothing is
    lost either. *)
Lemma run_conserves (evs : list (Event T Err)) :
  forall w : World T Err,
  forallb keeps_items evs = true ->
  (Z.of_nat (length (items (self w)) + length (added evs))
   <= maxBatchSize (config (self w)))%Z ->
  let w' := run to_string flusher_sync w evs in
  delivered_items w' ++ items (self w')
  = delivered_items w ++ items (self w) ++ added evs.
Proof.
  induction evs as [| e evs IH]; intros w Hk Hcap; cbn zeta.
  - cbn. rewrite app_nil_r. reflexivity.
  - change (run to_string flusher_sync w (e :: evs))
      with (run to_string flusher_sync (step to_string flusher_sync w e) evs).
    cbn [forallb] in Hk. apply andb_true_iff in Hk. destruct Hk as [Hke Hkr].
    rewrite added_cons, length_app in Hcap.
    destruct (step_accounting w e) as (n & Hn & Hlen & _ & Hcfg & Hn0).
    specialize (Hcfg Hke).
    assert (n = 0) as -> by (apply Hn0; [exact Hke | lia]).
    rewrite IH; [| exact Hkr | rewrite Hcfg; lia].
    rewrite added_cons, !app_assoc. f_equal.
    rewrite <- app_assoc, Hn. reflexivity.
Qed.

(** The calls already made are never changed by what follows. *)
Lemma run_calls_grow (evs : list (Event T Err)) :
  forall w : World T Err,
  exists later,
    flusher_calls (trace (run to_string flusher_sync w evs))
    = flusher_calls (trace w) ++ later.
Proof.
  induction evs as [| e evs IH]; intros w.
  - exists []. cbn. rewrite app_nil_r. reflexivity.
  - change (run to_string flusher_sync w (e :: evs))
      with (run to_string flusher_sync (step to_string flusher_sync w e) evs).
    destruct (IH (step to_string flusher_sync w e)) as (l2 & ->).
    destruct (step_accounting w e) as (_ & _ & _ & (l1 & ->) & _).
    exists (l1 ++ l2). rewrite app_assoc. reflexivity.
Qed.

(** C2. [flush()] on a non-empty buffer copies the whole buffer, clears the
    live buffer, and only then calls the callback: the callback receives
    exactly the items present at that moment, in insertion order, and sees an
    empty buffer. Nothing that happens while the callback is in flight changes
    what it received; completion of the flush leaves the buffer as it is, so
    an item added meanwhile stays there for the next flush. Over any run, the
    items delivered so far followed by the buffer are, in order and without
    repetition, among the items added - all of them when no [reset] or
    [configure] occurs and the buffer stays within [maxBatchSize]. *)
Theorem flush_snapshot_no_double_delivery (w : World T Err) (k : nat) (a : Awaiter) :
  items (self w) <> [] ->
  let w1 := flush flusher_sync k a w in
  flusher_calls (trace w1) =
    flusher_calls (trace w)
    ++ [{| call_id := k; call_items := items (self w);
           call_seen := {| size := 0; isRunning := running (self w); isFlushing := true |} |}]
  /\ items (self w1) = []
  /\ (forall evs : list (Event T Err),
        exists later,
          flusher_calls (trace (run to_string flusher_sync w1 evs))
          = (flusher_calls (trace w)
             ++ [{| call_id := k; call_items := items (self w);
                    call_seen := {| size := 0; isRunning := running (self w);
                                    isFlushing := true |} |}])
            ++ later)
  /\ (forall (w2 : World T Err) (j : nat) (r : Result Err bool),
        items (self (settle j r w2)) = items (self w2)
        /\ flusher_calls (trace (settle j r w2)) = flusher_calls (trace w2))
  /\ (forall (w2 : World T Err) (j : nat) (a' : Awaiter),
        items (self w2) <> [] ->
        map (@call_items T) (flusher_calls (trace (flush flusher_sync j a' w2)))
        = map (@call_items T) (flusher_calls (trace w2)) ++ [items (self w2)])
  /\ (forall evs : list (Event T Err),
        let w2 := run to_string flusher_sync w1 evs in
        subseq (delivered_items w2 ++ items (self w2))
               (delivered_items w ++ items (self w) ++ added evs))
  /\ (forall evs : list (Event T Err),
        forallb keeps_items evs = true ->
        (Z.of_nat (length (added evs)) <= maxBatchSize (config (self w)))%Z ->
        let w2 := run to_string flusher_sync w1 evs in
        delivered_items w2 ++ items (self w2)
        = delivered_items w ++ items (self w) ++ added evs).
Proof.
  intros Hne w1.
  assert (Hcalls : forall (w2 : World T Err) (j : nat) (a' : Awaiter),
            items (self w2) <> [] ->
            flusher_calls (trace (flush flusher_sync j a' w2)) =
              flusher_calls (trace w2)
              ++ [{| call_id := j; call_items := items (self w2);
                     call_seen := {| size := 0; isRunning := running (self w2);
                                     isFlushing := true |} |}]).
  { intros w2 j a' Hne2.
    destruct (flusher_sync j (items (self w2))) as [e |] eqn:Hs.
    - destruct (flush_thrown j a' e w2 Hne2 Hs) as (_ & _ & _ & Hc & _). exact Hc.
    - destruct (flush_pending j a' w2 Hne2 Hs) as (_ & _ & _ & _ & Hc & _). exact Hc. }
  destruct (flush_frame k a w) as (Fg & _ & _ & _ & Fi & _). fold w1 in Fg, Fi.
  destruct (flush_accounting k a w) as (Hacc & _). fold w1 in Hacc.
  rewrite Fi, app_nil_r in Hacc.
  split; [apply Hcalls, Hne |].
  split; [exact Fi |].
  split.
  { intros evs. rewrite <- (Hcalls w k a Hne). apply run_calls_grow. }
  split.
  { intros w2 j r. destruct (settle_frame j r w2) as (S1 & _ & _ & _ & _ & _ & S7).
    split; assumption. }
  split.
  { intros w2 j a' Hne2. rewrite (Hcalls w2 j a' Hne2), map_app. reflexivity. }
  split.
  { intros evs w2. pose proof (run_subseq evs w1) as H. cbn zeta in H. fold w2 in H.
    rewrite Fi, Hacc in H. cbn [app] in H. rewrite <- app_assoc in H. exact H. }
  intros evs Hk Hcap w2.
  pose proof (run_conserves evs w1 Hk) as H. cbn zeta in H. fold w2 in H.
  rewrite Fi, Fg, Hacc in H. cbn [app length Nat.add] in H.
  rewrite <- app_assoc in H. apply H. exact Hcap.
Qed.

(** ** Subscribers *)

Lemma calls_of_app (cb : nat) (d1 d2 : list (nat * BatchFlusherState)) :
  calls_of cb (d1 ++ d2) = calls_of cb d1 ++ calls_of cb d2.
Proof. unfold calls_of. rewrite filter_app, map_app. reflexivity. Qed.

(** One [publish] calls a callback once per registration. *)
Lemma calls_of_broadcast (cb : nat) (subs : list (nat * nat)) (st : BatchFlusherState) :
  calls_of cb (broadcast subs st) = repeat st (registrations cb subs).
Proof.
  unfold calls_of, broadcast, registrations.
  induction subs as [| [h c] subs IH]; [reflexivity |]. cbn.
  destruct (Nat.eqb c cb); cbn; rewrite IH; reflexivity.
Qed.

Lemma calls_of_broadcasts_none (cb : nat) (subs : list (nat * nat))
  (sts : list BatchFlusherState) :
  registrations cb subs = 0 -> calls_of cb (flat_map (broadcast subs) sts) = [].
Proof.
  intros H. induction sts as [| st sts IH]; [reflexivity |]. cbn [flat_map].
  rewrite calls_of_app, calls_of_broadcast, H, IH. reflexivity.
Qed.

Lemma news_app (v v' : World T Err) (d : list (nat * BatchFlusherState)) :
  delivered (trace v') = delivered (trace v) ++ d -> news v v' = d.
Proof.
  intros H. unfold news. rewrite H, skipn_app, skipn_all, Nat.sub_diag. reflexivity.
Qed.

Lemma registrations_app (cb : nat) (s1 s2 : list (nat * nat)) :
  registrations cb (s1 ++ s2) = registrations cb s1 + registrations cb s2.
Proof. unfold registrations. rewrite filter_app, length_app. reflexivity. Qed.

Lemma registrations_remove_le (cb h : nat) (subs : list (nat * nat)) :
  registrations cb (remove_key h subs) <= registrations cb subs.
Proof.
  unfold registrations, remove_key.
  induction subs as [| [h' c] subs IH]; [reflexivity |]. cbn.
  destruct (Nat.eqb h h'); cbn; destruct (Nat.eqb c cb); cbn; lia.
Qed.

Lemma registrations_remove_lt (cb h : nat) (subs : list (nat * nat)) :
  In (h, cb) subs ->
  registrations cb (remove_key h subs) < registrations cb subs.
Proof.
  unfold registrations, remove_key.
  induction subs as [| [h' c] subs IH]; [intros [] |]. cbn.
  intros [[= -> ->] | Hin].
  - rewrite !Nat.eqb_refl. cbn.
    pose proof (registrations_remove_le cb h subs) as Hle.
    unfold registrations, remove_key in Hle. lia.
  - specialize (IH Hin).
    destruct (Nat.eqb h h'); cbn; destruct (Nat.eqb c cb); cbn; lia.
Qed.

(** What [flush()] tells the subscribers. *)
Lemma flush_broadcasts (k : nat) (a : Awaiter) (w : World T Err) :
  exists sts,
    delivered (trace (flush flusher_sync k a w))
    = delivered (trace w) ++ flat_map (broadcast (subscribers (self w))) sts.
Proof.
  destruct (items (self w)) as [| x l] eqn:E.
  - destruct (flush_empty k a w E) as (_ & _ & _ & _ & -> & _).
    exists []. cbn. rewrite app_nil_r. reflexivity.
  - assert (Hne : items (self w) <> []) by (rewrite E; discriminate).
    destruct (flusher_sync k (items (self w))) as [e |] eqn:Hs.
    + destruct (flush_thrown k a e w Hne Hs) as (_ & _ & _ & _ & -> & _).
      eexists [_; _]. cbn. rewrite app_nil_r, app_assoc. reflexivity.
    + destruct (flush_pending k a w Hne Hs) as (_ & _ & _ & _ & _ & -> & _).
      eexists [_]. cbn. rewrite app_nil_r. reflexivity.
Qed.

(** Every step but [subscribe] only publishes to the registered
    callbacks. *)
Lemma step_broadcasts (v : World T Err) (e : Event T Err) :
  (forall cb, e <> EvSubscribe cb) ->
  exists sts,
    delivered (trace (step to_string flusher_sync v e))
    = delivered (trace v) ++ flat_map (broadcast (subscribers (self v))) sts.
Proof.
  intros Hsub.
  assert (Hnone : forall v' : World T Err,
            delivered (trace v') = delivered (trace v) ->
            exists sts, delivered (trace v')
                        = delivered (trace v) ++ flat_map (broadcast (subscribers (self v))) sts).
  { intros v' H. exists []. cbn. rewrite app_nil_r. exact H. }
  assert (Hone : forall (v' : World T Err) (st : BatchFlusherState),
            delivered (trace v') = delivered (trace v) ++ broadcast (subscribers (self v)) st ->
            exists sts, delivered (trace v')
                        = delivered (trace v) ++ flat_map (broadcast (subscribers (self v))) sts).
  { intros v' st H. exists [st]. cbn. rewrite app_nil_r. exact H. }
  destruct e as [x | | | | | | p | cb | h | t | k r | k].
  - cbn [step].
    destruct (threshold_reached (config (self v))
                (length (capped (maxBatchSize (config (self v))) (items (self v) ++ [x]))))
      eqn:E.
    + destruct (add_reached x v E) as (u & -> & Hu & _ & _ & Hd & _).
      destruct (flush_broadcasts (next_id (loop v)) (ByDoFlush Threshold) u) as (sts & ->).
      rewrite Hd, Hu. eexists (_ :: sts). cbn. rewrite <- app_assoc. reflexivity.
    + destruct (add_quiet x v E) as (_ & _ & _ & Hd & _). eapply Hone. exact Hd.
  - rewrite explicit_flush_spec.
    apply (flush_broadcasts (next_id (loop v)) ByCaller (set_next_id (S (next_id (loop v))) v)).
  - cbn [step]. rewrite drain_spec.
    apply (flush_broadcasts (next_id (loop v)) ByDrain
             (set_next_id (S (next_id (loop v))) (debug "drain" v))).
  - cbn [step]. destruct (start_spec v) as (_ & _ & _ & _ & _ & Hd & _).
    eapply Hone. exact Hd.
  - cbn [step]. destruct (stop_spec v) as (_ & _ & _ & _ & _ & Hd & _).
    eapply Hone. exact Hd.
  - cbn [step]. destruct (reset_spec v) as (_ & _ & _ & Hd). eapply Hone. exact Hd.
  - cbn [step]. apply Hnone.
    destruct (configure_spec p v) as (_ & _ & _ & _ & _ & _ & _ & _ & ->).
    reflexivity.
  - exfalso. apply (Hsub cb). reflexivity.
  - apply Hnone. reflexivity.
  - cbn [step]. unfold timer_fire, read, skip.
    destruct (lookup t (timers (loop v))) as [d |]; [| apply Hnone; reflexivity].
    unfold seq, doFlush, fresh, read, seq.
    match goal with
    | |- context [flush flusher_sync ?k ?a ?u] => apply (flush_broadcasts k a u)
    end.
  - cbn [step]. destruct (lookup k (tasks (loop v))) as [[a | a r' | r'] |] eqn:E;
      try (rewrite settle_not_pending by (intros a'; rewrite E; discriminate);
           apply Hnone; reflexivity).
    destruct (settle_spec k a r v E) as (_ & _ & _ & _ & Hd & _). eapply Hone. exact Hd.
  - cbn [step]. clear Hsub Hnone Hone. world v. run_blocks.
    destruct (lookup k tk) as [[a | a r | r] |];
      try (exists []; cbn; rewrite app_nil_r; reflexivity).
    + destruct a as [| | g]; try (exists []; cbn; rewrite app_nil_r; reflexivity).
      * destruct r as [b | e]; [destruct ft |];
          first [ exists []; cbn; rewrite app_nil_r; reflexivity
                | eexists [_]; cbn; rewrite app_nil_r; reflexivity ].
      * destruct r as [b | e]; [| destruct sf as [[|] |]]; destruct g;
          exists []; cbn; rewrite app_nil_r; reflexivity.
    + destruct r as [[] | e]; [| exists []; cbn; rewrite app_nil_r; reflexivity].
      destruct ft; destruct fi as [i |]; try destruct (truthy i);
        exists []; cbn; rewrite app_nil_r; reflexivity.
Qed.

(** Only [subscribe] and [unsubscribe] change the registrations. *)
Lemma step_subscribers (v : World T Err) (e : Event T Err) :
  let v' := step to_string flusher_sync v e in
  match e with
  | EvSubscribe cb => subscribers (self v') = subscribers (self v) ++ [(next_id (loop v), cb)]
  | EvUnsubscribe h => subscribers (self v') = remove_key h (subscribers (self v))
  | _ => subscribers (self v') = subscribers (self v)
  end.
Proof.
  cbn zeta. destruct e as [x | | | | | | p | cb | h | t | k r | k].
  - cbn [step].
    destruct (threshold_reached (config (self v))
                (length (capped (maxBatchSize (config (self v))) (items (self v) ++ [x]))))
      eqn:E.
    + destruct (add_reached x v E) as (u & -> & Hu & _).
      destruct (flush_frame (next_id (loop v)) (ByDoFlush Threshold) u) as (_ & _ & _ & -> & _).
      rewrite Hu. reflexivity.
    + destruct (add_quiet x v E) as (-> & _). reflexivity.
  - rewrite explicit_flush_spec.
    destruct (flush_frame (next_id (loop v)) ByCaller (set_next_id (S (next_id (loop v))) v))
      as (_ & _ & _ & -> & _).
    reflexivity.
  - cbn [step]. rewrite drain_spec.
    destruct (flush_frame (next_id (loop v)) ByDrain
                (set_next_id (S (next_id (loop v))) (debug "drain" v)))
      as (_ & _ & _ & -> & _).
    reflexivity.
  - cbn [step]. apply (start_spec v).
  - cbn [step]. destruct (stop_spec v) as (-> & _). reflexivity.
  - cbn [step]. destruct (reset_spec v) as (-> & _). reflexivity.
  - cbn [step]. apply (configure_spec p v).
  - world v. run_blocks. reflexivity.
  - world v. run_blocks. reflexivity.
  - cbn [step]. unfold timer_fire, read, skip.
    destruct (lookup t (timers (loop v))) as [d |]; [| reflexivity].
    unfold seq, doFlush, fresh, read, seq.
    match goal with
    | |- context [flush flusher_sync ?k ?a ?u] =>
        destruct (flush_frame k a u) as (_ & _ & _ & -> & _)
    end.
    reflexivity.
  - cbn [step]. apply (settle_frame k r v).
  - cbn [step]. apply (resume_frame k v).
Qed.

(** A callback that is not registered is not called, and stays
    unregistered unless it is subscribed again. *)
Lemma run_silent (cb : nat) (evs : list (Event T Err)) :
  forall v : World T Err,
  registrations cb (subscribers (self v)) = 0 ->
  forallb (fun e => negb (is_subscribe_of cb e)) evs = true ->
  let v' := run to_string flusher_sync v evs in
  calls_of cb (delivered (trace v')) = calls_of cb (delivered (trace v))
  /\ registrations cb (subscribers (self v')) = 0.
Proof.
  induction evs as [| e evs IH]; intros v Hreg Hall; cbn zeta; [split; [reflexivity | exact Hreg] |].
  change (run to_string flusher_sync v (e :: evs))
    with (run to_string flusher_sync (step to_string flusher_sync v e) evs).
  cbn [forallb] in Hall. apply andb_true_iff in Hall. destruct Hall as [He Hrest].
  apply negb_true_iff in He.
  assert (Hstep : calls_of cb (delivered (trace (step to_string flusher_sync v e)))
                  = calls_of cb (delivered (trace v))
                  /\ registrations cb (subscribers (self (step to_string flusher_sync v e))) = 0).
  { pose proof (step_subscribers v e) as Hs. cbn zeta in Hs.
    destruct e as [x | | | | | | p | cb' | h | t | k r | k]; cbv beta iota in Hs;
      try (match goal with
           | |- context [step to_string flusher_sync v ?ev] =>
               destruct (step_broadcasts v ev ltac:(intros ?; discriminate)) as (sts & ->)
           end;
           rewrite Hs, calls_of_app, (calls_of_broadcasts_none cb _ sts Hreg), app_nil_r;
           split; [reflexivity | exact Hreg]).
    - (* subscribe of another callback *)
      cbn in He. split.
      + clear Hs IH. world v. run_blocks. unfold calls_of.
        rewrite filter_app, map_app. cbn. rewrite He. cbn. rewrite app_nil_r. reflexivity.
      + rewrite Hs, registrations_app, Hreg. unfold registrations. cbn.
        rewrite He. reflexivity.
    - (* unsubscribe *)
      destruct (step_broadcasts v (EvUnsubscribe h) ltac:(intros ?; discriminate)) as (sts & ->).
      rewrite Hs, calls_of_app, (calls_of_broadcasts_none cb _ sts Hreg), app_nil_r.
      split; [reflexivity |].
      pose proof (registrations_remove_le cb h (subscribers (self v))). lia. }
  destruct Hstep as [Hc Hr].
  destruct (IH _ Hr Hrest) as [IH1 IH2].
  split; [rewrite IH1; exact Hc | exact IH2].
Qed.

(** C8. [subscribe(cb)] calls [cb] once, at once, with the current state
    and registers it. While [cb] is registered once, every notification
    calls it exactly once with the state of that moment: one for [add] (the
    buffer already capped), one for [reset], [start] and [stop], one when a
    flush starts (buffer cleared, [isFlushing] true) and one when it ends
    ([isFlushing] false); an [add] that reaches the threshold gives its own
    notification and then the one of the flush it starts. [configure] and a
    [flush()] on an empty buffer notify nobody. Once the returned function
    has removed the registration, no event calls [cb] again (unless [cb] is
    subscribed anew). *)
Theorem subscription_contract (w : World T Err) (cb : nat) :
  registrations cb (subscribers (self w)) = 0 ->
  let h := next_id (loop w) in
  let w1 := subscribe cb w in
  news w w1 = [(cb, getState w)]
  /\ getState w1 = getState w
  /\ subscribers (self w1) = subscribers (self w) ++ [(h, cb)]
  /\ registrations cb (subscribers (self w1)) = 1
  /\ (forall v : World T Err,
        registrations cb (subscribers (self v)) = 1 ->
        (forall x : T,
           threshold_reached (config (self v))
             (length (capped (maxBatchSize (config (self v))) (items (self v) ++ [x])))
           = false ->
           calls_of cb (news v (add flusher_sync x v)) = [getState (add flusher_sync x v)]
           /\ size (getState (add flusher_sync x v))
              = length (capped (maxBatchSize (config (self v))) (items (self v) ++ [x])))
        /\ (forall x : T,
              let l := capped (maxBatchSize (config (self v))) (items (self v) ++ [x]) in
              threshold_reached (config (self v)) (length l) = true ->
              l <> [] ->
              flusher_sync (next_id (loop v)) l = None ->
              calls_of cb (news v (add flusher_sync x v))
              = [{| size := length l; isRunning := running (self v);
                    isFlushing := flushing (self v) |};
                 {| size := 0; isRunning := running (self v); isFlushing := true |}])
        /\ calls_of cb (news v (reset v)) = [getState (reset v)]
        /\ calls_of cb (news v (start v)) = [getState (start v)]
        /\ calls_of cb (news v (stop v)) = [getState (stop v)]
        /\ (forall (k : nat) (a : Awaiter),
              items (self v) <> [] ->
              flusher_sync k (items (self v)) = None ->
              calls_of cb (news v (flush flusher_sync k a v))
              = [getState (flush flusher_sync k a v)]
              /\ getState (flush flusher_sync k a v)
                 = {| size := 0; isRunning := running (self v); isFlushing := true |})
        /\ (forall (k : nat) (a : Awaiter) (r : Result Err bool),
              lookup k (tasks (loop v)) = Some (AwaitFlusher a) ->
              calls_of cb (news v (settle k r v)) = [getState (settle k r v)]
              /\ getState (settle k r v)
                 = {| size := length (items (self v)); isRunning := running (self v);
                      isFlushing := false |})
        /\ (forall (k : nat) (a : Awaiter),
              items (self v) = [] ->
              calls_of cb (news v (flush flusher_sync k a v)) = [])
        /\ (forall p : PartialConfig, calls_of cb (news v (configure p v)) = []))
  /\ (forall v : World T Err,
        registrations cb (subscribers (self v)) = 1 ->
        In (h, cb) (subscribers (self v)) ->
        registrations cb (subscribers (self (unsubscribe h v))) = 0)
  /\ (forall (v : World T Err) (evs : list (Event T Err)),
        registrations cb (subscribers (self v)) = 0 ->
        forallb (fun e => negb (is_subscribe_of cb e)) evs = true ->
        calls_of cb (delivered (trace (run to_string flusher_sync v evs)))
        = calls_of cb (delivered (trace v))).
Proof.
  intros Hreg h w1.
  assert (Hd1 : delivered (trace w1) = delivered (trace w) ++ [(cb, getState w)])
    by (unfold w1; clear; world w; run_blocks; reflexivity).
  assert (Hs1 : subscribers (self w1) = subscribers (self w) ++ [(h, cb)])
    by (unfold w1, h; clear; world w; run_blocks; reflexivity).
  assert (Hg1 : getState w1 = getState w)
    by (unfold w1; clear; world w; run_blocks; reflexivity).
  split; [apply news_app, Hd1 |]. split; [exact Hg1 |]. split; [exact Hs1 |].
  split.
  { rewrite Hs1, registrations_app, Hreg. unfold registrations. cbn.
    rewrite Nat.eqb_refl. reflexivity. }
  split.
  { intros v Hv.
    assert (Hone : forall (v' : World T Err) (st : BatchFlusherState),
              delivered (trace v') = delivered (trace v) ++ broadcast (subscribers (self v)) st ->
              calls_of cb (news v v') = [st]).
    { intros v' st H. rewrite (news_app v v' _ H), calls_of_broadcast, Hv. reflexivity. }
    split.
    { intros x Hq. destruct (add_quiet x v Hq) as (Hs & _ & _ & Hd & _).
      rewrite (Hone _ _ Hd). unfold getState. rewrite Hs. split; reflexivity. }
    split.
    { intros x l Hr Hne Hsy.
      destruct (add_reached x v Hr) as (u & -> & Hu & _ & _ & Hd & _).
      assert (Hi : items (self u) = l) by (rewrite Hu; reflexivity).
      rewrite <- Hi in Hne, Hsy.
      destruct (flush_pending (next_id (loop v)) (ByDoFlush Threshold) u Hne Hsy)
        as (_ & _ & _ & _ & _ & Hd' & _).
      rewrite Hd, Hu in Hd'.
      cbn [set_items upd_self self subscribers running items] in Hd'.
      rewrite <- app_assoc in Hd'.
      rewrite (news_app v _ _ Hd'), calls_of_app, !calls_of_broadcast, Hv. reflexivity. }
    split.
    { destruct (reset_spec v) as (Hs & _ & _ & Hd).
      rewrite (Hone _ _ Hd). unfold getState. rewrite Hs. reflexivity. }
    split.
    { destruct (start_spec v) as (S1 & S2 & S3 & _ & _ & Hd & _).
      rewrite (Hone _ _ Hd). unfold getState. rewrite S1, S2, S3. reflexivity. }
    split.
    { destruct (stop_spec v) as (Hs & _ & _ & _ & _ & Hd & _).
      rewrite (Hone _ _ Hd). unfold getState. rewrite Hs. reflexivity. }
    split.
    { intros k a Hne Hsy.
      destruct (flush_pending k a v Hne Hsy) as (Hs & _ & _ & _ & _ & Hd & _).
      rewrite (Hone _ _ Hd). unfold getState. rewrite Hs. split; reflexivity. }
    split.
    { intros k a r Hk.
      destruct (settle_spec k a r v Hk) as (Hs & _ & _ & _ & Hd & _).
      rewrite (Hone _ _ Hd). unfold getState. rewrite Hs. split; reflexivity. }
    split.
    { intros k a He.
      destruct (flush_empty k a v He) as (_ & _ & _ & _ & Hd & _).
      rewrite (news_app v _ [] (eq_trans Hd (eq_sym (app_nil_r _)))). reflexivity. }
    intros p.
    destruct (configure_spec p v) as (_ & _ & _ & _ & _ & _ & _ & _ & Ht).
    assert (Hd : delivered (trace (configure p v)) = delivered (trace v) ++ [])
      by (rewrite Ht, app_nil_r; reflexivity).
    rewrite (news_app v _ [] Hd). reflexivity. }
  split.
  { intros v Hv Hin.
    pose proof (registrations_remove_lt cb h (subscribers (self v)) Hin) as Hlt.
    assert (E : subscribers (self (unsubscribe h v)) = remove_key h (subscribers (self v)))
      by (clear; world v; run_blocks; reflexivity).
    rewrite E. lia. }
  intros v evs Hv Hall. apply (run_silent cb evs v Hv Hall).
Qed.

(** * More of the class *)

(** ** The constructor *)

(** [new BatchFlusher(flusher, config, autostart)]: the configuration is the
    defaults (interval 1000, cap 100, no threshold, not strict) overwritten
    by the defined keys of [config], so [flushIntervalMs] is never undefined
    and only an explicit 0 disables the timer; the buffer is empty, nothing
    is in flight, nobody has been called or notified; [isRunning] is
    [autostart], also when the interval is 0; one timer (handle 0) is armed
    exactly when [autostart] holds and the interval is not 0; the logger of
    the debug messages is the configured one, else [createClog()]. *)
Theorem constructor_state (cfg : option PartialConfig) (autostart : bool) :
  let w := new_BatchFlusher T Err cfg autostart in
  let c := config (self w) in
  let i := match cfg with
           | Some p => match p_flushIntervalMs p with Some v => v | None => 1000%Z end
           | None => 1000%Z
           end in
  c = match cfg with
      | Some p => merge_config p default_config
      | None => default_config
      end
  /\ flushIntervalMs c = Some i
  /\ items (self w) = []
  /\ running (self w) = autostart
  /\ flushing (self w) = false
  /\ subscribers (self w) = []
  /\ base_logger (self w) = match logger c with Some l => Custom l | None => Clog end
  /\ tasks (loop w) = []
  /\ flusher_calls (trace w) = []
  /\ delivered (trace w) = []
  /\ settled (trace w) = []
  /\ unhandled (trace w) = []
  /\ timers (loop w) = (if autostart && truthy i then [(0, i)] else [])
  /\ flushTimer (self w) = (if autostart && truthy i then Some 0 else None)
  /\ map log_args (logged (trace w)) = (if autostart then [["start"%string]] else []).
Proof.
  unfold new_BatchFlusher, blank, default_config.
  destruct cfg as [[pi pm pt ps pl] |]; destruct autostart;
    try (destruct pi as [v |]; [destruct (truthy v) eqn:Ev |]);
    run_blocks; cbn [p_flushIntervalMs p_maxBatchSize p_flushThreshold p_strictFlush p_logger];
    rewrite ?Ev; cbn; finish.
Qed.

(** A fresh accumulator is not flushing and has nothing suspended. *)
Lemma fresh_instance_flags (cfg : option PartialConfig) (autostart : bool) :
  flushing (self (new_BatchFlusher T Err cfg autostart)) = false
  /\ tasks (loop (new_BatchFlusher T Err cfg autostart)) = []
  /\ items (self (new_BatchFlusher T Err cfg autostart)) = [].
Proof.
  unfold new_BatchFlusher, blank, default_config.
  destruct cfg as [[pi pm pt ps pl] |]; destruct autostart;
    try (destruct pi as [v |]; [destruct (truthy v) eqn:Ev |]);
    run_blocks; cbn [p_flushIntervalMs p_maxBatchSize p_flushThreshold p_strictFlush p_logger];
    rewrite ?Ev; cbn; finish.
Qed.

(** ** [reset] *)

(** [reset()] empties the buffer without calling the flush callback: the
    subscribers are told once (size 0), nothing is logged, and the flags, the
    configuration, the timers and the calls in flight are as before. The
    items are gone for good: a [flush()] right after it fulfils with [true]
    and calls nothing, and whatever happens later, the items the callback
    ever receives, followed by the buffer, are taken from what had been
    delivered before and what is added afterwards. *)
Theorem reset_discards_buffer (w : World T Err) :
  let w' := reset w in
  items (self w') = []
  /\ config (self w') = config (self w)
  /\ running (self w') = running (self w)
  /\ flushing (self w') = flushing (self w)
  /\ flushTimer (self w') = flushTimer (self w)
  /\ loop w' = loop w
  /\ flusher_calls (trace w') = flusher_calls (trace w)
  /\ logged (trace w') = logged (trace w)
  /\ settled (trace w') = settled (trace w)
  /\ delivered (trace w') =
       delivered (trace w)
       ++ broadcast (subscribers (self w))
            {| size := 0; isRunning := running (self w); isFlushing := flushing (self w) |}
  /\ (let w2 := step to_string flusher_sync w' EvFlush in
      flusher_calls (trace w2) = flusher_calls (trace w)
      /\ settled (trace w2) = settled (trace w) ++ [(next_id (loop w), Fulfilled true)])
  /\ (forall evs : list (Event T Err),
        let w3 := run to_string flusher_sync w' evs in
        subseq (delivered_items w3 ++ items (self w3)) (delivered_items w ++ added evs)).
Proof.
  cbn zeta.
  assert (H : items (self (reset w)) = []
              /\ config (self (reset w)) = config (self w)
              /\ running (self (reset w)) = running (self w)
              /\ flushing (self (reset w)) = flushing (self w)
              /\ flushTimer (self (reset w)) = flushTimer (self w)
              /\ loop (reset w) = loop w
              /\ flusher_calls (trace (reset w)) = flusher_calls (trace w)
              /\ logged (trace (reset w)) = logged (trace w)
              /\ settled (trace (reset w)) = settled (trace w)
              /\ delivered (trace (reset w)) =
                   delivered (trace w)
                   ++ broadcast (subscribers (self w))
                        {| size := 0; isRunning := running (self w);
                           isFlushing := flushing (self w) |})
    by (world w; run_blocks; finish).
  destruct H as (H1 & H2 & H3 & H4 & H5 & H6 & H7 & H8 & H9 & H10).
  repeat match goal with |- _ /\ _ => split end;
    try first [exact H1 | exact H2 | exact H3 | exact H4 | exact H5 | exact H6 | exact H8
               | exact H9 | exact H10].
  - exact H7.
  - rewrite explicit_flush_spec.
    match goal with
    | |- context [flush flusher_sync ?k ?a ?v] =>
        destruct (flush_empty k a v H1) as (_ & _ & _ & F4 & _)
    end.
    rewrite F4. exact H7.
  - rewrite explicit_flush_spec.
    match goal with
    | |- context [flush flusher_sync ?k ?a ?v] =>
        destruct (flush_empty k a v H1) as (_ & _ & _ & _ & _ & _ & _ & F8)
    end.
    rewrite F8, H6. cbn [set_next_id upd_loop trace]. rewrite H9. reflexivity.
  - intros evs. pose proof (run_subseq evs (reset w)) as S. cbn zeta in S.
    unfold delivered_items in S at 2. rewrite H7, H1 in S. exact S.
Qed.

(** ** [flush] and [drain] on an empty buffer *)

(** An explicit [flush()] on an empty buffer fulfils with [true] at once: the
    callback is not called, nobody is notified, no field of the instance
    changes ([isFlushing] stays as it is), no timer and no other call in
    flight is touched; the only trace is one debug message. *)
Theorem flush_empty_fulfils_true (w : World T Err) :
  items (self w) = [] ->
  let k := next_id (loop w) in
  let w' := step to_string flusher_sync w EvFlush in
  settled (trace w') = settled (trace w) ++ [(k, Fulfilled true)]
  /\ self w' = self w
  /\ flusher_calls (trace w') = flusher_calls (trace w)
  /\ delivered (trace w') = delivered (trace w)
  /\ unhandled (trace w') = unhandled (trace w)
  /\ timers (loop w') = timers (loop w)
  /\ (forall j, j <> k -> lookup j (tasks (loop w')) = lookup j (tasks (loop w)))
  /\ lookup k (tasks (loop w')) = None
  /\ logged (trace w') =
       logged (trace w)
       ++ [{| log_sink := base_logger (self w); log_namespace := Some "BatchFlusher"%string;
              log_level := LDebug; log_args := ["flush skipped (empty)"%string] |}].
Proof.
  intros E k w'. unfold w', k. clear w' k.
  world w. run_blocks_in E. subst it. run_blocks.
  repeat match goal with |- _ /\ _ => split end; try reflexivity.
  - intros j Hj. apply lookup_remove_key_ne. exact Hj.
  - apply lookup_remove_key_eq.
Qed.

(** [drain()] on an empty buffer: the callback is not called; when the call
    goes on after its [flush()] it stops the accumulator and fulfils with
    [true]. It waits for nothing else: the calls that were in flight are
    still in flight, and [isFlushing] is as before. *)
Theorem drain_empty_stops (w : World T Err) :
  items (self w) = [] ->
  tasks_fresh w ->
  let k := next_id (loop w) in
  let w' := run to_string flusher_sync w [EvDrain; EvResume k] in
  settled (trace w') = settled (trace w) ++ [(k, Fulfilled true)]
  /\ running (self w') = false
  /\ items (self w') = []
  /\ flushing (self w') = flushing (self w)
  /\ flusher_calls (trace w') = flusher_calls (trace w)
  /\ tasks (loop w') = tasks (loop w)
  /\ timers (loop w') =
       match flushTimer (self w) with
       | Some t => remove_key t (timers (loop w))
       | None => timers (loop w)
       end
  /\ (single_timer w -> timers (loop w') = [])
  /\ delivered (trace w') =
       delivered (trace w)
       ++ broadcast (subscribers (self w))
            {| size := 0; isRunning := false; isFlushing := flushing (self w) |}.
Proof.
  intros E Hf k w'.
  assert (Hk : remove_key k (tasks (loop w)) = tasks (loop w)).
  { apply remove_key_fresh. intros j a Hin. specialize (Hf j a Hin). unfold k. lia. }
  set (v := set_next_id (S k) (debug "drain" w)).
  set (w1 := drain flusher_sync w).
  assert (E1 : w1 = flush flusher_sync k ByDrain v) by reflexivity.
  assert (Ev : items (self v) = []) by exact E.
  destruct (flush_empty k ByDrain v Ev) as (F1 & F2 & F3 & F4 & F5 & F6 & F7 & F8).
  rewrite <- E1 in F1, F2, F3, F4, F5, F6, F7, F8.
  change (tasks (loop v)) with (tasks (loop w)) in F7. rewrite Hk in F7.
  assert (L1 : lookup k (tasks (loop w1)) = Some (AwaitFlush ByDrain (Fulfilled true))).
  { rewrite F7, <- Hk. apply lookup_set_task. }
  assert (E2 : w' = resume to_string k w1) by reflexivity.
  rewrite (resume_drain_fulfilled k true w1 L1) in E2. clearbody w'.
  destruct (stop_spec (remove_task k w1)) as (S1 & S2 & S3 & S4 & S5 & S6 & S7 & S8).
  set (w2 := stop (remove_task k w1)) in *.
  assert (T1 : tasks (loop (remove_task k w1)) = tasks (loop w)).
  { change (tasks (loop (remove_task k w1))) with (remove_key k (tasks (loop w1))).
    rewrite F7, remove_key_app, Hk. cbn. rewrite Nat.eqb_refl. cbn. apply app_nil_r. }
  assert (Q1 : self (remove_task k w1) = self w) by (cbn; rewrite F1; reflexivity).
  assert (Q2 : timers (loop (remove_task k w1)) = timers (loop w))
    by (cbn; rewrite F2; reflexivity).
  assert (Q3 : trace (remove_task k w1) = trace w1) by reflexivity.
  assert (Hsame : match flushTimer (self w) with
                  | Some t => remove_key t (timers (loop w))
                  | None => timers (loop w)
                  end = timers (loop w2)).
  { rewrite S2, Q1, Q2. reflexivity. }
  rewrite E2.
  change (self (push_settled k (Fulfilled true) w2)) with (self w2).
  change (loop (push_settled k (Fulfilled true) w2)) with (loop w2).
  change (settled (trace (push_settled k (Fulfilled true) w2)))
    with (settled (trace w2) ++ [(k, Fulfilled true)]).
  change (flusher_calls (trace (push_settled k (Fulfilled true) w2)))
    with (flusher_calls (trace w2)).
  change (delivered (trace (push_settled k (Fulfilled true) w2)))
    with (delivered (trace w2)).
  assert (R1 : running (self w2) = false) by (rewrite S1; reflexivity).
  assert (R2 : items (self w2) = items (self w)).
  { rewrite S1. change (items (self (set_running false (remove_task k w1))))
      with (items (self (remove_task k w1))). rewrite Q1. reflexivity. }
  assert (R3 : flushing (self w2) = flushing (self w)).
  { rewrite S1. change (flushing (self (set_running false (remove_task k w1))))
      with (flushing (self (remove_task k w1))). rewrite Q1. reflexivity. }
  rewrite R1, R2, R3, S3, S5, S6, S7, T1, Q1, Q3, F4, F5, F8, <- Hsame, E.
  repeat match goal with |- _ /\ _ => split end; try reflexivity.
  apply single_timer_cleared.
Qed.

(** ** [stop] and [start] *)

(** [stop()] does not flush: the buffer, the callback calls, the calls in
    flight, [isFlushing] and the configuration are untouched. It sets
    [isRunning] to false, disarms the timer whose handle is stored and no
    other (so no timer is left when at most that one was armed), keeps the
    stale handle, and notifies once. Calling it again changes nothing but
    the trace. *)
Theorem stop_does_not_flush (w : World T Err) :
  let w' := stop w in
  running (self w') = false
  /\ items (self w') = items (self w)
  /\ flushing (self w') = flushing (self w)
  /\ config (self w') = config (self w)
  /\ flushTimer (self w') = flushTimer (self w)
  /\ flusher_calls (trace w') = flusher_calls (trace w)
  /\ tasks (loop w') = tasks (loop w)
  /\ settled (trace w') = settled (trace w)
  /\ (forall t, flushTimer (self w) = Some t -> lookup t (timers (loop w')) = None)
  /\ (forall t, flushTimer (self w) <> Some t ->
                lookup t (timers (loop w')) = lookup t (timers (loop w)))
  /\ (single_timer w -> timers (loop w') = [])
  /\ delivered (trace w') =
       delivered (trace w)
       ++ broadcast (subscribers (self w))
            {| size := length (items (self w)); isRunning := false;
               isFlushing := flushing (self w) |}
  /\ self (stop w') = self w'
  /\ loop (stop w') = loop w'.
Proof.
  cbn zeta. destruct (stop_spec w) as (S1 & S2 & S3 & S4 & S5 & S6 & S7 & S8).
  assert (Hc : single_timer w -> timers (loop (stop w)) = [])
    by (intros H; rewrite S2; apply single_timer_cleared, H).
  rewrite S1, S3, S5, S6, S7.
  repeat match goal with |- _ /\ _ => split end; try reflexivity.
  - intros t Ht. rewrite S2, Ht. apply lookup_remove_key_eq.
  - intros t Ht. rewrite S2. destruct (flushTimer (self w)) as [t' |]; [| reflexivity].
    apply lookup_remove_key_ne. congruence.
  - exact Hc.
  - clear. world w. destruct ft; run_blocks; reflexivity.
  - clear. world w. destruct ft; run_blocks; rewrite ?remove_key_twice; reflexivity.
Qed.

(** [start()] when [flushIntervalMs] is 0: no timer is armed and the stored
    handle is kept, yet [isRunning] becomes true, the subscribers are told,
    and the call is logged; the buffer and the callback are not touched. *)
Theorem start_without_interval (w : World T Err) :
  flushIntervalMs (config (self w)) = None \/ flushIntervalMs (config (self w)) = Some 0%Z ->
  let w' := start w in
  loop w' = loop w
  /\ flushTimer (self w') = flushTimer (self w)
  /\ running (self w') = true
  /\ items (self w') = items (self w)
  /\ flusher_calls (trace w') = flusher_calls (trace w)
  /\ delivered (trace w') =
       delivered (trace w)
       ++ broadcast (subscribers (self w))
            {| size := length (items (self w)); isRunning := true;
               isFlushing := flushing (self w) |}
  /\ logged (trace w') =
       logged (trace w)
       ++ [{| log_sink := base_logger (self w); log_namespace := Some "BatchFlusher"%string;
              log_level := LDebug; log_args := ["start"%string] |}].
Proof.
  intros H. world w. run_blocks_in H. destruct H as [-> | ->]; run_blocks; finish.
Qed.

(** [stop()] followed by [start()], when at most the stored timer was armed
    and the interval is not 0: exactly one timer is armed, a fresh one with
    the configured interval; the buffer and the callback are not touched. *)
Theorem restart_arms_one_timer (w : World T Err) (i : Z) :
  single_timer w ->
  flushIntervalMs (config (self w)) = Some i ->
  i <> 0%Z ->
  let w' := run to_string flusher_sync w [EvStop; EvStart] in
  timers (loop w') = [(next_id (loop w), i)]
  /\ flushTimer (self w') = Some (next_id (loop w))
  /\ running (self w') = true
  /\ items (self w') = items (self w)
  /\ flusher_calls (trace w') = flusher_calls (trace w)
  /\ single_timer w'.
Proof.
  intros H1 Hi Hne w'.
  assert (E : w' = start (stop w)) by reflexivity. clearbody w'. subst w'.
  destruct (stop_spec w) as (S1 & S2 & S3 & S4 & S5 & _).
  rewrite (single_timer_cleared w H1) in S2.
  destruct (start_spec (stop w)) as (A1 & A2 & _ & _ & _ & _ & A7 & _ & A9 & _).
  assert (Hc : config (self (stop w)) = config (self w)) by (rewrite S1; reflexivity).
  rewrite Hc, Hi in A9.
  assert (Ht : truthy i = true) by (unfold truthy; apply negb_true_iff, Z.eqb_neq, Hne).
  destruct (A9 Ht) as (B1 & B2 & (i' & [= <-] & B3)).
  rewrite S2, S4 in B3. rewrite S4 in B1.
  assert (Hi' : items (self (stop w)) = items (self w)) by (rewrite S1; reflexivity).
  rewrite B3, B1, A1, A2, A7, Hi', S5.
  repeat match goal with |- _ /\ _ => split end; try reflexivity.
  intros t d Hin. rewrite B3 in Hin. destruct Hin as [[= <- <-] | []]. exact B1.
Qed.

(** ** The timer callback *)

Lemma next_timer_cases (c : BatchFlusherConfig) (h : nat) :
  (exists i, flushIntervalMs c = Some i /\ truthy i = true /\ next_timer c h = [(h, i)])
  \/ ((flushIntervalMs c = None \/ flushIntervalMs c = Some 0%Z) /\ next_timer c h = []).
Proof.
  unfold next_timer. destruct (flushIntervalMs c) as [i |]; [| right; auto].
  destruct (truthy i) eqn:E; [left; exists i; auto |].
  right. unfold truthy in E. apply negb_false_iff, Z.eqb_eq in E. subst i. auto.
Qed.

(** [#doFlush] after its [flush()] fulfilled: it returns, whatever the
    boolean. *)
Lemma resume_doFlush_fulfilled (k : nat) (g : Trigger) (b : bool) (w : World T Err) :
  lookup k (tasks (loop w)) = Some (AwaitFlush (ByDoFlush g) (Fulfilled b)) ->
  let w' := resume to_string k w in
  self w' = self w
  /\ timers (loop w') = timers (loop w)
  /\ next_id (loop w') = next_id (loop w)
  /\ trace w' = trace w
  /\ tasks (loop w') =
       remove_key k (tasks (loop w))
       ++ match g with
          | Threshold => []
          | Timer => [(k, AwaitDoFlush (Fulfilled tt))]
          end.
Proof.
  world w. intros Hk. run_blocks_in Hk. run_blocks. rewrite Hk.
  destruct g; cbn; rewrite ?app_nil_r; finish.
Qed.

(** The timer callback after [#doFlush] returned: [clearTimeout] of the
    stored handle, then [#scheduleFlush]; [#running] is not consulted. *)
Lemma resume_timer_next (k : nat) (w : World T Err) :
  lookup k (tasks (loop w)) = Some (AwaitDoFlush (Fulfilled tt)) ->
  let w' := resume to_string k w in
  timers (loop w') = cleared w ++ next_timer (config (self w)) (next_id (loop w))
  /\ flushTimer (self w') =
       match next_timer (config (self w)) (next_id (loop w)) with
       | [] => flushTimer (self w)
       | _ :: _ => Some (next_id (loop w))
       end
  /\ running (self w') = running (self w)
  /\ items (self w') = items (self w)
  /\ flushing (self w') = flushing (self w)
  /\ config (self w') = config (self w)
  /\ trace w' = trace w
  /\ tasks (loop w') = remove_key k (tasks (loop w)).
Proof.
  world w. intros Hk. run_blocks_in Hk. unfold cleared, next_timer. run_blocks. rewrite Hk.
  destruct ft; destruct fi as [i |]; try destruct (truthy i); cbn; rewrite ?app_nil_r; finish.
Qed.

(** [#doFlush] catching a rejected [flush()] without [strictFlush]: one
    warning, and it returns. *)
Lemma resume_doFlush_swallowed (k : nat) (g : Trigger) (e : Err) (w : World T Err) :
  lookup k (tasks (loop w)) = Some (AwaitFlush (ByDoFlush g) (Rejected e)) ->
  strictFlush (config (self w)) <> Some true ->
  let w' := resume to_string k w in
  self w' = self w
  /\ timers (loop w') = timers (loop w)
  /\ next_id (loop w') = next_id (loop w)
  /\ flusher_calls (trace w') = flusher_calls (trace w)
  /\ delivered (trace w') = delivered (trace w)
  /\ settled (trace w') = settled (trace w)
  /\ unhandled (trace w') = unhandled (trace w)
  /\ logged (trace w') = logged (trace w) ++ [warning to_string w e]
  /\ tasks (loop w') =
       remove_key k (tasks (loop w))
       ++ match g with
          | Threshold => []
          | Timer => [(k, AwaitDoFlush (Fulfilled tt))]
          end.
Proof.
  world w. intros Hk Hs. run_blocks_in Hk. run_blocks_in Hs. unfold warning. run_blocks.
  rewrite Hk.
  destruct sf as [[|] |]; [exfalso; apply Hs; reflexivity | |];
    destruct g; cbn; rewrite ?app_nil_r; finish.
Qed.

(** [#doFlush] catching a rejected [flush()] under [strictFlush]: nothing is
    logged and the error goes on. *)
Lemma resume_doFlush_rethrown (k : nat) (g : Trigger) (e : Err) (w : World T Err) :
  lookup k (tasks (loop w)) = Some (AwaitFlush (ByDoFlush g) (Rejected e)) ->
  strictFlush (config (self w)) = Some true ->
  let w' := resume to_string k w in
  self w' = self w
  /\ timers (loop w') = timers (loop w)
  /\ next_id (loop w') = next_id (loop w)
  /\ flusher_calls (trace w') = flusher_calls (trace w)
  /\ delivered (trace w') = delivered (trace w)
  /\ settled (trace w') = settled (trace w)
  /\ logged (trace w') = logged (trace w)
  /\ unhandled (trace w') =
       unhandled (trace w) ++ match g with Threshold => [(k, e)] | Timer => [] end
  /\ tasks (loop w') =
       remove_key k (tasks (loop w))
       ++ match g with
          | Threshold => []
          | Timer => [(k, AwaitDoFlush (Rejected e))]
          end.
Proof.
  world w. intros Hk Hs. run_blocks_in Hk. run_blocks_in Hs. subst sf. run_blocks.
  rewrite Hk. destruct g; cbn; rewrite ?app_nil_r; finish.
Qed.

(** The timer callback after [#doFlush] rejected: an unhandled rejection;
    [clearTimeout] and [#scheduleFlush] are not reached. *)
Lemma resume_timer_dies (k : nat) (e : Err) (w : World T Err) :
  lookup k (tasks (loop w)) = Some (AwaitDoFlush (Rejected e)) ->
  let w' := resume to_string k w in
  self w' = self w
  /\ timers (loop w') = timers (loop w)
  /\ next_id (loop w') = next_id (loop w)
  /\ flusher_calls (trace w') = flusher_calls (trace w)
  /\ delivered (trace w') = delivered (trace w)
  /\ settled (trace w') = settled (trace w)
  /\ logged (trace w') = logged (trace w)
  /\ unhandled (trace w') = unhandled (trace w) ++ [(k, e)]
  /\ tasks (loop w') = remove_key k (tasks (loop w)).
Proof.
  world w. intros Hk. run_blocks_in Hk. run_blocks. rewrite Hk. finish.
Qed.

(** The timer firing, when at most the stored timer is armed: no timer is
    left, and [flush()] starts inside a fresh [#doFlush]. *)
Lemma timer_fire_single (t : nat) (d : Z) (w : World T Err) :
  lookup t (timers (loop w)) = Some d ->
  single_timer w ->
  exists v : World T Err,
    timer_fire flusher_sync t w
    = flush flusher_sync (next_id (loop w)) (ByDoFlush Timer) v
    /\ self v = self w
    /\ timers (loop v) = []
    /\ tasks (loop v) = tasks (loop w)
    /\ next_id (loop v) = S (next_id (loop w))
    /\ trace v = trace w
    /\ flushTimer (self w) = Some t.
Proof.
  intros Hl H1. rewrite (timer_fire_spec t d w Hl).
  eexists. split; [reflexivity |].
  assert (Ht : flushTimer (self w) = Some t) by (apply (H1 t d), lookup_In, Hl).
  repeat split; try reflexivity; [| exact Ht].
  cbn. apply remove_key_only. intros j a Hin. specialize (H1 j a Hin). congruence.
Qed.

(** The two continuations that end the timer callback, when [#doFlush]
    returns normally. *)
Lemma timer_callback_tail (k : nat) (r : Result Err bool) (w : World T Err) :
  lookup k (tasks (loop w)) = Some (AwaitFlush (ByDoFlush Timer) r) ->
  (forall e, r = Rejected e -> strictFlush (config (self w)) <> Some true) ->
  let w' := run to_string flusher_sync w [EvResume k; EvResume k] in
  timers (loop w') = cleared w ++ next_timer (config (self w)) (next_id (loop w))
  /\ flushTimer (self w') =
       match next_timer (config (self w)) (next_id (loop w)) with
       | [] => flushTimer (self w)
       | _ :: _ => Some (next_id (loop w))
       end
  /\ running (self w') = running (self w)
  /\ items (self w') = items (self w)
  /\ flushing (self w') = flushing (self w)
  /\ config (self w') = config (self w)
  /\ flusher_calls (trace w') = flusher_calls (trace w)
  /\ delivered (trace w') = delivered (trace w)
  /\ settled (trace w') = settled (trace w)
  /\ unhandled (trace w') = unhandled (trace w)
  /\ logged (trace w') =
       logged (trace w)
       ++ match r with Fulfilled _ => [] | Rejected e => [warning to_string w e] end
  /\ tasks (loop w') = remove_key k (tasks (loop w)).
Proof.
  intros Hk Hs w'.
  assert (E : w' = resume to_string k (resume to_string k w)) by reflexivity.
  clearbody w'. subst w'.
  set (w1 := resume to_string k w).
  assert (H1 : self w1 = self w
               /\ timers (loop w1) = timers (loop w)
               /\ next_id (loop w1) = next_id (loop w)
               /\ flusher_calls (trace w1) = flusher_calls (trace w)
               /\ delivered (trace w1) = delivered (trace w)
               /\ settled (trace w1) = settled (trace w)
               /\ unhandled (trace w1) = unhandled (trace w)
               /\ logged (trace w1) =
                    logged (trace w)
                    ++ match r with
                       | Fulfilled _ => []
                       | Rejected e => [warning to_string w e]
                       end
               /\ tasks (loop w1) =
                    remove_key k (tasks (loop w)) ++ [(k, AwaitDoFlush (Fulfilled tt))]).
  { destruct r as [b | e].
    - destruct (resume_doFlush_fulfilled k Timer b w Hk) as (A1 & A2 & A3 & A4 & A5).
      fold w1 in A1, A2, A3, A4, A5. rewrite A1, A2, A3, A4, A5, app_nil_r. finish.
    - destruct (resume_doFlush_swallowed k Timer e w Hk (Hs e eq_refl))
        as (A1 & A2 & A3 & A4 & A5 & A6 & A7 & A8 & A9).
      fold w1 in A1, A2, A3, A4, A5, A6, A7, A8, A9.
      rewrite A1, A2, A3, A4, A5, A6, A7, A8, A9. finish. }
  destruct H1 as (A1 & A2 & A3 & A4 & A5 & A6 & A7 & A8 & A9).
  assert (Hk1 : lookup k (tasks (loop w1)) = Some (AwaitDoFlush (Fulfilled tt)))
    by (rewrite A9; apply lookup_set_task).
  destruct (resume_timer_next k w1 Hk1) as (B1 & B2 & B3 & B4 & B5 & B6 & B7 & B8).
  assert (Hc : cleared w1 = cleared w) by (unfold cleared; rewrite A1, A2; reflexivity).
  rewrite B1, B2, B3, B4, B5, B6, B7, B8, Hc, A1, A3, A4, A5, A6, A7, A8, A9.
  repeat match goal with |- _ /\ _ => split end; try reflexivity.
  rewrite remove_key_app, remove_key_twice. cbn. rewrite Nat.eqb_refl. cbn.
  apply app_nil_r.
Qed.

(** The timer firing on a non-empty buffer whose callback returns a promise,
    when at most the stored timer is armed. *)
Lemma timer_fire_pending (t : nat) (d : Z) (w : World T Err) :
  lookup t (timers (loop w)) = Some d ->
  single_timer w ->
  tasks_fresh w ->
  items (self w) <> [] ->
  flusher_sync (next_id (loop w)) (items (self w)) = None ->
  let k := next_id (loop w) in
  let w' := step to_string flusher_sync w (EvTimer t) in
  let seen := {| size := 0; isRunning := running (self w); isFlushing := true |} in
  self w' = self (set_flushing true (set_items [] w))
  /\ timers (loop w') = []
  /\ next_id (loop w') = S k
  /\ tasks (loop w') = tasks (loop w) ++ [(k, AwaitFlusher (ByDoFlush Timer))]
  /\ flusher_calls (trace w') =
       flusher_calls (trace w)
       ++ [{| call_id := k; call_items := items (self w); call_seen := seen |}]
  /\ delivered (trace w') = delivered (trace w) ++ broadcast (subscribers (self w)) seen
  /\ settled (trace w') = settled (trace w)
  /\ unhandled (trace w') = unhandled (trace w)
  /\ flushTimer (self w) = Some t.
Proof.
  intros Hl H1 Hf Hne Hs k w' seen.
  destruct (timer_fire_single t d w Hl H1) as (v & E & V1 & V2 & V3 & V4 & V5 & V6).
  assert (Ew : w' = flush flusher_sync k (ByDoFlush Timer) v) by exact E.
  clearbody w'. subst w'.
  assert (Hne' : items (self v) <> []) by (rewrite V1; exact Hne).
  assert (Hs' : flusher_sync k (items (self v)) = None) by (rewrite V1; exact Hs).
  destruct (flush_pending k (ByDoFlush Timer) v Hne' Hs')
    as (F1 & F2 & F3 & F4 & F5 & F6 & F7 & F8).
  assert (Hk : remove_key k (tasks (loop w)) = tasks (loop w)).
  { apply remove_key_fresh. intros j a Hin. specialize (Hf j a Hin). unfold k. lia. }
  rewrite F1, F2, F3, F4, F5, F6, F7, F8, V2, V3, V4, V5, Hk.
  cbn [set_flushing set_items upd_self self]. rewrite V1.
  repeat match goal with |- _ /\ _ => split end; try reflexivity. exact V6.
Qed.

(** The timer firing on an empty buffer. *)
Lemma timer_fire_empty (t : nat) (d : Z) (w : World T Err) :
  lookup t (timers (loop w)) = Some d ->
  single_timer w ->
  tasks_fresh w ->
  items (self w) = [] ->
  let k := next_id (loop w) in
  let w' := step to_string flusher_sync w (EvTimer t) in
  self w' = self w
  /\ timers (loop w') = []
  /\ next_id (loop w') = S k
  /\ tasks (loop w') = tasks (loop w) ++ [(k, AwaitFlush (ByDoFlush Timer) (Fulfilled true))]
  /\ flusher_calls (trace w') = flusher_calls (trace w)
  /\ delivered (trace w') = delivered (trace w)
  /\ settled (trace w') = settled (trace w)
  /\ unhandled (trace w') = unhandled (trace w)
  /\ flushTimer (self w) = Some t.
Proof.
  intros Hl H1 Hf He k w'.
  destruct (timer_fire_single t d w Hl H1) as (v & E & V1 & V2 & V3 & V4 & V5 & V6).
  assert (Ew : w' = flush flusher_sync k (ByDoFlush Timer) v) by exact E.
  clearbody w'. subst w'.
  assert (He' : items (self v) = []) by (rewrite V1; exact He).
  destruct (flush_empty k (ByDoFlush Timer) v He') as (F1 & F2 & F3 & F4 & F5 & F6 & F7 & F8).
  assert (Hk : remove_key k (tasks (loop w)) = tasks (loop w)).
  { apply remove_key_fresh. intros j a Hin. specialize (Hf j a Hin). unfold k. lia. }
  rewrite F1, F2, F3, F4, F5, F6, F7, F8, V1, V2, V3, V4, V5, Hk.
  repeat match goal with |- _ /\ _ => split end; try reflexivity. exact V6.
Qed.

(** The callback of a timer-triggered flush settles: the [finally] block,
    and [#doFlush] is queued to go on. *)
Lemma settle_timer_flush (k : nat) (r : Result Err bool) (l : list (nat * Task Err))
  (w : World T Err) :
  tasks (loop w) = l ++ [(k, AwaitFlusher (ByDoFlush Timer))] ->
  remove_key k l = l ->
  let w' := settle k r w in
  self w' = self (set_flushing false w)
  /\ timers (loop w') = timers (loop w)
  /\ next_id (loop w') = next_id (loop w)
  /\ flusher_calls (trace w') = flusher_calls (trace w)
  /\ settled (trace w') = settled (trace w)
  /\ unhandled (trace w') = unhandled (trace w)
  /\ tasks (loop w') = l ++ [(k, AwaitFlush (ByDoFlush Timer) r)]
  /\ lookup k (tasks (loop w')) = Some (AwaitFlush (ByDoFlush Timer) r).
Proof.
  intros Ht Hl w'.
  assert (Hk : lookup k (tasks (loop w)) = Some (AwaitFlusher (ByDoFlush Timer)))
    by (rewrite Ht, <- Hl; apply lookup_set_task).
  destruct (settle_spec k (ByDoFlush Timer) r w Hk) as (S1 & S2 & S3 & S4 & _ & S6 & S7 & S8).
  fold w' in S1, S2, S3, S4, S6, S7, S8.
  assert (S7' : tasks (loop w') = l ++ [(k, AwaitFlush (ByDoFlush Timer) r)]).
  { rewrite S7, Ht, remove_key_app, Hl. cbn. rewrite Nat.eqb_refl. cbn.
    rewrite app_nil_r. reflexivity. }
  rewrite S1, S2, S3, S4, S6, S8, S7'.
  repeat match goal with |- _ /\ _ => split end; try reflexivity.
  rewrite <- Hl. apply lookup_set_task.
Qed.

Lemma remove_key_snoc_fresh {A : Type} (k : nat) (a : A) (l : list (nat * A)) :
  remove_key k l = l -> remove_key k (l ++ [(k, a)]) = l.
Proof.
  intros H. rewrite remove_key_app, H. cbn. rewrite Nat.eqb_refl. cbn. apply app_nil_r.
Qed.

Lemma tasks_fresh_next (w : World T Err) :
  tasks_fresh w -> remove_key (next_id (loop w)) (tasks (loop w)) = tasks (loop w).
Proof.
  intros Hf. apply remove_key_fresh. intros j a Hin. specialize (Hf j a Hin). lia.
Qed.

(** The timer firing on an empty buffer: [flush()] is skipped, so nothing
    is called and nobody is notified; then the timer callback goes on and
    arms the next timer with the interval configured at that moment (none
    when it is 0). *)
Theorem timer_on_empty_buffer (w : World T Err) (t : nat) (d : Z) :
  lookup t (timers (loop w)) = Some d ->
  single_timer w ->
  tasks_fresh w ->
  items (self w) = [] ->
  let k := next_id (loop w) in
  let w' := run to_string flusher_sync w [EvTimer t; EvResume k; EvResume k] in
  flusher_calls (trace w') = flusher_calls (trace w)
  /\ delivered (trace w') = delivered (trace w)
  /\ settled (trace w') = settled (trace w)
  /\ unhandled (trace w') = unhandled (trace w)
  /\ items (self w') = []
  /\ running (self w') = running (self w)
  /\ flushing (self w') = flushing (self w)
  /\ config (self w') = config (self w)
  /\ tasks (loop w') = tasks (loop w)
  /\ timers (loop w') = next_timer (config (self w)) (S k)
  /\ flushTimer (self w') =
       match next_timer (config (self w)) (S k) with
       | [] => Some t
       | _ :: _ => Some (S k)
       end
  /\ single_timer w'.
Proof.
  intros Hl H1 Hf He k w'.
  set (w0 := step to_string flusher_sync w (EvTimer t)).
  assert (E : w' = run to_string flusher_sync w0 [EvResume k; EvResume k]) by reflexivity.
  clearbody w'. subst w'.
  destruct (timer_fire_empty t d w Hl H1 Hf He) as (A1 & A2 & A3 & A4 & A5 & A6 & A7 & A8 & A9).
  fold w0 k in A1, A2, A3, A4, A5, A6, A7, A8.
  pose proof (tasks_fresh_next w Hf) as Hk. fold k in Hk.
  assert (Hk0 : lookup k (tasks (loop w0)) = Some (AwaitFlush (ByDoFlush Timer) (Fulfilled true)))
    by (rewrite A4, <- Hk; apply lookup_set_task).
  destruct (timer_callback_tail k (Fulfilled true) w0 Hk0)
    as (B1 & B2 & B3 & B4 & B5 & B6 & B7 & B8 & B9 & B10 & _ & B12);
    [intros e; discriminate |].
  assert (Hc : cleared w0 = []).
  { unfold cleared. rewrite A2. destruct (flushTimer (self w0)); reflexivity. }
  rewrite Hc, A1, A3 in B1. rewrite A1, A3 in B2. cbn [app] in B1.
  rewrite A4, (remove_key_snoc_fresh k _ _ Hk) in B12.
  rewrite B1, B2, B3, B4, B5, B6, B7, B8, B9, B10, B12, A1, A5, A6, A7, A8, A9, He.
  repeat match goal with |- _ /\ _ => split end; try reflexivity.
  intros t' d' Hin. rewrite B1 in Hin. rewrite B2.
  destruct (next_timer (config (self w)) (S k)) as [| [h a] l] eqn:En; [destruct Hin |].
  destruct (next_timer_cases (config (self w)) (S k)) as [(i & _ & _ & E2) | [_ E2]];
    rewrite En in E2; [| discriminate].
  injection E2 as -> -> ->. destruct Hin as [[= <- <-] | []]. reflexivity.
Qed.

(** One turn of the interval mode: the timer fires on a non-empty buffer,
    the callback gets the whole buffer, and no timer is armed while it is in
    flight. Once the callback has settled, with a result or with a failure
    that is swallowed, the timer callback arms the next timer with the
    interval configured at that moment: the next interval counts from the
    end of the flush. *)
Theorem timer_flush_cycle (w : World T Err) (t : nat) (d : Z) (r : Result Err bool) :
  lookup t (timers (loop w)) = Some d ->
  single_timer w ->
  tasks_fresh w ->
  items (self w) <> [] ->
  flusher_sync (next_id (loop w)) (items (self w)) = None ->
  (forall e, r = Rejected e -> strictFlush (config (self w)) <> Some true) ->
  let k := next_id (loop w) in
  let w1 := run to_string flusher_sync w [EvTimer t] in
  let w2 := run to_string flusher_sync w [EvTimer t; EvSettle k r] in
  let w' := run to_string flusher_sync w [EvTimer t; EvSettle k r; EvResume k; EvResume k] in
  timers (loop w1) = []
  /\ timers (loop w2) = []
  /\ flusher_calls (trace w') =
       flusher_calls (trace w)
       ++ [{| call_id := k; call_items := items (self w);
              call_seen := {| size := 0; isRunning := running (self w); isFlushing := true |} |}]
  /\ settled (trace w') = settled (trace w)
  /\ unhandled (trace w') = unhandled (trace w)
  /\ items (self w') = []
  /\ flushing (self w') = false
  /\ running (self w') = running (self w)
  /\ config (self w') = config (self w)
  /\ tasks (loop w') = tasks (loop w)
  /\ timers (loop w') = next_timer (config (self w)) (S k)
  /\ flushTimer (self w') =
       match next_timer (config (self w)) (S k) with
       | [] => Some t
       | _ :: _ => Some (S k)
       end
  /\ single_timer w'.
Proof.
  intros Hl H1 Hf Hne Hs Hsw k w1 w2 w'.
  assert (E2 : w2 = settle k r w1) by reflexivity.
  assert (E : w' = run to_string flusher_sync w2 [EvResume k; EvResume k]) by reflexivity.
  assert (E1 : w1 = step to_string flusher_sync w (EvTimer t)) by reflexivity.
  clearbody w' w2 w1.
  destruct (timer_fire_pending t d w Hl H1 Hf Hne Hs)
    as (A1 & A2 & A3 & A4 & A5 & A6 & A7 & A8 & A9).
  fold k in A3, A4, A5. rewrite <- E1 in A1, A2, A3, A4, A5, A6, A7, A8.
  pose proof (tasks_fresh_next w Hf) as Hk. fold k in Hk.
  destruct (settle_timer_flush k r (tasks (loop w)) w1 A4 Hk)
    as (S1 & S2 & S3 & S4 & S5 & S6 & S7 & S8).
  rewrite <- E2 in S1, S2, S3, S4, S5, S6, S7, S8.
  assert (Hcfg : config (self w2) = config (self w)) by (rewrite S1; cbn; rewrite A1; reflexivity).
  destruct (timer_callback_tail k r w2 S8)
    as (B1 & B2 & B3 & B4 & B5 & B6 & B7 & B8 & B9 & B10 & _ & B12);
    [rewrite Hcfg; exact Hsw |].
  rewrite <- E in B1, B2, B3, B4, B5, B6, B7, B8, B9, B10, B12.
  assert (Hc : cleared w2 = []).
  { unfold cleared. rewrite S2, A2. destruct (flushTimer (self w2)); reflexivity. }
  assert (Hft : flushTimer (self w2) = Some t) by (rewrite S1; cbn; rewrite A1; exact A9).
  assert (Hrun : running (self w2) = running (self w))
    by (rewrite S1; cbn; rewrite A1; reflexivity).
  assert (Hit : items (self w2) = []) by (rewrite S1; cbn; rewrite A1; reflexivity).
  assert (Hfl : flushing (self w2) = false) by (rewrite S1; reflexivity).
  rewrite Hc, Hcfg, S3, A3 in B1. rewrite Hcfg, S3, A3, Hft in B2. cbn [app] in B1.
  rewrite S7, (remove_key_snoc_fresh k _ _ Hk) in B12.
  rewrite B1, B2, B3, B4, B5, B6, B7, B9, B10, B12, S2, S4, S5, S6, A2, A5, A7, A8,
    Hrun, Hit, Hfl, Hcfg.
  repeat match goal with |- _ /\ _ => split end; try reflexivity.
  intros t' d' Hin. rewrite B1 in Hin. rewrite B2.
  destruct (next_timer (config (self w)) (S k)) as [| [h a] l] eqn:En; [destruct Hin |].
  destruct (next_timer_cases (config (self w)) (S k)) as [(i & _ & _ & E3) | [_ E3]];
    rewrite En in E3; [| discriminate].
  injection E3 as -> -> ->. destruct Hin as [[= <- <-] | []]. reflexivity.
Qed.

(** ** When the timer is off *)

Lemma timer_idle_of_check (w : World T Err) :
  timer_idle_check w = true -> timer_idle w.
Proof.
  unfold timer_idle_check, timer_idle. intros H. apply andb_true_iff in H.
  destruct H as [H1 H2]. split.
  - destruct (timers (loop w)); [reflexivity | discriminate].
  - intros p Hin. rewrite forallb_forall in H2. apply negb_true_iff, H2, Hin.
Qed.

(** The suspended calls after [flush()]: the old ones, and its own. *)
Lemma flush_tasks (k : nat) (a : Awaiter) (w : World T Err) (p : nat * Task Err) :
  In p (tasks (loop (flush flusher_sync k a w))) ->
  In p (tasks (loop w))
  \/ snd p = AwaitFlusher a
  \/ exists r, snd p = AwaitFlush a r.
Proof.
  assert (Hh : forall r w', handed_to k a r w w' ->
               In p (tasks (loop w')) ->
               In p (tasks (loop w)) \/ snd p = AwaitFlusher a
               \/ exists r, snd p = AwaitFlush a r).
  { intros r w' Hh Hin. unfold handed_to in Hh. destruct p as [j u].
    destruct a as [| | g]; destruct Hh as [Ht _]; rewrite Ht in Hin;
      try (apply in_app_or in Hin; destruct Hin as [Hin | [[= <- <-] | []]];
           [| right; right; eexists; reflexivity]);
      left; apply (In_remove_key k), Hin. }
  destruct (items (self w)) as [| x l] eqn:E.
  - destruct (flush_empty k a w E) as (_ & _ & _ & _ & _ & _ & F). apply (Hh _ _ F).
  - assert (Hne : items (self w) <> []) by (rewrite E; discriminate).
    destruct (flusher_sync k (items (self w))) as [e |] eqn:Hs.
    + destruct (flush_thrown k a e w Hne Hs) as (_ & _ & _ & _ & _ & _ & F).
      apply (Hh _ _ F).
    + destruct (flush_pending k a w Hne Hs) as (_ & _ & _ & F & _).
      rewrite F. intros Hin. destruct p as [j u].
      apply in_app_or in Hin. destruct Hin as [Hin | [[= <- <-] | []]].
      * left. apply (In_remove_key k), Hin.
      * right. left. reflexivity.
Qed.

Lemma flush_timer_idle (k : nat) (a : Awaiter) (w : World T Err) :
  a <> ByDoFlush Timer ->
  timer_idle w -> timer_idle (flush flusher_sync k a w).
Proof.
  intros Ha [H1 H2]. destruct (flush_loop k a w) as (L1 & _). split.
  - rewrite L1. exact H1.
  - intros p Hin. destruct (flush_tasks k a w p Hin) as [Hold | [E | [r E]]].
    + apply H2, Hold.
    + unfold is_timer_task. rewrite E. destruct a as [| | [|]]; try reflexivity.
      exfalso. apply Ha. reflexivity.
    + unfold is_timer_task. rewrite E. destruct a as [| | [|]]; try reflexivity.
      exfalso. apply Ha. reflexivity.
Qed.

Lemma timer_idle_same (w w' : World T Err) :
  timers (loop w') = timers (loop w) ->
  tasks (loop w') = tasks (loop w) ->
  timer_idle w -> timer_idle w'.
Proof. unfold timer_idle. intros -> ->. exact (fun H => H). Qed.

Lemma timer_idle_lookup (w : World T Err) (k : nat) (u : Task Err) :
  timer_idle w -> lookup k (tasks (loop w)) = Some u -> is_timer_task (k, u) = false.
Proof. intros [_ H] Hl. apply H, lookup_In, Hl. Qed.

Lemma timer_idle_remove (k : nat) (w w' : World T Err) :
  timers (loop w') = [] ->
  tasks (loop w') = remove_key k (tasks (loop w)) ->
  timer_idle w -> timer_idle w'.
Proof.
  intros Ht Hk [_ H2]. split; [exact Ht |].
  intros [j u] Hin. rewrite Hk in Hin. apply H2, (In_remove_key k), Hin.
Qed.

(** While no timer is armed and no timer callback is suspended, only
    [start()] can arm a timer. *)
Lemma step_timer_idle (w : World T Err) (e : Event T Err) :
  is_start e = false ->
  timer_idle w -> timer_idle (step to_string flusher_sync w e).
Proof.
  intros He Hi. pose proof Hi as [H1 H2].
  destruct e as [x | | | | | | p | cb | h | t | k r | k]; try discriminate He.
  - cbn [step].
    destruct (threshold_reached (config (self w))
                (length (capped (maxBatchSize (config (self w))) (items (self w) ++ [x]))))
      eqn:E.
    + destruct (add_reached x w E) as (v & -> & _ & Hl & _).
      apply flush_timer_idle; [discriminate |].
      split; [rewrite Hl; exact H1 | rewrite Hl; exact H2].
    + destruct (add_quiet x w E) as (_ & Hl & _).
      apply (timer_idle_same w); [rewrite Hl; reflexivity | rewrite Hl; reflexivity | exact Hi].
  - rewrite explicit_flush_spec. apply flush_timer_idle; [discriminate |].
    split; [exact H1 | exact H2].
  - cbn [step]. rewrite drain_spec. apply flush_timer_idle; [discriminate |].
    split; [exact H1 | exact H2].
  - cbn [step]. destruct (stop_spec w) as (_ & S2 & S3 & _). split.
    + rewrite S2, H1. destruct (flushTimer (self w)); reflexivity.
    + rewrite S3. exact H2.
  - cbn [step]. destruct (reset_spec w) as (_ & Hl & _).
    apply (timer_idle_same w); [rewrite Hl; reflexivity | rewrite Hl; reflexivity | exact Hi].
  - cbn [step]. destruct (configure_spec p w) as (_ & _ & _ & _ & _ & _ & _ & Hl & _).
    apply (timer_idle_same w); [rewrite Hl; reflexivity | rewrite Hl; reflexivity | exact Hi].
  - apply (timer_idle_same w); [| | exact Hi]; clear; world w; run_blocks; reflexivity.
  - apply (timer_idle_same w); [| | exact Hi]; clear; world w; run_blocks; reflexivity.
  - cbn [step]. unfold timer_fire, read. rewrite H1. cbn. exact Hi.
  - cbn [step].
    destruct (lookup k (tasks (loop w))) as [[a | a r' | r'] |] eqn:El;
      try (rewrite settle_not_pending by (intros a'; rewrite El; discriminate); exact Hi).
    destruct (settle_spec k a r w El) as (_ & S2 & _ & _ & _ & _ & S7).
    pose proof (timer_idle_lookup w k _ Hi El) as Hn.
    split; [rewrite S2; exact H1 |].
    intros [j u] Hin. unfold handed_to in S7.
    destruct a as [| | [|]]; try discriminate Hn; destruct S7 as [S7 _]; rewrite S7 in Hin;
      try (apply in_app_or in Hin; destruct Hin as [Hin | [[= <- <-] | []]];
           [| reflexivity]);
      apply H2, (In_remove_key k), Hin.
  - cbn [step].
    destruct (lookup k (tasks (loop w))) as [[a | a r | r] |] eqn:El.
    + assert (E : resume to_string k w = w) by (unfold resume, read; rewrite El; reflexivity).
      rewrite E. exact Hi.
    + pose proof (timer_idle_lookup w k _ Hi El) as Hn.
      destruct a as [| | [|]]; try discriminate Hn.
      * assert (E : resume to_string k w = w)
          by (unfold resume, read; rewrite El; reflexivity).
        rewrite E. exact Hi.
      * destruct r as [b | e].
        -- rewrite (resume_drain_fulfilled k b w El).
           destruct (stop_spec (remove_task k w)) as (_ & S2 & S3 & _).
           apply (timer_idle_remove k w); [| | exact Hi].
           ++ change (timers (loop (push_settled k (Fulfilled b) (stop (remove_task k w)))))
                with (timers (loop (stop (remove_task k w)))).
              rewrite S2. change (timers (loop (remove_task k w))) with (timers (loop w)).
              rewrite H1. destruct (flushTimer (self (remove_task k w))); reflexivity.
           ++ change (tasks (loop (push_settled k (Fulfilled b) (stop (remove_task k w)))))
                with (tasks (loop (stop (remove_task k w)))).
              rewrite S3. reflexivity.
        -- rewrite (resume_drain_rejected k e w El).
           apply (timer_idle_remove k w); [exact H1 | reflexivity | exact Hi].
      * destruct r as [b | e].
        -- destruct (resume_doFlush_fulfilled k Threshold b w El) as (_ & A2 & _ & _ & A5).
           rewrite app_nil_r in A5. apply (timer_idle_remove k w); [| exact A5 | exact Hi].
           rewrite A2. exact H1.
        -- destruct (strictFlush (config (self w))) as [[|] |] eqn:Es.
           ++ destruct (resume_doFlush_rethrown k Threshold e w El Es)
                as (_ & A2 & _ & _ & _ & _ & _ & _ & A9).
              rewrite app_nil_r in A9. apply (timer_idle_remove k w); [| exact A9 | exact Hi].
              rewrite A2. exact H1.
           ++ destruct (resume_doFlush_swallowed k Threshold e w El)
                as (_ & A2 & _ & _ & _ & _ & _ & _ & A9); [rewrite Es; discriminate |].
              rewrite app_nil_r in A9. apply (timer_idle_remove k w); [| exact A9 | exact Hi].
              rewrite A2. exact H1.
           ++ destruct (resume_doFlush_swallowed k Threshold e w El)
                as (_ & A2 & _ & _ & _ & _ & _ & _ & A9); [rewrite Es; discriminate |].
              rewrite app_nil_r in A9. apply (timer_idle_remove k w); [| exact A9 | exact Hi].
              rewrite A2. exact H1.
    + pose proof (timer_idle_lookup w k _ Hi El) as Hn. discriminate Hn.
    + assert (E : resume to_string k w = w) by (unfold resume, read; rewrite El; reflexivity).
      rewrite E. exact Hi.
Qed.

(** Only [start()] sets [#running]. *)
Lemma step_stays_stopped (w : World T Err) (e : Event T Err) :
  is_start e = false ->
  running (self w) = false ->
  running (self (step to_string flusher_sync w e)) = false.
Proof.
  intros He Hr.
  destruct e as [x | | | | | | p | cb | h | t | k r | k]; try discriminate He.
  - cbn [step].
    destruct (threshold_reached (config (self w))
                (length (capped (maxBatchSize (config (self w))) (items (self w) ++ [x]))))
      eqn:E.
    + destruct (add_reached x w E) as (v & -> & Hv & _).
      destruct (flush_frame (next_id (loop w)) (ByDoFlush Threshold) v) as (_ & -> & _).
      rewrite Hv. exact Hr.
    + destruct (add_quiet x w E) as (-> & _). exact Hr.
  - rewrite explicit_flush_spec.
    match goal with
    | |- context [flush flusher_sync ?k ?a ?v] => destruct (flush_frame k a v) as (_ & -> & _)
    end.
    exact Hr.
  - cbn [step]. rewrite drain_spec.
    match goal with
    | |- context [flush flusher_sync ?k ?a ?v] => destruct (flush_frame k a v) as (_ & -> & _)
    end.
    exact Hr.
  - cbn [step]. destruct (stop_spec w) as (-> & _). reflexivity.
  - cbn [step]. destruct (reset_spec w) as (-> & _). exact Hr.
  - cbn [step]. destruct (configure_spec p w) as (_ & _ & _ & -> & _). exact Hr.
  - revert Hr. clear. world w. run_blocks. exact (fun H => H).
  - revert Hr. clear. world w. run_blocks. exact (fun H => H).
  - cbn [step]. unfold timer_fire, read, skip.
    destruct (lookup t (timers (loop w))) as [d |]; [| exact Hr].
    unfold seq, doFlush, fresh, read, seq.
    match goal with
    | |- context [flush flusher_sync ?k ?a ?v] => destruct (flush_frame k a v) as (_ & -> & _)
    end.
    exact Hr.
  - cbn [step]. destruct (settle_frame k r w) as (_ & -> & _). exact Hr.
  - cbn [step]. revert Hr. clear. world w. run_blocks. intros ->.
    destruct (lookup k tk) as [[a | a r | r] |]; try reflexivity.
    + destruct a as [| | g]; try reflexivity.
      * destruct r as [b | e]; [destruct ft |]; reflexivity.
      * destruct r as [b | e]; [| destruct sf as [[|] |]]; destruct g; reflexivity.
    + destruct r as [[] | e]; [| reflexivity].
      destruct ft; destruct fi as [i |]; try destruct (truthy i); reflexivity.
Qed.

Lemma run_timer_idle (evs : list (Event T Err)) :
  forall w : World T Err,
  forallb (fun e => negb (is_start e)) evs = true ->
  timer_idle w ->
  timer_idle (run to_string flusher_sync w evs).
Proof.
  induction evs as [| e evs IH]; intros w Ha Hi; [exact Hi |].
  cbn [forallb] in Ha. apply andb_true_iff in Ha. destruct Ha as [He Ha].
  apply negb_true_iff in He.
  cbn [run fold_left]. apply IH; [exact Ha | apply step_timer_idle; assumption].
Qed.

Lemma run_stays_stopped (evs : list (Event T Err)) :
  forall w : World T Err,
  forallb (fun e => negb (is_start e)) evs = true ->
  running (self w) = false ->
  running (self (run to_string flusher_sync w evs)) = false.
Proof.
  induction evs as [| e evs IH]; intros w Ha Hi; [exact Hi |].
  cbn [forallb] in Ha. apply andb_true_iff in Ha. destruct Ha as [He Ha].
  apply negb_true_iff in He.
  cbn [run fold_left]. apply IH; [exact Ha | apply step_stays_stopped; assumption].
Qed.

(** [stop()] is final when no timer callback is suspended at that moment (and
    at most the stored timer was armed): until [start()] is called, whatever
    else happens, no timer is armed, no timer callback is started, and
    [isRunning] stays false. *)
Theorem stopped_stays_stopped (w : World T Err) (evs : list (Event T Err)) :
  single_timer w ->
  (forall p, In p (tasks (loop w)) -> is_timer_task p = false) ->
  forallb (fun e => negb (is_start e)) evs = true ->
  let w' := run to_string flusher_sync (stop w) evs in
  timers (loop w') = []
  /\ running (self w') = false
  /\ (forall p, In p (tasks (loop w')) -> is_timer_task p = false).
Proof.
  intros H1 Hn Ha w'.
  destruct (stop_spec w) as (S1 & S2 & S3 & _).
  assert (Hi : timer_idle (stop w)).
  { split; [rewrite S2; apply single_timer_cleared, H1 | rewrite S3; exact Hn]. }
  assert (Hr : running (self (stop w)) = false) by (rewrite S1; reflexivity).
  destruct (run_timer_idle evs (stop w) Ha Hi) as [R1 R2].
  split; [exact R1 |]. split; [| exact R2].
  apply run_stays_stopped; assumption.
Qed.

(** A timer callback that is suspended when [stop()] is called goes on
    afterwards: once its flush has settled (with a result, or with a failure
    that is swallowed) it arms the next timer although [isRunning] is
    false. *)
Theorem timer_callback_outlives_stop (w : World T Err) (t : nat) (d : Z)
  (r : Result Err bool) :
  lookup t (timers (loop w)) = Some d ->
  single_timer w ->
  tasks_fresh w ->
  items (self w) <> [] ->
  flusher_sync (next_id (loop w)) (items (self w)) = None ->
  (forall e, r = Rejected e -> strictFlush (config (self w)) <> Some true) ->
  let k := next_id (loop w) in
  let w1 := run to_string flusher_sync w [EvTimer t; EvStop] in
  let w' := run to_string flusher_sync w
              [EvTimer t; EvStop; EvSettle k r; EvResume k; EvResume k] in
  running (self w1) = false
  /\ timers (loop w1) = []
  /\ running (self w') = false
  /\ timers (loop w') = next_timer (config (self w)) (S k)
  /\ flushTimer (self w') =
       match next_timer (config (self w)) (S k) with
       | [] => Some t
       | _ :: _ => Some (S k)
       end.
Proof.
  intros Hl H1 Hf Hne Hs Hsw k w1 w'.
  set (w0 := step to_string flusher_sync w (EvTimer t)).
  assert (E1 : w1 = stop w0) by reflexivity.
  assert (E : w' = run to_string flusher_sync (settle k r w1) [EvResume k; EvResume k])
    by reflexivity.
  clearbody w' w1.
  destruct (timer_fire_pending t d w Hl H1 Hf Hne Hs)
    as (A1 & A2 & A3 & A4 & _ & _ & _ & _ & A9).
  fold k w0 in A1, A2, A3, A4.
  pose proof (tasks_fresh_next w Hf) as Hk. fold k in Hk.
  destruct (stop_spec w0) as (P1 & P2 & P3 & P4 & _).
  rewrite <- E1 in P1, P2, P3, P4.
  assert (P2' : timers (loop w1) = []).
  { rewrite P2, A2. destruct (flushTimer (self w0)); reflexivity. }
  rewrite A4 in P3.
  destruct (settle_timer_flush k r (tasks (loop w)) w1 P3 Hk)
    as (S1 & S2 & S3 & _ & _ & _ & _ & S8).
  set (w2 := settle k r w1) in *.
  assert (Hcfg : config (self w2) = config (self w))
    by (rewrite S1; proj; rewrite P1; proj; rewrite A1; reflexivity).
  assert (Hft : flushTimer (self w2) = Some t)
    by (rewrite S1; proj; rewrite P1; proj; rewrite A1; exact A9).
  assert (Hrun1 : running (self w1) = false) by (rewrite P1; reflexivity).
  assert (Hrun : running (self w2) = false) by (rewrite S1; proj; exact Hrun1).
  destruct (timer_callback_tail k r w2 S8) as (B1 & B2 & B3 & _);
    [rewrite Hcfg; exact Hsw |].
  rewrite <- E in B1, B2, B3.
  assert (Hc : cleared w2 = []).
  { unfold cleared. rewrite S2, P2'. destruct (flushTimer (self w2)); reflexivity. }
  rewrite Hc, Hcfg, S3, P4, A3 in B1. rewrite Hcfg, S3, P4, A3, Hft in B2.
  rewrite B1, B2, B3, Hrun, Hrun1, P2'.
  repeat split; reflexivity.
Qed.

(** Under [strictFlush], a timer-triggered flush that fails ends the timer
    chain: the timer callback rejects (an unhandled rejection), the next
    timer is not armed, and [isRunning] is left as it was. Unless a timer
    callback was already suspended, no timer is armed again until [start()]
    is called. The batch is lost. *)
Theorem strict_failure_ends_timer (w : World T Err) (t : nat) (d : Z) (e : Err) :
  lookup t (timers (loop w)) = Some d ->
  single_timer w ->
  tasks_fresh w ->
  items (self w) <> [] ->
  flusher_sync (next_id (loop w)) (items (self w)) = None ->
  strictFlush (config (self w)) = Some true ->
  let k := next_id (loop w) in
  let w' := run to_string flusher_sync w
              [EvTimer t; EvSettle k (Rejected e); EvResume k; EvResume k] in
  timers (loop w') = []
  /\ running (self w') = running (self w)
  /\ unhandled (trace w') = unhandled (trace w) ++ [(k, e)]
  /\ settled (trace w') = settled (trace w)
  /\ items (self w') = []
  /\ flushing (self w') = false
  /\ tasks (loop w') = tasks (loop w)
  /\ flusher_calls (trace w') =
       flusher_calls (trace w)
       ++ [{| call_id := k; call_items := items (self w);
              call_seen := {| size := 0; isRunning := running (self w); isFlushing := true |} |}]
  /\ ((forall p, In p (tasks (loop w)) -> is_timer_task p = false) ->
      forall evs : list (Event T Err),
        forallb (fun e => negb (is_start e)) evs = true ->
        timers (loop (run to_string flusher_sync w' evs)) = []).
Proof.
  intros Hl H1 Hf Hne Hs Hst k w'.
  set (w1 := step to_string flusher_sync w (EvTimer t)).
  set (w2 := settle k (Rejected e) w1).
  set (w3 := resume to_string k w2).
  assert (E : w' = resume to_string k w3) by reflexivity.
  clearbody w'.
  destruct (timer_fire_pending t d w Hl H1 Hf Hne Hs)
    as (A1 & A2 & A3 & A4 & A5 & _ & A7 & A8 & A9).
  fold k w1 in A1, A2, A3, A4, A5, A7, A8.
  pose proof (tasks_fresh_next w Hf) as Hk. fold k in Hk.
  destruct (settle_timer_flush k (Rejected e) (tasks (loop w)) w1 A4 Hk)
    as (S1 & S2 & S3 & S4 & S5 & S6 & S7 & S8).
  fold w2 in S1, S2, S3, S4, S5, S6, S7, S8.
  assert (Hcfg : config (self w2) = config (self w))
    by (rewrite S1; proj; rewrite A1; reflexivity).
  assert (Hst2 : strictFlush (config (self w2)) = Some true) by (rewrite Hcfg; exact Hst).
  destruct (resume_doFlush_rethrown k Timer e w2 S8 Hst2)
    as (B1 & B2 & B3 & B4 & B5 & B6 & B7 & B8 & B9).
  fold w3 in B1, B2, B3, B4, B5, B6, B7, B8, B9.
  rewrite S7, (remove_key_snoc_fresh k _ _ Hk) in B9. rewrite app_nil_r in B8.
  assert (Hk3 : lookup k (tasks (loop w3)) = Some (AwaitDoFlush (Rejected e)))
    by (rewrite B9, <- Hk; apply lookup_set_task).
  destruct (resume_timer_dies k e w3 Hk3) as (C1 & C2 & C3 & C4 & C5 & C6 & C7 & C8 & C9).
  rewrite <- E in C1, C2, C3, C4, C5, C6, C7, C8, C9.
  rewrite B9, (remove_key_snoc_fresh k _ _ Hk) in C9.
  assert (Ht' : timers (loop w') = []) by (rewrite C2, B2, S2; exact A2).
  assert (Hself : self w' = self (set_flushing false (set_items [] w))).
  { rewrite C1, B1, S1. proj. rewrite A1. reflexivity. }
  rewrite Ht', Hself, C8, C6, C4, C9, B8, B6, B4, S4, S5, S6, A5, A7, A8.
  repeat match goal with |- _ /\ _ => split end; try reflexivity.
  intros Hn evs Ha.
  assert (Hi : timer_idle w') by (split; [exact Ht' | rewrite C9; exact Hn]).
  apply (run_timer_idle evs w' Ha Hi).
Qed.

(** ** [isFlushing] *)

Lemma flush_flushing (k : nat) (a : Awaiter) (v : World T Err) :
  flushing (self (flush flusher_sync k a v)) = true ->
  flushing (self v) = true
  \/ lookup k (tasks (loop (flush flusher_sync k a v))) = Some (AwaitFlusher a).
Proof.
  destruct (items (self v)) as [| x l] eqn:E.
  - destruct (flush_empty k a v E) as (-> & _). auto.
  - assert (Hne : items (self v) <> []) by (rewrite E; discriminate).
    destruct (flusher_sync k (items (self v))) as [e |] eqn:Hs.
    + destruct (flush_thrown k a e v Hne Hs) as (-> & _). discriminate.
    + destruct (flush_pending k a v Hne Hs) as (_ & _ & _ & -> & _).
      intros _. right. apply lookup_set_task.
Qed.

(** A step that leaves [#flushing] true either found it true or has just
    suspended a [flush()] at its callback. *)
Lemma step_flushing (w : World T Err) (e : Event T Err) :
  flushing (self (step to_string flusher_sync w e)) = true ->
  flushing (self w) = true
  \/ exists k a,
       lookup k (tasks (loop (step to_string flusher_sync w e))) = Some (AwaitFlusher a).
Proof.
  destruct e as [x | | | | | | p | cb | h | t | k r | k].
  - cbn [step].
    destruct (threshold_reached (config (self w))
                (length (capped (maxBatchSize (config (self w))) (items (self w) ++ [x]))))
      eqn:E.
    + destruct (add_reached x w E) as (v & -> & Hv & _). intros H.
      destruct (flush_flushing _ _ v H) as [H' | H'].
      * left. rewrite Hv in H'. exact H'.
      * right. eexists. eexists. exact H'.
    + destruct (add_quiet x w E) as (-> & _). auto.
  - rewrite explicit_flush_spec. intros H.
    destruct (flush_flushing _ _ _ H) as [H' | H']; [left; exact H' |].
    right. eexists. eexists. exact H'.
  - cbn [step]. rewrite drain_spec. intros H.
    destruct (flush_flushing _ _ _ H) as [H' | H']; [left; exact H' |].
    right. eexists. eexists. exact H'.
  - cbn [step]. destruct (start_spec w) as (_ & _ & -> & _). auto.
  - cbn [step]. destruct (stop_spec w) as (-> & _). auto.
  - cbn [step]. destruct (reset_spec w) as (-> & _). auto.
  - cbn [step]. destruct (configure_spec p w) as (_ & _ & _ & _ & -> & _). auto.
  - left. revert H. clear. world w. run_blocks. exact (fun H => H).
  - left. revert H. clear. world w. run_blocks. exact (fun H => H).
  - cbn [step]. unfold timer_fire, read, skip.
    destruct (lookup t (timers (loop w))) as [d |]; [| auto].
    unfold seq, doFlush, fresh, read, seq. intros H.
    destruct (flush_flushing _ _ _ H) as [H' | H']; [left; exact H' |].
    right. eexists. eexists. exact H'.
  - cbn [step].
    destruct (lookup k (tasks (loop w))) as [[a | a r' | r'] |] eqn:El;
      try (rewrite settle_not_pending by (intros a'; rewrite El; discriminate); auto).
    destruct (settle_spec k a r w El) as (-> & _). discriminate.
  - cbn [step]. destruct (resume_frame k w) as (_ & -> & _). auto.
Qed.

(** A [flush()] suspended at its callback stays so until its own
    settlement, which resets [#flushing]. *)
Lemma step_keeps_in_flight (w : World T Err) (e : Event T Err) (k : nat) (a : Awaiter) :
  tasks_fresh w ->
  lookup k (tasks (loop w)) = Some (AwaitFlusher a) ->
  lookup k (tasks (loop (step to_string flusher_sync w e))) = Some (AwaitFlusher a)
  \/ flushing (self (step to_string flusher_sync w e)) = false.
Proof.
  intros Hf Hk. destruct (concerns k e) eqn:Ec.
  - destruct e as [x | | | | | | p | cb | h | t | j r | j]; try discriminate Ec;
      apply Nat.eqb_eq in Ec; subst j; cbn [step].
    + right. destruct (settle_spec k a r w Hk) as (-> & _). reflexivity.
    + left. unfold resume, read. rewrite Hk. exact Hk.
  - left. apply step_keeps_task; assumption.
Qed.

Lemma run_flushing_in_flight (evs : list (Event T Err)) :
  forall w : World T Err,
  tasks_fresh w ->
  (flushing (self w) = true ->
   exists k a, lookup k (tasks (loop w)) = Some (AwaitFlusher a)) ->
  let w' := run to_string flusher_sync w evs in
  flushing (self w') = true ->
  exists k a, lookup k (tasks (loop w')) = Some (AwaitFlusher a).
Proof.
  induction evs as [| e evs IH]; intros w Hf Hi; [exact Hi |].
  cbn zeta. cbn [run fold_left].
  apply (IH (step to_string flusher_sync w e)); [apply tasks_fresh_step, Hf |].
  intros H. destruct (step_flushing w e H) as [Hw | Hnew]; [| exact Hnew].
  destruct (Hi Hw) as (k & a & Hk).
  destruct (step_keeps_in_flight w e k a Hf Hk) as [Hkeep | Hoff].
  - exists k, a. exact Hkeep.
  - rewrite Hoff in H. discriminate.
Qed.

(** Whenever [isFlushing] is true, some [flush()] is suspended at its call
    of the flush callback: the flag is never left set. *)
Theorem flushing_means_callback_in_flight (cfg : option PartialConfig) (autostart : bool)
  (evs : list (Event T Err)) :
  let w := run to_string flusher_sync (new_BatchFlusher T Err cfg autostart) evs in
  flushing (self w) = true ->
  exists k a, lookup k (tasks (loop w)) = Some (AwaitFlusher a).
Proof.
  apply run_flushing_in_flight; [apply tasks_fresh_new |].
  destruct (fresh_instance_flags cfg autostart) as [H _]. rewrite H. discriminate.
Qed.

(** The converse fails: when two [flush()] calls overlap, the first
    settlement resets [#flushing] and tells the subscribers so, while the
    other callback invocation is still in flight. *)
Theorem first_settlement_resets_flushing (w : World T Err) (k1 k2 : nat) (a1 a2 : Awaiter)
  (r : Result Err bool) :
  lookup k1 (tasks (loop w)) = Some (AwaitFlusher a1) ->
  lookup k2 (tasks (loop w)) = Some (AwaitFlusher a2) ->
  k1 <> k2 ->
  let w' := settle k1 r w in
  flushing (self w') = false
  /\ lookup k2 (tasks (loop w')) = Some (AwaitFlusher a2)
  /\ delivered (trace w') =
       delivered (trace w)
       ++ broadcast (subscribers (self w))
            {| size := length (items (self w)); isRunning := running (self w);
               isFlushing := false |}.
Proof.
  intros H1 H2 Hne w'.
  destruct (settle_spec k1 a1 r w H1) as (S1 & _ & _ & _ & S5 & _ & S7).
  fold w' in S1, S5, S7. rewrite S1, S5.
  split; [reflexivity |]. split; [| reflexivity].
  unfold handed_to in S7.
  destruct a1 as [| | g]; destruct S7 as [-> _];
    rewrite ?lookup_app, lookup_remove_key_ne, H2 by congruence; reflexivity.
Qed.

(** ** The cap as an invariant *)

Lemma step_cap_kept (w : World T Err) (e : Event T Err) :
  sets_cap e = false ->
  maxBatchSize (config (self (step to_string flusher_sync w e)))
  = maxBatchSize (config (self w)).
Proof.
  intros Hc. destruct (keeps_items e) eqn:Ek.
  - destruct (step_accounting w e) as (n & _ & _ & _ & H & _). rewrite (H Ek). reflexivity.
  - destruct e as [x | | | | | | p | cb | h | t | k r | k]; try discriminate Ek; cbn [step].
    + destruct (reset_spec w) as (-> & _). reflexivity.
    + destruct (configure_spec p w) as (-> & _). cbn in Hc. unfold merge_config. cbn.
      destruct (p_maxBatchSize p); [discriminate | reflexivity].
Qed.

Lemma add_within_cap (x : T) (w : World T Err) :
  (0 < maxBatchSize (config (self w)))%Z ->
  (Z.of_nat (length (items (self (add flusher_sync x w)))) <= maxBatchSize (config (self w)))%Z.
Proof.
  intros Hm.
  destruct (threshold_reached (config (self w))
              (length (capped (maxBatchSize (config (self w))) (items (self w) ++ [x]))))
    eqn:E.
  - destruct (add_reached x w E) as (v & -> & _).
    destruct (flush_frame (next_id (loop w)) (ByDoFlush Threshold) v) as (_ & _ & _ & _ & -> & _).
    cbn. lia.
  - destruct (add_quiet x w E) as (-> & _). cbn [set_items upd_self self items].
    rewrite (capped_lastn _ _ Hm), lastn_length. lia.
Qed.

(** What a step hands to the callback is the buffer it found, capped after
    the append in the case of [add]. *)
Lemma step_calls_within_cap (w : World T Err) (e : Event T Err) (m : Z) :
  (0 < m)%Z ->
  maxBatchSize (config (self w)) = m ->
  (Z.of_nat (length (items (self w))) <= m)%Z ->
  forall c, In c (flusher_calls (trace (step to_string flusher_sync w e))) ->
            In c (flusher_calls (trace w)) \/ (Z.of_nat (length (call_items c)) <= m)%Z.
Proof.
  intros Hm Hcap Hlen.
  assert (Hflush : forall k a (v : World T Err),
            (Z.of_nat (length (items (self v))) <= m)%Z ->
            flusher_calls (trace v) = flusher_calls (trace w) ->
            forall c, In c (flusher_calls (trace (flush flusher_sync k a v))) ->
                      In c (flusher_calls (trace w))
                      \/ (Z.of_nat (length (call_items c)) <= m)%Z).
  { intros k a v Hv Hc c Hin.
    destruct (items (self v)) as [| y l] eqn:E.
    - destruct (flush_empty k a v E) as (_ & _ & _ & F & _). rewrite F, Hc in Hin. auto.
    - assert (Hne : items (self v) <> []) by (rewrite E; discriminate).
      rewrite <- E in Hv.
      destruct (flusher_sync k (items (self v))) as [err |] eqn:Hs.
      + destruct (flush_thrown k a err v Hne Hs) as (_ & _ & _ & F & _).
        rewrite F, Hc in Hin. apply in_app_or in Hin.
        destruct Hin as [Hin | [<- | []]]; [auto | right; exact Hv].
      + destruct (flush_pending k a v Hne Hs) as (_ & _ & _ & _ & F & _).
        rewrite F, Hc in Hin. apply in_app_or in Hin.
        destruct Hin as [Hin | [<- | []]]; [auto | right; exact Hv]. }
  destruct e as [x | | | | | | p | cb | h | t | k r | k].
  - cbn [step]. destruct (threshold_reached (config (self w))
                (length (capped (maxBatchSize (config (self w))) (items (self w) ++ [x]))))
      eqn:E.
    + destruct (add_reached x w E) as (v & -> & Hv & _ & Hc & _).
      apply Hflush; [| exact Hc].
      rewrite Hv. cbn [set_items upd_self self items].
      rewrite Hcap, (capped_lastn _ _ Hm), lastn_length. lia.
    + destruct (add_quiet x w E) as (_ & _ & -> & _). auto.
  - intros c. rewrite explicit_flush_spec. apply Hflush; [exact Hlen | reflexivity].
  - cbn [step]. intros c. rewrite drain_spec. apply Hflush; [exact Hlen | reflexivity].
  - cbn [step]. destruct (start_spec w) as (_ & _ & _ & _ & _ & _ & -> & _). auto.
  - cbn [step]. destruct (stop_spec w) as (_ & _ & _ & _ & -> & _). auto.
  - cbn [step]. destruct (reset_spec w) as (_ & _ & -> & _). auto.
  - cbn [step]. destruct (configure_spec p w) as (_ & _ & _ & _ & _ & _ & _ & _ & ->). auto.
  - left. revert H. clear. world w. run_blocks. exact (fun H => H).
  - left. revert H. clear. world w. run_blocks. exact (fun H => H).
  - cbn [step]. unfold timer_fire, read, skip.
    destruct (lookup t (timers (loop w))) as [d |]; [| auto].
    unfold seq, doFlush, fresh, read, seq. intros c.
    apply Hflush; [exact Hlen | reflexivity].
  - cbn [step]. destruct (settle_frame k r w) as (_ & _ & _ & _ & _ & _ & ->). auto.
  - cbn [step]. destruct (resume_frame k w) as (_ & _ & _ & _ & ->). auto.
Qed.

Lemma step_within_cap (w : World T Err) (e : Event T Err) :
  (0 < maxBatchSize (config (self w)))%Z ->
  (Z.of_nat (length (items (self w))) <= maxBatchSize (config (self w)))%Z ->
  (Z.of_nat (length (items (self (step to_string flusher_sync w e))))
   <= maxBatchSize (config (self w)))%Z.
Proof.
  intros Hm Hlen. destruct (is_add e) eqn:Ea.
  - destruct e; try discriminate Ea. apply add_within_cap, Hm.
  - destruct (step_accounting w e) as (n & _ & H & _).
    assert (Hadd : added [e] = []) by (destruct e; try reflexivity; discriminate Ea).
    rewrite Hadd in H. cbn [length] in H. lia.
Qed.

(** With a positive [maxBatchSize], and as long as [configure] does not set
    it, the buffer never holds more than [maxBatchSize] items, whatever is
    called and whatever the callback does, and the callback never receives
    a longer batch. *)
Theorem buffer_never_exceeds_cap (w : World T Err) (evs : list (Event T Err)) :
  (0 < maxBatchSize (config (self w)))%Z ->
  (Z.of_nat (length (items (self w))) <= maxBatchSize (config (self w)))%Z ->
  forallb (fun e => negb (sets_cap e)) evs = true ->
  let m := maxBatchSize (config (self w)) in
  let w' := run to_string flusher_sync w evs in
  (Z.of_nat (length (items (self w'))) <= m)%Z
  /\ maxBatchSize (config (self w')) = m
  /\ (forall c, In c (flusher_calls (trace w')) ->
                In c (flusher_calls (trace w)) \/ (Z.of_nat (length (call_items c)) <= m)%Z).
Proof.
  revert w. induction evs as [| e evs IH]; intros w Hm Hlen Ha m w'.
  - split; [exact Hlen |]. split; [reflexivity |]. auto.
  - cbn [forallb] in Ha. apply andb_true_iff in Ha. destruct Ha as [He Ha].
    apply negb_true_iff in He.
    pose proof (step_cap_kept w e He) as Hc.
    pose proof (step_within_cap w e Hm Hlen) as Hl.
    specialize (IH (step to_string flusher_sync w e)).
    rewrite Hc in IH. destruct (IH Hm Hl Ha) as (I1 & I2 & I3).
    split; [exact I1 |]. split; [exact I2 |].
    intros c Hin. destruct (I3 c Hin) as [Hold | Hb]; [| right; exact Hb].
    apply (step_calls_within_cap w e m Hm eq_refl Hlen c Hold).
Qed.

(** ** A cap that is not positive *)

Lemma capped_zero {A : Type} (l : list A) : capped 0 l = l.
Proof.
  unfold capped, slice. destruct (0 <? Z.of_nat (length l))%Z; [| reflexivity].
  cbn. replace (Z.to_nat (Z.min 0 (Z.of_nat (length l)))) with 0 by lia. reflexivity.
Qed.

Lemma capped_negative {A : Type} (m : Z) (l : list A) :
  (m < 0)%Z -> capped m l = skipn (Z.to_nat (- m)) l.
Proof.
  intros Hm. unfold capped, slice.
  replace (m <? Z.of_nat (length l))%Z with true by (symmetry; apply Z.ltb_lt; lia).
  replace (- m <? 0)%Z with false by (symmetry; apply Z.ltb_ge; lia).
  destruct (Z.min_spec (- m) (Z.of_nat (length l))) as [[_ ->] | [Hle ->]]; [reflexivity |].
  rewrite Nat2Z.id, skipn_all. symmetry. apply skipn_all2. lia.
Qed.

(** [maxBatchSize = 0] does not mean an empty buffer: [slice(-0)] keeps the
    whole array, so nothing is ever discarded and, without a threshold, the
    buffer grows with every [add]. *)
Theorem zero_cap_never_truncates (xs : list T) :
  forall w : World T Err,
  maxBatchSize (config (self w)) = 0%Z ->
  (forall n, threshold_reached (config (self w)) n = false) ->
  let w' := run to_string flusher_sync w (map EvAdd xs) in
  items (self w') = items (self w) ++ xs
  /\ flusher_calls (trace w') = flusher_calls (trace w).
Proof.
  induction xs as [| x xs IH]; intros w Hm Hoff; cbn zeta.
  - cbn. rewrite app_nil_r. split; reflexivity.
  - change (run to_string flusher_sync w (map EvAdd (x :: xs)))
      with (run to_string flusher_sync (add flusher_sync x w) (map EvAdd xs)).
    destruct (add_quiet x w (Hoff _)) as (Hs & _ & Hc & _).
    rewrite Hm, capped_zero in Hs.
    specialize (IH (add flusher_sync x w)). rewrite add_config in IH.
    destruct (IH Hm Hoff) as [I1 I2].
    rewrite I1, I2, Hs, Hc. cbn [set_items upd_self self items].
    rewrite <- app_assoc. split; reflexivity.
Qed.

(** With a negative [maxBatchSize] every [add] cuts the buffer from the
    front by that many items: an item added to an empty buffer is dropped at
    once. No sequence of [add] calls on an empty buffer ever gets an item to
    the callback, with or without a threshold. *)
Theorem negative_cap_drops_every_item (xs : list T) :
  forall w : World T Err,
  (maxBatchSize (config (self w)) < 0)%Z ->
  items (self w) = [] ->
  let w' := run to_string flusher_sync w (map EvAdd xs) in
  items (self w') = []
  /\ flusher_calls (trace w') = flusher_calls (trace w).
Proof.
  induction xs as [| x xs IH]; intros w Hm He; cbn zeta.
  - split; [exact He | reflexivity].
  - change (run to_string flusher_sync w (map EvAdd (x :: xs)))
      with (run to_string flusher_sync (add flusher_sync x w) (map EvAdd xs)).
    assert (Hk : capped (maxBatchSize (config (self w))) (items (self w) ++ [x]) = []).
    { rewrite He, (capped_negative _ _ Hm). cbn [app].
      destruct (Z.to_nat (- maxBatchSize (config (self w)))) as [| n] eqn:En; [lia |].
      cbn. destruct n; reflexivity. }
    assert (Hadd : items (self (add flusher_sync x w)) = []
                   /\ flusher_calls (trace (add flusher_sync x w)) = flusher_calls (trace w)).
    { destruct (threshold_reached (config (self w))
                  (length (capped (maxBatchSize (config (self w))) (items (self w) ++ [x]))))
        eqn:E.
      - destruct (add_reached x w E) as (v & -> & Hv & _ & Hc & _).
        assert (Ev : items (self v) = []) by (rewrite Hv; exact Hk).
        destruct (flush_empty (next_id (loop w)) (ByDoFlush Threshold) v Ev)
          as (F1 & _ & _ & F4 & _).
        rewrite F1, F4. split; [exact Ev | exact Hc].
      - destruct (add_quiet x w E) as (Hs & _ & Hc & _).
        rewrite Hs. split; [exact Hk | exact Hc]. }
    destruct Hadd as [A1 A2].
    specialize (IH (add flusher_sync x w)). rewrite add_config in IH.
    destruct (IH Hm A1) as [I1 I2]. rewrite I1, I2, A2. split; reflexivity.
Qed.

(** ** The result of the callback *)

Lemma settle_logged (k : nat) (a : Awaiter) (r : Result Err bool) (w : World T Err) :
  lookup k (tasks (loop w)) = Some (AwaitFlusher a) ->
  logged (trace (settle k r w)) =
    logged (trace w)
    ++ match r with
       | Fulfilled b =>
           [debug_entry w ("flush complete (result: " ++ show_bool b ++ ")")%string]
       | Rejected _ => []
       end.
Proof.
  world w. intros Hk. run_blocks_in Hk. unfold debug_entry. run_blocks. rewrite Hk.
  destruct a as [| | g]; destruct r as [b | e]; cbn; rewrite ?app_nil_r; reflexivity.
Qed.

(** The boolean the callback resolves with is ignored by the flushes the
    accumulator starts itself: whether it is [true] or [false], [#doFlush]
    returns normally, nothing is reported to anybody, nothing is retried and
    no warning is logged; the value only shows in one debug message. *)
Theorem internal_flush_ignores_result (w : World T Err) (k : nat) (g : Trigger) (b : bool) :
  lookup k (tasks (loop w)) = Some (AwaitFlusher (ByDoFlush g)) ->
  let w' := run to_string flusher_sync w [EvSettle k (Fulfilled b); EvResume k] in
  self w' = self (set_flushing false w)
  /\ timers (loop w') = timers (loop w)
  /\ next_id (loop w') = next_id (loop w)
  /\ flusher_calls (trace w') = flusher_calls (trace w)
  /\ settled (trace w') = settled (trace w)
  /\ unhandled (trace w') = unhandled (trace w)
  /\ logged (trace w') =
       logged (trace w)
       ++ [debug_entry w ("flush complete (result: " ++ show_bool b ++ ")")%string]
  /\ tasks (loop w') =
       remove_key k (tasks (loop w))
       ++ match g with
          | Threshold => []
          | Timer => [(k, AwaitDoFlush (Fulfilled tt))]
          end.
Proof.
  intros Hk w'.
  set (w1 := settle k (Fulfilled b) w).
  assert (E : w' = resume to_string k w1) by reflexivity. clearbody w'. subst w'.
  destruct (settle_spec k (ByDoFlush g) (Fulfilled b) w Hk)
    as (S1 & S2 & S3 & S4 & _ & S6 & S7 & S8).
  pose proof (settle_logged k (ByDoFlush g) (Fulfilled b) w Hk) as S9.
  fold w1 in S1, S2, S3, S4, S6, S7, S8, S9.
  assert (Hk1 : lookup k (tasks (loop w1)) = Some (AwaitFlush (ByDoFlush g) (Fulfilled b)))
    by (rewrite S7; apply lookup_set_task).
  destruct (resume_doFlush_fulfilled k g b w1 Hk1) as (R1 & R2 & R3 & R4 & R5).
  rewrite R1, R2, R3, R4, R5, S1, S2, S3, S4, S6, S7, S8, S9.
  repeat match goal with |- _ /\ _ => split end; try reflexivity.
  rewrite remove_key_app, remove_key_twice. cbn. rewrite Nat.eqb_refl. cbn.
  rewrite app_nil_r. reflexivity.
Qed.

(** ** Logging *)

Lemma flush_logs (k : nat) (a : Awaiter) (v : World T Err) :
  exists l,
    logged (trace (flush flusher_sync k a v)) = logged (trace v) ++ l
    /\ Forall (class_log (base_logger (self v))) l
    /\ base_logger (self (flush flusher_sync k a v)) = base_logger (self v).
Proof.
  world v. destruct it as [| x l0].
  - destruct a as [| | g]; run_blocks; logs_done.
  - destruct (flusher_sync k (x :: l0)) as [e |] eqn:Hs;
      destruct a as [| | g]; run_blocks; rewrite Hs; logs_done.
Qed.

Lemma add_logs (x : T) (w : World T Err) :
  exists l,
    logged (trace (add flusher_sync x w)) = logged (trace w) ++ l
    /\ Forall (class_log (base_logger (self w))) l
    /\ base_logger (self (add flusher_sync x w)) = base_logger (self w).
Proof.
  assert (H : exists (v : World T Err) l0,
            (add flusher_sync x w = v
             \/ add flusher_sync x w
                = flush flusher_sync (next_id (loop w)) (ByDoFlush Threshold) v)
            /\ logged (trace v) = logged (trace w) ++ l0
            /\ Forall (class_log (base_logger (self w))) l0
            /\ base_logger (self v) = base_logger (self w)).
  { world w.
    cbv beta iota zeta delta
      [add doFlush fresh notify publish debug getState seq read skip broadcast
       set_items set_next_id push_delivered push_log upd_self upd_loop upd_trace
       self loop trace config items flushTimer running flushing subscribers base_logger
       timers tasks next_id flusher_calls delivered logged settled unhandled
       flushIntervalMs maxBatchSize flushThreshold strictFlush logger].
    destruct (mb <? Z.of_nat (length (it ++ [x])))%Z;
      (destruct th as [t |];
       [destruct (truthy t && (t <=? Z.of_nat (length _))%Z) |]);
      eexists; eexists;
      (split; [first [right; reflexivity | left; reflexivity] |]);
      (split; [cbn; rewrite <- ?app_assoc; reflexivity |]);
      (split; [repeat constructor; cbn; repeat split; reflexivity | reflexivity]). }
  destruct H as (v & l0 & [E | E] & H1 & H2 & H3); rewrite E.
  - exists l0. auto.
  - destruct (flush_logs (next_id (loop w)) (ByDoFlush Threshold) v) as (l1 & F1 & F2 & F3).
    exists (l0 ++ l1). rewrite F1, H1, F3, H3, app_assoc.
    split; [reflexivity |]. split; [| reflexivity].
    apply Forall_app. split; [exact H2 |]. rewrite <- H3. exact F2.
Qed.

(** Every logger call a step makes is one of the two kinds, and the logger
    of the debug messages never changes. *)
Lemma step_logs (w : World T Err) (e : Event T Err) :
  exists l,
    logged (trace (step to_string flusher_sync w e)) = logged (trace w) ++ l
    /\ Forall (class_log (base_logger (self w))) l
    /\ base_logger (self (step to_string flusher_sync w e)) = base_logger (self w).
Proof.
  destruct e as [x | | | | | | p | cb | h | t | k r | k].
  - apply add_logs.
  - rewrite explicit_flush_spec.
    match goal with
    | |- context [flush flusher_sync ?k ?a ?v] => destruct (flush_logs k a v) as (l & L1 & L2 & L3)
    end.
    exists l. rewrite L1, L3. auto.
  - cbn [step]. rewrite drain_spec.
    match goal with
    | |- context [flush flusher_sync ?k ?a ?v] => destruct (flush_logs k a v) as (l & L1 & L2 & L3)
    end.
    exists (debug_entry w "drain" :: l). rewrite L1, L3.
    split; [cbn; rewrite <- app_assoc; reflexivity |]. split; [| reflexivity].
    constructor; [cbn; auto | exact L2].
  - world w. destruct fi as [i |]; [destruct (truthy i) eqn:Ei |]; run_blocks;
      rewrite ?Ei; logs_done.
  - world w. destruct ft; run_blocks; logs_done.
  - world w. run_blocks. logs_done.
  - world w. run_blocks. logs_done.
  - world w. run_blocks. logs_done.
  - world w. run_blocks. logs_done.
  - cbn [step]. unfold timer_fire, read, skip.
    destruct (lookup t (timers (loop w))) as [d |];
      [| exists []; rewrite app_nil_r; auto].
    unfold seq, doFlush, fresh, read, seq.
    match goal with
    | |- context [flush flusher_sync ?k ?a ?v] => destruct (flush_logs k a v) as (l & L1 & L2 & L3)
    end.
    exists l. rewrite L1, L3. auto.
  - world w. run_blocks.
    destruct (lookup k tk) as [[a | a r' | r'] |]; try logs_done.
    destruct a as [| | g]; destruct r as [b | e]; run_blocks; logs_done.
  - world w. run_blocks.
    destruct (lookup k tk) as [[a | a r | r] |]; try logs_done.
    + destruct a as [| | g]; try logs_done.
      * destruct r as [b | e]; [destruct ft |]; run_blocks; logs_done.
      * destruct r as [b | e]; [| destruct sf as [[|] |]]; destruct g; destruct lgr;
          run_blocks; logs_done.
    + destruct r as [[] | e]; [| logs_done].
      destruct ft; destruct fi as [i |]; try destruct (truthy i); run_blocks; logs_done.
Qed.

Lemma run_logs (evs : list (Event T Err)) :
  forall w : World T Err,
  Forall (class_log (base_logger (self w))) (logged (trace w)) ->
  let w' := run to_string flusher_sync w evs in
  Forall (class_log (base_logger (self w))) (logged (trace w'))
  /\ base_logger (self w') = base_logger (self w).
Proof.
  induction evs as [| e evs IH]; intros w H; cbn zeta; [split; [exact H | reflexivity] |].
  cbn [run fold_left]. destruct (step_logs w e) as (l & L1 & L2 & L3).
  specialize (IH (step to_string flusher_sync w e)). rewrite L3 in IH.
  apply IH. rewrite L1. apply Forall_app. split; assumption.
Qed.

(** The logger calls of an accumulator, over its whole life: only [debug]
    and [warn], never [log] or [error]. Every debug message goes to the
    logger fixed by the constructor (the configured one, else
    [createClog()]) under the namespace BatchFlusher, also after
    [configure] has set another logger; every warning is the message of a
    swallowed flush failure and goes, without namespace, to the logger
    configured at that moment or to the console. *)
Theorem logging_discipline (cfg : option PartialConfig) (autostart : bool)
  (evs : list (Event T Err)) :
  let w0 := new_BatchFlusher T Err cfg autostart in
  let w := run to_string flusher_sync w0 evs in
  let base := match cfg with
              | Some p => match p_logger p with Some l => Custom l | None => Clog end
              | None => Clog
              end in
  base_logger (self w) = base
  /\ Forall (class_log base) (logged (trace w)).
Proof.
  intros w0 w base.
  assert (H0 : base_logger (self w0) = base
               /\ Forall (class_log base) (logged (trace w0))).
  { unfold w0, base, new_BatchFlusher, blank, default_config.
    destruct cfg as [[pi pm pt ps [l |]] |]; destruct autostart;
      try (destruct pi as [v |]; [destruct (truthy v) eqn:Ev |]);
      run_blocks;
      cbn [p_flushIntervalMs p_maxBatchSize p_flushThreshold p_strictFlush p_logger];
      rewrite ?Ev; cbn; (split; [reflexivity |]);
      repeat constructor; cbn; auto. }
  destruct H0 as [B0 F0].
  assert (F0' : Forall (class_log (base_logger (self w0))) (logged (trace w0)))
    by (rewrite B0; exact F0).
  destruct (run_logs evs w0 F0') as [R1 R2]. fold w in R1, R2.
  rewrite B0 in R1, R2. split; assumption.
Qed.

(** ** [configure], then [add] *)

(** Setting a smaller [maxBatchSize] with [configure] does not shorten the
    buffer: the new cap is applied by the next [add], which keeps the last
    [maxBatchSize] items of the buffer and the new item, as the buffer or,
    when the threshold is reached, as the batch handed to the callback. *)
Theorem configure_cap_applies_on_next_add (w : World T Err) (p : PartialConfig) (m : Z)
  (x : T) :
  p_maxBatchSize p = Some m ->
  (0 < m)%Z ->
  let w1 := configure p w in
  let kept := lastn (Z.to_nat m) (items (self w) ++ [x]) in
  let w2 := add flusher_sync x w1 in
  items (self w1) = items (self w)
  /\ maxBatchSize (config (self w1)) = m
  /\ (threshold_reached (config (self w1)) (length kept) = false ->
      items (self w2) = kept
      /\ flusher_calls (trace w2) = flusher_calls (trace w))
  /\ (threshold_reached (config (self w1)) (length kept) = true ->
      items (self w2) = []
      /\ map (@call_items T) (flusher_calls (trace w2))
         = map (@call_items T) (flusher_calls (trace w)) ++ [kept]).
Proof.
  intros Hp Hm w1 kept w2.
  destruct (configure_spec p w) as (C1 & C2 & _ & _ & _ & _ & _ & _ & C9).
  fold w1 in C1, C2, C9.
  assert (Hcap : maxBatchSize (config (self w1)) = m).
  { rewrite C1. unfold merge_config. cbn. rewrite Hp. reflexivity. }
  assert (Hk : capped (maxBatchSize (config (self w1))) (items (self w1) ++ [x]) = kept).
  { rewrite Hcap, C2. apply capped_lastn, Hm. }
  split; [exact C2 |]. split; [exact Hcap |]. split.
  - intros H. rewrite <- Hk in H. destruct (add_quiet x w1 H) as (A1 & _ & A3 & _).
    fold w2 in A1, A3. rewrite A1, A3, C9, Hk. split; reflexivity.
  - intros H. rewrite <- Hk in H.
    assert (Hne : capped (maxBatchSize (config (self w1))) (items (self w1) ++ [x]) <> []).
    { rewrite Hk. unfold kept.
      destruct (lastn_snoc (Z.to_nat m) (items (self w)) x) as [front ->]; [lia |].
      destruct front; discriminate. }
    destruct (add_flushing x w1 H Hne) as [A1 A2]. fold w2 in A1, A2.
    rewrite A1, A2, map_app, C9, Hk. split; reflexivity.
Qed.

(** ** Amount mode *)

Lemma capped_within {A : Type} (m : Z) (l : list A) :
  (Z.of_nat (length l) <= m)%Z -> capped m l = l.
Proof.
  intros H. unfold capped.
  replace (m <? Z.of_nat (length l))%Z with false by (symmetry; apply Z.ltb_ge; lia).
  reflexivity.
Qed.

(** In amount mode every batch has exactly [flushThreshold] items: on a
    buffer shorter than the threshold, with a threshold within the cap, a
    sequence of [add] calls hands the callback consecutive batches of exactly
    [flushThreshold] items, in the order added, and leaves fewer than
    [flushThreshold] items in the buffer. *)
Theorem threshold_batches_have_threshold_size (xs : list T) :
  forall (w : World T Err) (t : Z),
  flushThreshold (config (self w)) = Some t ->
  (0 < t)%Z ->
  (t <= maxBatchSize (config (self w)))%Z ->
  (Z.of_nat (length (items (self w))) < t)%Z ->
  let w' := run to_string flusher_sync w (map EvAdd xs) in
  exists later,
    flusher_calls (trace w') = flusher_calls (trace w) ++ later
    /\ Forall (fun c => Z.of_nat (length (call_items c)) = t) later
    /\ concat (map (@call_items T) later) ++ items (self w') = items (self w) ++ xs
    /\ (Z.of_nat (length (items (self w'))) < t)%Z.
Proof.
  induction xs as [| x xs IH]; intros w t Ht Hpos Hcap Hlen; cbn zeta.
  - exists []. cbn. rewrite !app_nil_r. auto.
  - change (run to_string flusher_sync w (map EvAdd (x :: xs)))
      with (run to_string flusher_sync (add flusher_sync x w) (map EvAdd xs)).
    assert (Hl : length (items (self w) ++ [x]) = S (length (items (self w))))
      by (rewrite length_app; cbn; lia).
    assert (Hk : capped (maxBatchSize (config (self w))) (items (self w) ++ [x])
                 = items (self w) ++ [x]) by (apply capped_within; lia).
    assert (Hadd : exists now,
               flusher_calls (trace (add flusher_sync x w)) = flusher_calls (trace w) ++ now
               /\ Forall (fun c => Z.of_nat (length (call_items c)) = t) now
               /\ concat (map (@call_items T) now) ++ items (self (add flusher_sync x w))
                  = items (self w) ++ [x]
               /\ (Z.of_nat (length (items (self (add flusher_sync x w)))) < t)%Z).
    { destruct (threshold_reached (config (self w))
                  (length (capped (maxBatchSize (config (self w))) (items (self w) ++ [x]))))
        eqn:E.
      - assert (Hne : capped (maxBatchSize (config (self w))) (items (self w) ++ [x]) <> []).
        { rewrite Hk. destruct (items (self w)); discriminate. }
        destruct (add_flushing x w E Hne) as [A1 A2].
        rewrite Hk in E, A2. unfold threshold_reached in E. rewrite Ht in E.
        apply andb_true_iff in E. destruct E as [_ E]. apply Z.leb_le in E.
        eexists. split; [exact A2 |]. rewrite A1. cbn [map concat call_items].
        split; [constructor; [cbn; lia | constructor] |].
        split; [rewrite !app_nil_r; reflexivity | cbn; lia].
      - destruct (add_quiet x w E) as (A1 & _ & A3 & _).
        rewrite Hk in E, A1. unfold threshold_reached in E. rewrite Ht in E.
        assert (Htr : truthy t = true) by (unfold truthy; apply negb_true_iff, Z.eqb_neq; lia).
        rewrite Htr in E. cbn in E. apply Z.leb_gt in E.
        exists []. rewrite A3, A1, app_nil_r. cbn [set_items upd_self self items map concat app].
        split; [reflexivity |]. split; [constructor |]. split; [reflexivity | lia]. }
    destruct Hadd as (now & N1 & N2 & N3 & N4).
    specialize (IH (add flusher_sync x w) t). rewrite add_config in IH.
    destruct (IH Ht Hpos Hcap N4) as (later & L1 & L2 & L3 & L4).
    exists (now ++ later). rewrite L1, N1, app_assoc.
    split; [reflexivity |]. split; [apply Forall_app; auto |]. split; [| exact L4].
    rewrite map_app, concat_app, <- app_assoc, L3, app_assoc, N3, <- app_assoc.
    reflexivity.
Qed.

(** The configuration after a step: [configure] merges, nothing else
    writes it. *)
Lemma step_config (w : World T Err) (e : Event T Err) :
  config (self (step to_string flusher_sync w e))
  = match e with
    | EvConfigure p => merge_config p (config (self w))
    | _ => config (self w)
    end.
Proof.
  destruct (keeps_items e) eqn:Ek.
  - destruct (step_accounting w e) as (n & _ & _ & _ & H & _). rewrite (H Ek).
    destruct e; try reflexivity. discriminate Ek.
  - destruct e as [x | | | | | | p | cb | h | t | k r | k]; try discriminate Ek; cbn [step].
    + destruct (reset_spec w) as (-> & _). reflexivity.
    + destruct (configure_spec p w) as (-> & _). reflexivity.
Qed.

(** With the interval at 0 (or undefined) no timer is ever armed, however
    often [start()] is called: once no timer is armed and no timer callback
    is suspended, it stays so until [configure] sets an interval. *)
Theorem amount_mode_never_arms_timer (w : World T Err) (evs : list (Event T Err)) :
  flushIntervalMs (config (self w)) = None \/ flushIntervalMs (config (self w)) = Some 0%Z ->
  timer_idle w ->
  forallb (fun e => negb (sets_interval e)) evs = true ->
  let w' := run to_string flusher_sync w evs in
  timers (loop w') = []
  /\ (forall p, In p (tasks (loop w')) -> is_timer_task p = false)
  /\ flushIntervalMs (config (self w')) = flushIntervalMs (config (self w)).
Proof.
  revert w. induction evs as [| e evs IH]; intros w Hoff Hi Ha w'.
  - destruct Hi as [H1 H2]. split; [exact H1 |]. split; [exact H2 | reflexivity].
  - cbn [forallb] in Ha. apply andb_true_iff in Ha. destruct Ha as [He Ha].
    apply negb_true_iff in He.
    assert (Hc : flushIntervalMs (config (self (step to_string flusher_sync w e)))
                 = flushIntervalMs (config (self w))).
    { rewrite step_config. destruct e; try reflexivity.
      cbn in He. unfold merge_config. cbn. destruct (p_flushIntervalMs p); [discriminate |].
      reflexivity. }
    assert (Hi' : timer_idle (step to_string flusher_sync w e)).
    { destruct (is_start e) eqn:Es; [| apply step_timer_idle; assumption].
      destruct e; try discriminate Es. cbn [step].
      destruct (start_spec w) as (_ & _ & _ & _ & _ & _ & _ & _ & _ & Hb).
      destruct Hb as [_ Hl].
      { destruct Hoff as [-> | ->]; reflexivity. }
      apply (timer_idle_same w); [rewrite Hl; reflexivity | rewrite Hl; reflexivity | exact Hi]. }
    specialize (IH (step to_string flusher_sync w e)). rewrite Hc in IH.
    destruct (IH Hoff Hi' Ha) as (I1 & I2 & I3).
    split; [exact I1 |]. split; [exact I2 |]. exact I3.
Qed.

(** ** Unhandled rejections *)

Lemma flush_no_rejected_timer (k : nat) (a : Awaiter) (v : World T Err) :
  (forall p, In p (tasks (loop v)) -> is_rejected_timer_task p = false) ->
  forall p, In p (tasks (loop (flush flusher_sync k a v))) -> is_rejected_timer_task p = false.
Proof.
  intros H p Hin. destruct (flush_tasks k a v p Hin) as [Hold | [E | [r E]]].
  - apply H, Hold.
  - unfold is_rejected_timer_task. rewrite E. reflexivity.
  - unfold is_rejected_timer_task. rewrite E. reflexivity.
Qed.

Lemma In_snoc_remove {A : Type} (k : nat) (l tl : list (nat * A)) (p : nat * A) :
  In p (remove_key k l ++ tl) -> In p l \/ In p tl.
Proof.
  intros H. apply in_app_or in H. destruct H as [H | H]; [left | right; exact H].
  destruct p as [j a]. apply (In_remove_key k), H.
Qed.

(** Without [strictFlush] a step leaves no rejection unhandled. *)
Lemma step_nonstrict (w : World T Err) (e : Event T Err) :
  strictFlush (config (self w)) <> Some true ->
  (forall p, In p (tasks (loop w)) -> is_rejected_timer_task p = false) ->
  unhandled (trace (step to_string flusher_sync w e)) = unhandled (trace w)
  /\ (forall p, In p (tasks (loop (step to_string flusher_sync w e))) ->
                is_rejected_timer_task p = false).
Proof.
  intros Hs Hn.
  destruct e as [x | | | | | | p | cb | h | t | k r | k].
  - cbn [step]. split; [apply add_reports_nothing |].
    destruct (threshold_reached (config (self w))
                (length (capped (maxBatchSize (config (self w))) (items (self w) ++ [x]))))
      eqn:E.
    + destruct (add_reached x w E) as (v & -> & _ & Hl & _).
      apply flush_no_rejected_timer. rewrite Hl. exact Hn.
    + destruct (add_quiet x w E) as (_ & -> & _). exact Hn.
  - rewrite explicit_flush_spec. split.
    + match goal with
      | |- context [flush flusher_sync ?k ?a ?v] =>
          destruct (flush_frame k a v) as (_ & _ & _ & _ & _ & _ & ->)
      end.
      reflexivity.
    + apply flush_no_rejected_timer. exact Hn.
  - cbn [step]. rewrite drain_spec. split.
    + match goal with
      | |- context [flush flusher_sync ?k ?a ?v] =>
          destruct (flush_frame k a v) as (_ & _ & _ & _ & _ & _ & ->)
      end.
      reflexivity.
    + apply flush_no_rejected_timer. exact Hn.
  - revert Hn. clear. world w. destruct fi as [i |]; [destruct (truthy i) eqn:Ei |];
      run_blocks; rewrite ?Ei; intros Hn; (split; [reflexivity | exact Hn]).
  - cbn [step]. destruct (stop_spec w) as (_ & _ & -> & _ & _ & _ & _ & ->).
    split; [reflexivity | exact Hn].
  - revert Hn. clear. world w. run_blocks. intros Hn. split; [reflexivity | exact Hn].
  - revert Hn. clear. world w. run_blocks. intros Hn. split; [reflexivity | exact Hn].
  - revert Hn. clear. world w. run_blocks. intros Hn. split; [reflexivity | exact Hn].
  - revert Hn. clear. world w. run_blocks. intros Hn. split; [reflexivity | exact Hn].
  - cbn [step]. unfold timer_fire, read, skip.
    destruct (lookup t (timers (loop w))) as [d |]; [| split; [reflexivity | exact Hn]].
    unfold seq, doFlush, fresh, read, seq. split.
    + match goal with
      | |- context [flush flusher_sync ?k ?a ?v] =>
          destruct (flush_frame k a v) as (_ & _ & _ & _ & _ & _ & ->)
      end.
      reflexivity.
    + apply flush_no_rejected_timer. exact Hn.
  - cbn [step].
    destruct (lookup k (tasks (loop w))) as [[a | a r' | r'] |] eqn:El;
      try (rewrite settle_not_pending by (intros a'; rewrite El; discriminate);
           split; [reflexivity | exact Hn]).
    destruct (settle_spec k a r w El) as (_ & _ & _ & _ & _ & S6 & S7).
    split; [exact S6 |]. intros q Hin. unfold handed_to in S7.
    destruct a as [| | g]; destruct S7 as [S7 _]; rewrite S7 in Hin.
    + destruct q as [j u]. apply Hn, (In_remove_key k), Hin.
    + apply In_snoc_remove in Hin. destruct Hin as [Hin | [<- | []]]; [apply Hn, Hin |].
      reflexivity.
    + apply In_snoc_remove in Hin. destruct Hin as [Hin | [<- | []]]; [apply Hn, Hin |].
      reflexivity.
  - cbn [step].
    destruct (lookup k (tasks (loop w))) as [[a | a r | r] |] eqn:El.
    + assert (E : resume to_string k w = w) by (unfold resume, read; rewrite El; reflexivity).
      rewrite E. split; [reflexivity | exact Hn].
    + destruct a as [| | g].
      * assert (E : resume to_string k w = w)
          by (unfold resume, read; rewrite El; reflexivity).
        rewrite E. split; [reflexivity | exact Hn].
      * destruct r as [b | e].
        -- rewrite (resume_drain_fulfilled k b w El).
           destruct (stop_spec (remove_task k w)) as (_ & _ & S3 & _ & _ & _ & _ & S8).
           split.
           ++ change (unhandled (trace (push_settled k (Fulfilled b) (stop (remove_task k w)))))
                with (unhandled (trace (stop (remove_task k w)))).
              rewrite S8. reflexivity.
           ++ change (tasks (loop (push_settled k (Fulfilled b) (stop (remove_task k w)))))
                with (tasks (loop (stop (remove_task k w)))).
              rewrite S3. intros [j u] Hin. apply Hn, (In_remove_key k), Hin.
        -- rewrite (resume_drain_rejected k e w El). split; [reflexivity |].
           intros [j u] Hin. apply Hn, (In_remove_key k), Hin.
      * destruct r as [b | e].
        -- destruct (resume_doFlush_fulfilled k g b w El) as (_ & _ & _ & A4 & A5).
           rewrite A4, A5. split; [reflexivity |].
           intros q Hin. apply In_snoc_remove in Hin.
           destruct Hin as [Hin | Hin]; [apply Hn, Hin |].
           destruct g; cbn in Hin; [contradiction | destruct Hin as [<- | []]; reflexivity].
        -- destruct (resume_doFlush_swallowed k g e w El Hs)
             as (_ & _ & _ & _ & _ & _ & A7 & _ & A9).
           rewrite A7, A9. split; [reflexivity |].
           intros q Hin. apply In_snoc_remove in Hin.
           destruct Hin as [Hin | Hin]; [apply Hn, Hin |].
           destruct g; cbn in Hin; [contradiction | destruct Hin as [<- | []]; reflexivity].
    + destruct r as [[] | e].
      * destruct (resume_timer_next k w El) as (_ & _ & _ & _ & _ & _ & B7 & B8).
        rewrite B7, B8. split; [reflexivity |].
        intros [j u] Hin. apply Hn, (In_remove_key k), Hin.
      * pose proof (Hn _ (lookup_In _ _ _ El)) as Hd. discriminate Hd.
    + assert (E : resume to_string k w = w) by (unfold resume, read; rewrite El; reflexivity).
      rewrite E. split; [reflexivity | exact Hn].
Qed.

(** Without [strictFlush] the accumulator never leaves a rejection
    unhandled: as long as [configure] does not turn [strictFlush] on, no
    sequence of calls, timer firings and callback failures produces one.
    Failures of explicit [flush()] and [drain()] calls go to their
    callers; the others are caught by [#doFlush]. *)
Theorem nonstrict_never_unhandled (w : World T Err) (evs : list (Event T Err)) :
  strictFlush (config (self w)) <> Some true ->
  (forall p, In p (tasks (loop w)) -> is_rejected_timer_task p = false) ->
  forallb (fun e => negb (sets_strict e)) evs = true ->
  unhandled (trace (run to_string flusher_sync w evs)) = unhandled (trace w).
Proof.
  revert w. induction evs as [| e evs IH]; intros w Hs Hn Ha; [reflexivity |].
  cbn [forallb] in Ha. apply andb_true_iff in Ha. destruct Ha as [He Ha].
  apply negb_true_iff in He.
  destruct (step_nonstrict w e Hs Hn) as [U1 U2].
  cbn [run fold_left]. fold (run to_string flusher_sync (step to_string flusher_sync w e) evs).
  rewrite IH; [exact U1 | | exact U2 | exact Ha].
  rewrite step_config. destruct e; try exact Hs.
  cbn in He. unfold merge_config. cbn.
  destruct (p_strictFlush p) as [[|] |]; [discriminate | discriminate | exact Hs].
Qed.

(** ** What the subscribers know *)

Lemma last_cons_default {A : Type} (a d : A) (l : list A) : last (a :: l) d = last l a.
Proof.
  revert a d. induction l as [| b l IH]; intros a d; [reflexivity |].
  change (last (a :: b :: l) d) with (last (b :: l) d). rewrite !IH. reflexivity.
Qed.

Lemma last_app_repeat {A : Type} (l : list A) (a d : A) (n : nat) :
  0 < n -> last (l ++ repeat a n) d = a.
Proof.
  intros Hn. destruct n as [| n]; [lia |].
  replace (repeat a (S n)) with (repeat a n ++ [a]) by (symmetry; apply repeat_cons).
  rewrite app_assoc. apply last_last.
Qed.

Lemma last_app_repeats {A : Type} (n : nat) (sts : list A) :
  0 < n ->
  forall (l : list A) (d : A),
  last (l ++ flat_map (fun st => repeat st n) sts) d = last sts (last l d).
Proof.
  intros Hn. induction sts as [| st sts IH]; intros l d.
  - cbn. rewrite app_nil_r. reflexivity.
  - cbn [flat_map]. rewrite app_assoc, IH, (last_app_repeat l st d n Hn).
    symmetry. apply last_cons_default.
Qed.

Lemma calls_of_broadcasts (cb : nat) (subs : list (nat * nat))
  (sts : list BatchFlusherState) :
  calls_of cb (flat_map (broadcast subs) sts)
  = flat_map (fun st => repeat st (registrations cb subs)) sts.
Proof.
  induction sts as [| st sts IH]; [reflexivity |]. cbn [flat_map].
  rewrite calls_of_app, calls_of_broadcast, IH. reflexivity.
Qed.

Lemma getState_self (w w' : World T Err) : self w' = self w -> getState w' = getState w.
Proof. intros H. unfold getState. rewrite H. reflexivity. Qed.

(** What [flush()] publishes ends with the state it leaves. *)
Lemma flush_publishes (k : nat) (a : Awaiter) (w : World T Err) :
  exists sts,
    delivered (trace (flush flusher_sync k a w))
    = delivered (trace w) ++ flat_map (broadcast (subscribers (self w))) sts
    /\ last sts (getState w) = getState (flush flusher_sync k a w).
Proof.
  destruct (items (self w)) as [| x l] eqn:E.
  - destruct (flush_empty k a w E) as (Hs & _ & _ & _ & -> & _).
    exists []. cbn. rewrite app_nil_r. split; [reflexivity |].
    symmetry. apply getState_self, Hs.
  - assert (Hne : items (self w) <> []) by (rewrite E; discriminate).
    destruct (flusher_sync k (items (self w))) as [e |] eqn:Hs.
    + destruct (flush_thrown k a e w Hne Hs) as (H1 & _ & _ & _ & -> & _).
      eexists [_; _]. cbn. rewrite app_nil_r, app_assoc. split; [reflexivity |].
      unfold getState. rewrite H1. reflexivity.
    + destruct (flush_pending k a w Hne Hs) as (H1 & _ & _ & _ & _ & -> & _).
      eexists [_]. cbn. rewrite app_nil_r. split; [reflexivity |].
      unfold getState. rewrite H1. reflexivity.
Qed.

(** Whenever a step changes [size], [isRunning] or [isFlushing], the last
    state it publishes is the state it leaves. *)
Lemma step_publishes (v : World T Err) (e : Event T Err) :
  is_subscription e = false ->
  exists sts,
    delivered (trace (step to_string flusher_sync v e))
    = delivered (trace v) ++ flat_map (broadcast (subscribers (self v))) sts
    /\ last sts (getState v) = getState (step to_string flusher_sync v e).
Proof.
  intros Hsub.
  assert (Hflush : forall k a (u : World T Err),
            self u = self v ->
            delivered (trace u) = delivered (trace v) ->
            exists sts,
              delivered (trace (flush flusher_sync k a u))
              = delivered (trace v) ++ flat_map (broadcast (subscribers (self v))) sts
              /\ last sts (getState v) = getState (flush flusher_sync k a u)).
  { intros k a u Hu Hd. destruct (flush_publishes k a u) as (sts & F1 & F2).
    exists sts. rewrite F1, Hd, Hu, <- F2, (getState_self v u Hu). split; reflexivity. }
  destruct e as [x | | | | | | p | cb | h | t | k r | k]; try discriminate Hsub.
  - cbn [step].
    destruct (threshold_reached (config (self v))
                (length (capped (maxBatchSize (config (self v))) (items (self v) ++ [x]))))
      eqn:E.
    + destruct (add_reached x v E) as (u & -> & Hu & _ & _ & Hd & _).
      destruct (flush_publishes (next_id (loop v)) (ByDoFlush Threshold) u) as (sts & F1 & F2).
      rewrite F1, Hd, Hu. eexists (_ :: sts). cbn [flat_map]. rewrite <- app_assoc.
      split; [reflexivity |]. rewrite last_cons_default, <- F2.
      f_equal. unfold getState. rewrite Hu. reflexivity.
    + destruct (add_quiet x v E) as (Hs & _ & _ & Hd & _).
      eexists [_]. cbn [flat_map]. rewrite app_nil_r. split; [exact Hd |].
      unfold getState. rewrite Hs. reflexivity.
  - rewrite explicit_flush_spec. apply Hflush; reflexivity.
  - cbn [step]. rewrite drain_spec. apply Hflush; reflexivity.
  - cbn [step]. destruct (start_spec v) as (S1 & S2 & S3 & _ & _ & Hd & _).
    eexists [_]. cbn [flat_map]. rewrite app_nil_r. split; [exact Hd |].
    unfold getState. rewrite S1, S2, S3. reflexivity.
  - cbn [step]. destruct (stop_spec v) as (S1 & _ & _ & _ & _ & Hd & _).
    eexists [_]. cbn [flat_map]. rewrite app_nil_r. split; [exact Hd |].
    unfold getState. rewrite S1. reflexivity.
  - cbn [step]. destruct (reset_spec v) as (S1 & _ & _ & Hd).
    eexists [_]. cbn [flat_map]. rewrite app_nil_r. split; [exact Hd |].
    unfold getState. rewrite S1. reflexivity.
  - cbn [step]. destruct (configure_spec p v) as (_ & C2 & _ & C4 & C5 & _ & _ & _ & C9).
    exists []. cbn [flat_map]. rewrite app_nil_r, C9. split; [reflexivity |].
    unfold getState. rewrite C2, C4, C5. reflexivity.
  - cbn [step]. unfold timer_fire, read, skip.
    destruct (lookup t (timers (loop v))) as [d |].
    + unfold seq, doFlush, fresh, read, seq. apply Hflush; reflexivity.
    + exists []. cbn. rewrite app_nil_r. split; reflexivity.
  - cbn [step]. destruct (lookup k (tasks (loop v))) as [[a | a r' | r'] |] eqn:E;
      try (rewrite settle_not_pending by (intros a'; rewrite E; discriminate);
           exists []; cbn; rewrite app_nil_r; split; reflexivity).
    destruct (settle_spec k a r v E) as (S1 & _ & _ & _ & Hd & _).
    eexists [_]. cbn [flat_map]. rewrite app_nil_r. split; [exact Hd |].
    unfold getState. rewrite S1. reflexivity.
  - cbn [step]. clear Hsub Hflush. world v. run_blocks.
    destruct (lookup k tk) as [[a | a r | r] |];
      try (exists []; cbn; rewrite app_nil_r; split; reflexivity).
    + destruct a as [| | g]; try (exists []; cbn; rewrite app_nil_r; split; reflexivity).
      * destruct r as [b | e]; [destruct ft |];
          first [ exists []; cbn; rewrite app_nil_r; split; reflexivity
                | eexists [_]; cbn; rewrite app_nil_r; split; reflexivity ].
      * destruct r as [b | e]; [| destruct sf as [[|] |]]; destruct g;
          exists []; cbn; rewrite app_nil_r; split; reflexivity.
    + destruct r as [[] | e]; [| exists []; cbn; rewrite app_nil_r; split; reflexivity].
      destruct ft; destruct fi as [i |]; try destruct (truthy i);
        exists []; cbn; rewrite app_nil_r; split; reflexivity.
Qed.

Lemma run_up_to_date (cb : nat) (d : BatchFlusherState) (evs : list (Event T Err)) :
  forall w : World T Err,
  0 < registrations cb (subscribers (self w)) ->
  last (calls_of cb (delivered (trace w))) d = getState w ->
  forallb (fun e => negb (is_subscription e)) evs = true ->
  let w' := run to_string flusher_sync w evs in
  last (calls_of cb (delivered (trace w'))) d = getState w'.
Proof.
  induction evs as [| e evs IH]; intros w Hreg Hlast Ha; [exact Hlast |].
  cbn [forallb] in Ha. apply andb_true_iff in Ha. destruct Ha as [He Ha].
  apply negb_true_iff in He.
  cbn zeta. cbn [run fold_left].
  apply IH; [| | exact Ha].
  - pose proof (step_subscribers w e) as Hs. cbn zeta in Hs.
    destruct e; try discriminate He; cbv beta iota in Hs; rewrite Hs; exact Hreg.
  - destruct (step_publishes w e He) as (sts & P1 & P2).
    rewrite P1, calls_of_app, calls_of_broadcasts, (last_app_repeats _ sts Hreg), Hlast.
    exact P2.
Qed.

(** A subscriber is never stale: from [subscribe(cb)] on, and as long as no
    subscription changes, the last state [cb] was called with is the current
    state ([size], [isRunning], [isFlushing]) after every call, timer firing
    and settlement, because each of them that changes the state ends its
    changes with [#notify]. *)
Theorem subscriber_holds_current_state (w : World T Err) (cb : nat)
  (evs : list (Event T Err)) (d : BatchFlusherState) :
  forallb (fun e => negb (is_subscription e)) evs = true ->
  let w' := run to_string flusher_sync (subscribe cb w) evs in
  last (calls_of cb (delivered (trace w'))) d = getState w'.
Proof.
  intros Ha. apply run_up_to_date; [| | exact Ha].
  - clear. world w. run_blocks. rewrite registrations_app. unfold registrations at 2. cbn.
    rewrite Nat.eqb_refl. cbn. lia.
  - clear. world w. run_blocks. rewrite calls_of_app. unfold calls_of at 2. cbn.
    rewrite Nat.eqb_refl. cbn. apply last_last.
Qed.

(** ** Batches *)

Lemma step_calls_nonempty (w : World T Err) (e : Event T Err) :
  forall c, In c (flusher_calls (trace (step to_string flusher_sync w e))) ->
            In c (flusher_calls (trace w)) \/ call_items c <> [].
Proof.
  assert (Hflush : forall k a (v : World T Err),
            flusher_calls (trace v) = flusher_calls (trace w) ->
            forall c, In c (flusher_calls (trace (flush flusher_sync k a v))) ->
                      In c (flusher_calls (trace w)) \/ call_items c <> []).
  { intros k a v Hc c Hin.
    destruct (items (self v)) as [| y l] eqn:E.
    - destruct (flush_empty k a v E) as (_ & _ & _ & F & _). rewrite F, Hc in Hin. auto.
    - assert (Hne : items (self v) <> []) by (rewrite E; discriminate).
      destruct (flusher_sync k (items (self v))) as [err |] eqn:Hs.
      + destruct (flush_thrown k a err v Hne Hs) as (_ & _ & _ & F & _).
        rewrite F, Hc in Hin. apply in_app_or in Hin.
        destruct Hin as [Hin | [<- | []]]; [auto | right; exact Hne].
      + destruct (flush_pending k a v Hne Hs) as (_ & _ & _ & _ & F & _).
        rewrite F, Hc in Hin. apply in_app_or in Hin.
        destruct Hin as [Hin | [<- | []]]; [auto | right; exact Hne]. }
  destruct e as [x | | | | | | p | cb | h | t | k r | k].
  - cbn [step]. destruct (threshold_reached (config (self w))
                (length (capped (maxBatchSize (config (self w))) (items (self w) ++ [x]))))
      eqn:E.
    + destruct (add_reached x w E) as (v & -> & _ & _ & Hc & _).
      apply Hflush. exact Hc.
    + destruct (add_quiet x w E) as (_ & _ & -> & _). auto.
  - intros c. rewrite explicit_flush_spec. apply Hflush. reflexivity.
  - cbn [step]. intros c. rewrite drain_spec. apply Hflush. reflexivity.
  - cbn [step]. destruct (start_spec w) as (_ & _ & _ & _ & _ & _ & -> & _). auto.
  - cbn [step]. destruct (stop_spec w) as (_ & _ & _ & _ & -> & _). auto.
  - cbn [step]. destruct (reset_spec w) as (_ & _ & -> & _). auto.
  - cbn [step]. destruct (configure_spec p w) as (_ & _ & _ & _ & _ & _ & _ & _ & ->). auto.
  - intros c Hin. left. revert Hin. clear. world w. run_blocks. exact (fun H => H).
  - intros c Hin. left. revert Hin. clear. world w. run_blocks. exact (fun H => H).
  - cbn [step]. unfold timer_fire, read, skip.
    destruct (lookup t (timers (loop w))) as [d |]; [| auto].
    unfold seq, doFlush, fresh, read, seq. intros c.
    apply Hflush. reflexivity.
  - cbn [step]. destruct (settle_frame k r w) as (_ & _ & _ & _ & _ & _ & ->). auto.
  - cbn [step]. destruct (resume_frame k w) as (_ & _ & _ & _ & ->). auto.
Qed.

(** The flush callback is never called with an empty array: whatever is
    called, whenever the timer fires and whatever the configuration, every
    invocation made during a run received at least one item. *)
Theorem callback_never_gets_empty_batch (evs : list (Event T Err)) :
  forall (w : World T Err) (c : FlusherCall T),
  In c (flusher_calls (trace (run to_string flusher_sync w evs))) ->
  In c (flusher_calls (trace w)) \/ call_items c <> [].
Proof.
  induction evs as [| e evs IH]; intros w c Hin; [left; exact Hin |].
  cbn [run fold_left] in Hin.
  destruct (IH (step to_string flusher_sync w e) c Hin) as [Hold | Hne]; [| right; exact Hne].
  apply (step_calls_nonempty w e c Hold).
Qed.

End Properties.


(** * Concrete runs *)

Local Open Scope string_scope.

(** ** The test suite of the repository, replayed *)

(** Interval mode ([flushIntervalMs = 20], [maxBatchSize = 4]): nothing is
    flushed before the timer fires; then one call with the three items, and
    the timer is armed again. *)
Example test_interval_mode :
  flusher_calls (trace (demo_run (demo_new 20 4 None None true)
                          [EvAdd "a"; EvAdd "b"; EvAdd "c"])) = []
  /\ get_size (demo_run (demo_new 20 4 None None true)
                 [EvAdd "a"; EvAdd "b"; EvAdd "c"]) = 3
  /\ map (@call_items string)
       (flusher_calls (trace (demo_run (demo_new 20 4 None None true)
          [EvAdd "a"; EvAdd "b"; EvAdd "c";
           EvTimer 0; EvSettle 1 (Fulfilled true); EvResume 1; EvResume 1])))
     = [["a"; "b"; "c"]]
  /\ get_size (demo_run (demo_new 20 4 None None true)
       [EvAdd "a"; EvAdd "b"; EvAdd "c";
        EvTimer 0; EvSettle 1 (Fulfilled true); EvResume 1; EvResume 1]) = 0
  /\ timers (loop (demo_run (demo_new 20 4 None None true)
       [EvAdd "a"; EvAdd "b"; EvAdd "c";
        EvTimer 0; EvSettle 1 (Fulfilled true); EvResume 1; EvResume 1])) = [(2, 20%Z)].
Proof. vm_compute. repeat split; reflexivity. Qed.

(** The cap: with [maxBatchSize = 4], a is gone after e is added. *)
Example test_max_size :
  dump (demo_run w_cap [EvAdd "e"]) = ["b"; "c"; "d"; "e"].
Proof. vm_compute. reflexivity. Qed.

(** Amount mode: flushes at the threshold, twice. *)
Example test_amount_mode :
  flusher_calls (trace (demo_run w_amount [EvAdd "a"; EvAdd "b"])) = []
  /\ get_size (demo_run w_amount [EvAdd "a"; EvAdd "b"]) = 2
  /\ map (@call_items string)
       (flusher_calls (trace (demo_run w_amount
          [EvAdd "a"; EvAdd "b"; EvAdd "c"; EvSettle 0 (Fulfilled true); EvResume 0])))
     = [["a"; "b"; "c"]]
  /\ map (@call_items string)
       (flusher_calls (trace (demo_run w_amount
          [EvAdd "a"; EvAdd "b"; EvAdd "c"; EvSettle 0 (Fulfilled true); EvResume 0;
           EvAdd "d"; EvAdd "e"; EvAdd "f"; EvSettle 1 (Fulfilled true); EvResume 1])))
     = [["a"; "b"; "c"]; ["d"; "e"; "f"]].
Proof. vm_compute. repeat split; reflexivity. Qed.

(** [drain] flushes and stops. *)
Example test_drain :
  get_isRunning w_three = true
  /\ settled (trace (demo_run w_three [EvDrain; EvSettle 1 (Fulfilled true); EvResume 1]))
     = [(1, Fulfilled true)]
  /\ map (@call_items string)
       (flusher_calls (trace (demo_run w_three
          [EvDrain; EvSettle 1 (Fulfilled true); EvResume 1])))
     = [["a"; "b"; "c"]]
  /\ get_size (demo_run w_three [EvDrain; EvSettle 1 (Fulfilled true); EvResume 1]) = 0
  /\ get_isRunning (demo_run w_three [EvDrain; EvSettle 1 (Fulfilled true); EvResume 1])
     = false.
Proof. vm_compute. repeat split; reflexivity. Qed.

(** [isFlushing] during and after a flush; the callback sees it true. *)
Example test_isFlushing :
  get_isFlushing w_idle = false
  /\ get_isFlushing (demo_run w_idle [EvAdd "a"; EvFlush]) = true
  /\ map (fun c => isFlushing (call_seen c))
       (flusher_calls (trace (demo_run w_idle [EvAdd "a"; EvFlush]))) = [true]
  /\ get_isFlushing (demo_run w_idle [EvAdd "a"; EvFlush; EvSettle 0 (Fulfilled true)])
     = false.
Proof. vm_compute. repeat split; reflexivity. Qed.

(** The states a subscriber is given. *)
Example test_subscribe :
  calls_of 7 (delivered (trace (demo_run w_idle
    [EvSubscribe 7; EvStart; EvAdd "a"; EvAdd "b"; EvFlush; EvSettle 1 (Fulfilled true);
     EvStop; EvUnsubscribe 0; EvAdd "c"])))
  = [{| size := 0; isRunning := false; isFlushing := false |};
     {| size := 0; isRunning := true; isFlushing := false |};
     {| size := 1; isRunning := true; isFlushing := false |};
     {| size := 2; isRunning := true; isFlushing := false |};
     {| size := 0; isRunning := true; isFlushing := true |};
     {| size := 0; isRunning := true; isFlushing := false |};
     {| size := 0; isRunning := false; isFlushing := false |}].
Proof. vm_compute. reflexivity. Qed.

(** Combined mode: the timer flushes two items, then the threshold flushes
    five before the next tick. *)
Example test_combined_mode :
  map (@call_items string)
    (flusher_calls (trace (demo_run (demo_new 50 100 (Some 5%Z) None true)
       [EvAdd "a"; EvAdd "b";
        EvTimer 0; EvSettle 1 (Fulfilled true); EvResume 1; EvResume 1;
        EvAdd "c"; EvAdd "d"; EvAdd "e"; EvAdd "f"; EvAdd "g"])))
  = [["a"; "b"]; ["c"; "d"; "e"; "f"; "g"]].
Proof. vm_compute. reflexivity. Qed.

(** A callback that throws before it returns: an explicit [flush()] rejects
    at once; under the threshold the error is caught and logged, and the
    caller of [add] sees nothing. *)
Example sync_throw_is_caught :
  settled (trace (run demo_to_string throwing_flusher w_three [EvFlush]))
  = [(1, Rejected "boom")]
  /\ get_isFlushing (run demo_to_string throwing_flusher w_three [EvFlush]) = false
  /\ get_size (run demo_to_string throwing_flusher w_three [EvFlush]) = 0
  /\ unhandled (trace (run demo_to_string throwing_flusher w_amount
                         [EvAdd "a"; EvAdd "b"; EvAdd "c"; EvResume 0])) = []
  /\ map log_level
       (filter (fun e => match log_level e with LWarn => true | _ => false end)
          (logged (trace (run demo_to_string throwing_flusher w_amount
                            [EvAdd "a"; EvAdd "b"; EvAdd "c"; EvResume 0]))))
     = [LWarn].
Proof. vm_compute. repeat split; reflexivity. Qed.

(** A timer callback that is still awaiting its flush when [drain()] runs:
    [drain()] returns with [isRunning] false and no timer armed, and when the
    timer callback later continues it arms the next timer, [#scheduleFlush]
    not looking at [#running]. *)
Example timer_callback_continues_after_drain :
  (let w := demo_run w_three
              [EvTimer 0; EvAdd "d"; EvDrain; EvSettle 2 (Fulfilled true); EvResume 2] in
   (settled (trace w), get_isRunning w, timers (loop w)))
  = ([(2, Fulfilled true)], false, [])
  /\ (let w := demo_run w_three
                 [EvTimer 0; EvAdd "d"; EvDrain; EvSettle 2 (Fulfilled true); EvResume 2;
                  EvSettle 1 (Fulfilled true); EvResume 1; EvResume 1] in
      (get_isRunning w, timers (loop w)))
     = (false, [(3, 1000%Z)]).
Proof. vm_compute. split; reflexivity. Qed.

(** ** The claims that fail as stated *)

(** C1, as stated, fails when a count threshold is configured: with
    [maxBatchSize = 4] and [flushThreshold = 3], after the third [add]
    returns the buffer is empty, not the three most recently added items. *)
Lemma cap_claim_fails_under_threshold :
  dump (demo_run (demo_new 0 4 (Some 3%Z) None true) [EvAdd "a"; EvAdd "b"; EvAdd "c"]) = []
  /\ lastn 4 ["a"; "b"; "c"] = ["a"; "b"; "c"]
  /\ dump (demo_run (demo_new 0 4 (Some 3%Z) None true) [EvAdd "a"; EvAdd "b"; EvAdd "c"])
     <> lastn 4 ["a"; "b"; "c"].
Proof. vm_compute. repeat split; discriminate. Qed.

(** C3, as stated, fails. With [flushThreshold = 1] and a callback that is
    still running, two [add] calls leave two threshold-triggered invocations
    in flight. [start()] on a running accumulator leaves two timers armed;
    when both fire while items keep coming, two timer-triggered invocations
    are in flight. *)
Lemma one_in_flight_claim_fails :
  map snd (internal_in_flight
             (demo_run (demo_new 0 100 (Some 1%Z) None true) [EvAdd "a"; EvAdd "b"]))
  = [AwaitFlusher (ByDoFlush Threshold); AwaitFlusher (ByDoFlush Threshold)]
  /\ map (@call_items string)
       (flusher_calls (trace
          (demo_run (demo_new 0 100 (Some 1%Z) None true) [EvAdd "a"; EvAdd "b"])))
     = [["a"]; ["b"]]
  /\ timers (loop (demo_run (demo_new 1000 100 None None true) [EvStart]))
     = [(0, 1000%Z); (1, 1000%Z)]
  /\ map snd (internal_in_flight
                (demo_run (demo_new 1000 100 None None true)
                   [EvStart; EvAdd "a"; EvTimer 0; EvAdd "b"; EvTimer 1]))
     = [AwaitFlusher (ByDoFlush Timer); AwaitFlusher (ByDoFlush Timer)].
Proof. vm_compute. repeat split; reflexivity. Qed.

(** ** The theorems at concrete inputs *)

(** C1 at the worlds of the cap test: e pushes a out, f pushes b out. *)
Lemma add_cap_invariant_witness :
  (0 < maxBatchSize (config (self w_cap)))%Z
  /\ items (self (add demo_flusher "e" w_cap)) = ["b"; "c"; "d"; "e"]
  /\ items (self (run demo_to_string demo_flusher w_cap (map EvAdd ["e"; "f"])))
     = ["c"; "d"; "e"; "f"].
Proof.
  assert (H : (0 < maxBatchSize (config (self w_cap)))%Z) by (vm_compute; reflexivity).
  split; [exact H |].
  pose proof (add_cap_invariant string string demo_to_string demo_flusher w_cap "e" H) as P.
  cbv zeta in P. destruct P as (_ & _ & Pq & _ & Pr).
  split.
  - destruct (Pq ltac:(vm_compute; reflexivity)) as (Hi & _).
    rewrite Hi. vm_compute. reflexivity.
  - assert (Hoff : forall n, n <= Z.to_nat (maxBatchSize (config (self w_cap))) ->
                             threshold_reached (config (self w_cap)) n = false)
      by (intros n _; vm_compute; reflexivity).
    destruct (Pr ["e"; "f"] ltac:(discriminate) Hoff) as (Hi & _).
    rewrite Hi. vm_compute. reflexivity.
Defined.

(** C2 on three buffered items, with d and e added while the callback is
    in flight. *)
Lemma flush_snapshot_witness :
  items (self w_three) <> []
  /\ map (@call_items string) (flusher_calls (trace (flush demo_flusher 9 ByCaller w_three)))
     = [["a"; "b"; "c"]]
  /\ items (self (flush demo_flusher 9 ByCaller w_three)) = []
  /\ (delivered_items (run demo_to_string demo_flusher (flush demo_flusher 9 ByCaller w_three)
                         [EvAdd "d"; EvSettle 9 (Fulfilled true); EvAdd "e"])
      ++ items (self (run demo_to_string demo_flusher (flush demo_flusher 9 ByCaller w_three)
                        [EvAdd "d"; EvSettle 9 (Fulfilled true); EvAdd "e"])))%list
     = ["a"; "b"; "c"; "d"; "e"].
Proof.
  assert (H : items (self w_three) <> []) by (vm_compute; discriminate).
  split; [exact H |].
  pose proof (flush_snapshot_no_double_delivery string string demo_to_string demo_flusher
                w_three 9 ByCaller H) as P.
  cbv zeta in P. destruct P as (Pc & Pi & _ & _ & _ & _ & Pk).
  split; [rewrite Pc; vm_compute; reflexivity |].
  split; [exact Pi |].
  rewrite (Pk [EvAdd "d"; EvSettle 9 (Fulfilled true); EvAdd "e"]
              ltac:(vm_compute; reflexivity) ltac:(vm_compute; discriminate)).
  vm_compute. reflexivity.
Defined.

(** C3 with [flushThreshold = 1]: a second [add] puts a second invocation in
    flight. *)
Lemma internal_flushes_witness :
  tasks_fresh_check w_busy = true
  /\ internal_in_flight (add demo_flusher "b" w_busy)
     = [(0, AwaitFlusher (ByDoFlush Threshold)); (1, AwaitFlusher (ByDoFlush Threshold))].
Proof.
  assert (H : tasks_fresh_check w_busy = true) by (vm_compute; reflexivity).
  split; [exact H |].
  pose proof (internal_flushes_not_exclusive string string demo_to_string demo_flusher
                w_busy (tasks_fresh_of_check string string w_busy H)) as P.
  cbv zeta in P. destruct P as (Pa & _).
  rewrite (Pa "b" ltac:(vm_compute; reflexivity) ltac:(vm_compute; discriminate)
              ltac:(vm_compute; reflexivity)).
  vm_compute. reflexivity.
Defined.

(** C4 with a callback whose promise rejects. *)
Lemma explicit_flush_witness :
  items (self w_three) <> []
  /\ lookup (next_id (loop w_three))
       (tasks (loop (step demo_to_string demo_flusher w_three EvFlush)))
     = Some (AwaitFlusher ByCaller)
  /\ settled (trace (settle (next_id (loop w_three)) (Rejected "boom")
                       (step demo_to_string demo_flusher w_three EvFlush)))
     = [(1, Rejected "boom")]
  /\ flushing (self (settle (next_id (loop w_three)) (Rejected "boom")
                       (step demo_to_string demo_flusher w_three EvFlush)))
     = false
  /\ items (self (settle (next_id (loop w_three)) (Rejected "boom")
                    (step demo_to_string demo_flusher w_three EvFlush)))
     = [].
Proof.
  assert (H : items (self w_three) <> []) by (vm_compute; discriminate).
  split; [exact H |].
  pose proof (explicit_flush_contract string string demo_to_string demo_flusher w_three H) as P.
  cbv zeta in P. destruct P as (Pi & _ & _ & Pp & Ps & _).
  destruct (Pp ltac:(vm_compute; reflexivity)) as (K1 & _).
  split; [exact K1 |].
  destruct (Ps _ (Rejected "boom") K1) as (S1 & S2 & S3 & _).
  rewrite S1, S2, S3, Pi. repeat split; vm_compute; reflexivity.
Defined.

(** C5 without and with [strictFlush]. *)
Lemma internal_flush_failure_witness :
  lookup 0 (tasks (loop w_failed))
  = Some (AwaitFlush (ByDoFlush Threshold) (Rejected "boom"))
  /\ map log_level (logged (trace (resume demo_to_string 0 w_failed)))
     = (map log_level (logged (trace w_failed)) ++ [LWarn])%list
  /\ unhandled (trace (resume demo_to_string 0 w_failed)) = []
  /\ unhandled (trace (resume demo_to_string 0 w_failed_strict)) = [(0, "boom")].
Proof.
  assert (H : lookup 0 (tasks (loop w_failed))
              = Some (AwaitFlush (ByDoFlush Threshold) (Rejected "boom")))
    by (vm_compute; reflexivity).
  assert (H' : lookup 0 (tasks (loop w_failed_strict))
               = Some (AwaitFlush (ByDoFlush Threshold) (Rejected "boom")))
    by (vm_compute; reflexivity).
  split; [exact H |].
  pose proof (internal_flush_failure_policy string string demo_to_string demo_flusher
                w_failed 0 Threshold "boom" H) as Pf.
  pose proof (internal_flush_failure_policy string string demo_to_string demo_flusher
                w_failed_strict 0 Threshold "boom" H') as Pt.
  cbv zeta in Pf, Pt.
  destruct Pf as (_ & _ & _ & _ & _ & Pswallow & _).
  destruct Pt as (_ & _ & _ & _ & Prethrow & _).
  destruct (Pswallow ltac:(vm_compute; discriminate)) as (L1 & U1 & _).
  destruct (Prethrow ltac:(vm_compute; reflexivity)) as (_ & U2 & _).
  rewrite L1, U1, U2, map_app. repeat split; vm_compute; reflexivity.
Defined.


(** C8 on the world of the subscribe test. *)
Lemma subscription_witness :
  registrations 7 (subscribers (self w_idle)) = 0
  /\ news w_idle (subscribe 7 w_idle)
     = [(7, {| size := 0; isRunning := false; isFlushing := false |})]
  /\ calls_of 7 (news (subscribe 7 w_idle) (start (subscribe 7 w_idle)))
     = [{| size := 0; isRunning := true; isFlushing := false |}]
  /\ calls_of 7 (delivered (trace
       (run demo_to_string demo_flusher
          (unsubscribe (next_id (loop w_idle)) (subscribe 7 w_idle))
          [EvAdd "c"; EvStart; EvFlush; EvStop])))
     = [{| size := 0; isRunning := false; isFlushing := false |}].
Proof.
  assert (H : registrations 7 (subscribers (self w_idle)) = 0) by (vm_compute; reflexivity).
  split; [exact H |].
  pose proof (subscription_contract string string demo_to_string demo_flusher w_idle 7 H) as P.
  cbv zeta in P. destruct P as (P1 & _ & P3 & P4 & P5 & P6 & P7).
  split; [rewrite P1; vm_compute; reflexivity |].
  destruct (P5 (subscribe 7 w_idle) P4) as (_ & _ & _ & Pstart & _).
  split; [rewrite Pstart; vm_compute; reflexivity |].
  assert (Hin : In (next_id (loop w_idle), 7) (subscribers (self (subscribe 7 w_idle))))
    by (rewrite P3; apply in_or_app; right; left; reflexivity).
  specialize (P6 (subscribe 7 w_idle) P4 Hin).
  rewrite (P7 (unsubscribe (next_id (loop w_idle)) (subscribe 7 w_idle))
              [EvAdd "c"; EvStart; EvFlush; EvStop] P6 ltac:(vm_compute; reflexivity)).
  vm_compute. reflexivity.
Defined.

(** C10 on the world of the drain test, with a rejecting callback. *)
Lemma drain_failure_witness :
  items (self w_three) <> []
  /\ settled (trace (run demo_to_string demo_flusher w_three
        [EvDrain; EvSettle (next_id (loop w_three)) (Rejected "boom");
         EvResume (next_id (loop w_three))]))
     = [(1, Rejected "boom")]
  /\ running (self (run demo_to_string demo_flusher w_three
        [EvDrain; EvSettle (next_id (loop w_three)) (Rejected "boom");
         EvResume (next_id (loop w_three))]))
     = true
  /\ timers (loop (run demo_to_string demo_flusher w_three
        [EvDrain; EvSettle (next_id (loop w_three)) (Rejected "boom");
         EvResume (next_id (loop w_three))]))
     = [(0, 1000%Z)].
Proof.
  assert (H : items (self w_three) <> []) by (vm_compute; discriminate).
  split; [exact H |].
  pose proof (drain_failure_skips_stop string string demo_to_string demo_flusher
                w_three "boom" H) as P.
  cbv zeta in P. destruct P as (_ & _ & _ & _ & _ & _ & _ & _ & Pall).
  destruct (Pall ltac:(vm_compute; reflexivity)) as (Q1 & _ & _ & Q4 & _ & Q6).
  rewrite Q1, Q4, Q6. repeat split; vm_compute; reflexivity.
Defined.
(** ** The further properties on concrete accumulators *)

(** An explicit [flush()] on the idle accumulator. *)
Lemma flush_empty_witness :
  items (self w_idle) = []
  /\ settled (trace (step demo_to_string demo_flusher w_idle EvFlush))
     = (settled (trace w_idle) ++ [(next_id (loop w_idle), Fulfilled true)])%list
  /\ flusher_calls (trace (step demo_to_string demo_flusher w_idle EvFlush))
     = flusher_calls (trace w_idle).
Proof.
  assert (H : items (self w_idle) = []) by reflexivity.
  split; [exact H |].
  pose proof (flush_empty_fulfils_true string string demo_to_string demo_flusher w_idle H) as P.
  cbv zeta in P. destruct P as (P1 & _ & P3 & _).
  split; [exact P1 | exact P3].
Defined.

(** [drain()] on the freshly constructed accumulator. *)
Lemma drain_empty_witness :
  (items (self w_fresh) = [] /\ tasks_fresh_check w_fresh = true)
  /\ settled (trace (run demo_to_string demo_flusher w_fresh
                       [EvDrain; EvResume (next_id (loop w_fresh))]))
     = (settled (trace w_fresh) ++ [(next_id (loop w_fresh), Fulfilled true)])%list
  /\ running (self (run demo_to_string demo_flusher w_fresh
                      [EvDrain; EvResume (next_id (loop w_fresh))])) = false
  /\ timers (loop (run demo_to_string demo_flusher w_fresh
                     [EvDrain; EvResume (next_id (loop w_fresh))])) = [].
Proof.
  assert (H : items (self w_fresh) = []) by reflexivity.
  assert (Hc : tasks_fresh_check w_fresh = true) by reflexivity.
  split; [split; [exact H | exact Hc] |].
  pose proof (drain_empty_stops string string demo_to_string demo_flusher w_fresh H
                (tasks_fresh_of_check _ _ w_fresh Hc)) as P.
  cbv zeta in P. destruct P as (P1 & P2 & _ & _ & _ & _ & _ & P8 & _).
  split; [exact P1 |]. split; [exact P2 |].
  apply P8. intros t d Hin. destruct Hin as [[= <- <-] | []]. reflexivity.
Defined.

(** [start()] in amount mode ([flushIntervalMs = 0]). *)
Lemma start_without_interval_witness :
  flushIntervalMs (config (self w_idle)) = Some 0%Z
  /\ loop (start w_idle) = loop w_idle
  /\ running (self (start w_idle)) = true.
Proof.
  assert (H : flushIntervalMs (config (self w_idle)) = Some 0%Z) by reflexivity.
  split; [exact H |].
  pose proof (start_without_interval string string w_idle (or_intror H)) as P.
  cbv zeta in P. destruct P as (P1 & _ & P3 & _).
  split; [exact P1 | exact P3].
Defined.

Lemma w_three_single_timer : single_timer w_three.
Proof. intros t d Hin. destruct Hin as [[= <- <-] | []]. reflexivity. Defined.

Lemma w_fresh_single_timer : single_timer w_fresh.
Proof. intros t d Hin. destruct Hin as [[= <- <-] | []]. reflexivity. Defined.

Lemma w_strict_single_timer : single_timer w_strict.
Proof. intros t d Hin. destruct Hin as [[= <- <-] | []]. reflexivity. Defined.

(** [stop()] then [start()] on the running accumulator of the drain test. *)
Lemma restart_witness :
  (flushIntervalMs (config (self w_three)) = Some 1000%Z /\ 1000%Z <> 0%Z)
  /\ timers (loop (run demo_to_string demo_flusher w_three [EvStop; EvStart]))
     = [(next_id (loop w_three), 1000%Z)]
  /\ running (self (run demo_to_string demo_flusher w_three [EvStop; EvStart])) = true.
Proof.
  assert (H : flushIntervalMs (config (self w_three)) = Some 1000%Z) by reflexivity.
  assert (Hne : 1000%Z <> 0%Z) by discriminate.
  split; [split; [exact H | exact Hne] |].
  pose proof (restart_arms_one_timer string string demo_to_string demo_flusher w_three
                1000%Z w_three_single_timer H Hne) as P.
  cbv zeta in P. destruct P as (P1 & _ & P3 & _).
  split; [exact P1 | exact P3].
Defined.

(** The first timer of a fresh accumulator fires on the empty buffer. *)
Lemma timer_on_empty_witness :
  (lookup 0 (timers (loop w_fresh)) = Some 1000%Z /\ items (self w_fresh) = [])
  /\ flusher_calls (trace (run demo_to_string demo_flusher w_fresh
                             [EvTimer 0; EvResume (next_id (loop w_fresh));
                              EvResume (next_id (loop w_fresh))]))
     = flusher_calls (trace w_fresh)
  /\ timers (loop (run demo_to_string demo_flusher w_fresh
                     [EvTimer 0; EvResume (next_id (loop w_fresh));
                      EvResume (next_id (loop w_fresh))]))
     = next_timer (config (self w_fresh)) (S (next_id (loop w_fresh))).
Proof.
  assert (Hl : lookup 0 (timers (loop w_fresh)) = Some 1000%Z) by reflexivity.
  assert (He : items (self w_fresh) = []) by reflexivity.
  split; [split; [exact Hl | exact He] |].
  pose proof (timer_on_empty_buffer string string demo_to_string demo_flusher w_fresh
                0 1000%Z Hl w_fresh_single_timer
                (tasks_fresh_of_check _ _ w_fresh eq_refl) He) as P.
  cbv zeta in P. destruct P as (P1 & _ & _ & _ & _ & _ & _ & _ & _ & P10 & _).
  split; [exact P1 | exact P10].
Defined.

(** The interval test of the repository: the timer fires on three items. *)
Lemma timer_flush_cycle_witness :
  (lookup 0 (timers (loop w_three)) = Some 1000%Z
   /\ items (self w_three) <> []
   /\ demo_flusher (next_id (loop w_three)) (items (self w_three)) = None)
  /\ map (@call_items string)
       (flusher_calls (trace (run demo_to_string demo_flusher w_three
          [EvTimer 0; EvSettle (next_id (loop w_three)) (Fulfilled true);
           EvResume (next_id (loop w_three)); EvResume (next_id (loop w_three))])))
     = [["a"; "b"; "c"]]
  /\ timers (loop (run demo_to_string demo_flusher w_three
          [EvTimer 0; EvSettle (next_id (loop w_three)) (Fulfilled true);
           EvResume (next_id (loop w_three)); EvResume (next_id (loop w_three))]))
     = [(2, 1000%Z)].
Proof.
  assert (Hl : lookup 0 (timers (loop w_three)) = Some 1000%Z) by reflexivity.
  assert (Hne : items (self w_three) <> []) by discriminate.
  assert (Hs : demo_flusher (next_id (loop w_three)) (items (self w_three)) = None)
    by reflexivity.
  split; [split; [exact Hl | split; [exact Hne | exact Hs]] |].
  pose proof (timer_flush_cycle string string demo_to_string demo_flusher w_three
                0 1000%Z (Fulfilled true) Hl w_three_single_timer
                (tasks_fresh_of_check _ _ w_three eq_refl) Hne Hs
                ltac:(intros e; discriminate)) as P.
  cbv zeta in P. destruct P as (_ & _ & P3 & _ & _ & _ & _ & _ & _ & _ & P11 & _).
  rewrite P3, P11. split; reflexivity.
Defined.

(** After [stop()] on the accumulator of the drain test, adding and
    flushing never arm a timer. *)
Lemma stopped_witness :
  timers (loop (run demo_to_string demo_flusher (stop w_three)
                  [EvAdd "d"; EvFlush; EvTimer 0])) = []
  /\ running (self (run demo_to_string demo_flusher (stop w_three)
                      [EvAdd "d"; EvFlush; EvTimer 0])) = false.
Proof.
  pose proof (stopped_stays_stopped string string demo_to_string demo_flusher w_three
                [EvAdd "d"; EvFlush; EvTimer 0] w_three_single_timer
                ltac:(intros p Hin; destruct Hin) eq_refl) as P.
  cbv zeta in P. destruct P as (P1 & P2 & _).
  split; [exact P1 | exact P2].
Defined.

(** [stop()] while the timer callback awaits its flush. *)
Lemma timer_outlives_stop_witness :
  (lookup 0 (timers (loop w_three)) = Some 1000%Z
   /\ items (self w_three) <> []
   /\ demo_flusher (next_id (loop w_three)) (items (self w_three)) = None)
  /\ running (self (run demo_to_string demo_flusher w_three
          [EvTimer 0; EvStop; EvSettle (next_id (loop w_three)) (Fulfilled true);
           EvResume (next_id (loop w_three)); EvResume (next_id (loop w_three))])) = false
  /\ timers (loop (run demo_to_string demo_flusher w_three
          [EvTimer 0; EvStop; EvSettle (next_id (loop w_three)) (Fulfilled true);
           EvResume (next_id (loop w_three)); EvResume (next_id (loop w_three))]))
     = [(2, 1000%Z)].
Proof.
  assert (Hl : lookup 0 (timers (loop w_three)) = Some 1000%Z) by reflexivity.
  assert (Hne : items (self w_three) <> []) by discriminate.
  assert (Hs : demo_flusher (next_id (loop w_three)) (items (self w_three)) = None)
    by reflexivity.
  split; [split; [exact Hl | split; [exact Hne | exact Hs]] |].
  pose proof (timer_callback_outlives_stop string string demo_to_string demo_flusher w_three
                0 1000%Z (Fulfilled true) Hl w_three_single_timer
                (tasks_fresh_of_check _ _ w_three eq_refl) Hne Hs
                ltac:(intros e; discriminate)) as P.
  cbv zeta in P. destruct P as (_ & _ & P3 & P4 & _).
  rewrite P3, P4. split; reflexivity.
Defined.

(** A timer-triggered flush that rejects under [strictFlush]. *)
Lemma strict_failure_witness :
  (lookup 0 (timers (loop w_strict)) = Some 1000%Z
   /\ items (self w_strict) <> []
   /\ strictFlush (config (self w_strict)) = Some true)
  /\ timers (loop (run demo_to_string demo_flusher w_strict
          [EvTimer 0; EvSettle (next_id (loop w_strict)) (Rejected "boom");
           EvResume (next_id (loop w_strict)); EvResume (next_id (loop w_strict))])) = []
  /\ running (self (run demo_to_string demo_flusher w_strict
          [EvTimer 0; EvSettle (next_id (loop w_strict)) (Rejected "boom");
           EvResume (next_id (loop w_strict)); EvResume (next_id (loop w_strict))])) = true
  /\ unhandled (trace (run demo_to_string demo_flusher w_strict
          [EvTimer 0; EvSettle (next_id (loop w_strict)) (Rejected "boom");
           EvResume (next_id (loop w_strict)); EvResume (next_id (loop w_strict))]))
     = [(1, "boom")].
Proof.
  assert (Hl : lookup 0 (timers (loop w_strict)) = Some 1000%Z) by reflexivity.
  assert (Hne : items (self w_strict) <> []) by discriminate.
  assert (Hst : strictFlush (config (self w_strict)) = Some true) by reflexivity.
  split; [split; [exact Hl | split; [exact Hne | exact Hst]] |].
  pose proof (strict_failure_ends_timer string string demo_to_string demo_flusher w_strict
                0 1000%Z "boom" Hl w_strict_single_timer
                (tasks_fresh_of_check _ _ w_strict eq_refl) Hne eq_refl Hst) as P.
  cbv zeta in P. destruct P as (P1 & P2 & P3 & _).
  rewrite P1, P2, P3. repeat split; reflexivity.
Defined.

(** [isFlushing] after a threshold flush has started. *)
Lemma flushing_witness :
  flushing (self (run demo_to_string demo_flusher
                    (new_BatchFlusher string string
                       (Some (demo_config 0 100 (Some 1%Z) None)) true)
                    [EvAdd "a"])) = true
  /\ exists k a,
       lookup k (tasks (loop (run demo_to_string demo_flusher
                                (new_BatchFlusher string string
                                   (Some (demo_config 0 100 (Some 1%Z) None)) true)
                                [EvAdd "a"])))
       = Some (AwaitFlusher a).
Proof.
  assert (H : flushing (self (run demo_to_string demo_flusher
                                (new_BatchFlusher string string
                                   (Some (demo_config 0 100 (Some 1%Z) None)) true)
                                [EvAdd "a"])) = true) by (vm_compute; reflexivity).
  split; [exact H |].
  exact (flushing_means_callback_in_flight string string demo_to_string demo_flusher
           (Some (demo_config 0 100 (Some 1%Z) None)) true [EvAdd "a"] H).
Defined.

(** Two threshold flushes in flight; the first one settles. *)
Lemma first_settlement_witness :
  (lookup 0 (tasks (loop w_two)) = Some (AwaitFlusher (ByDoFlush Threshold))
   /\ lookup 1 (tasks (loop w_two)) = Some (AwaitFlusher (ByDoFlush Threshold)))
  /\ flushing (self w_two) = true
  /\ flushing (self (settle 0 (Fulfilled true) w_two)) = false
  /\ lookup 1 (tasks (loop (settle 0 (Fulfilled true) w_two)))
     = Some (AwaitFlusher (ByDoFlush Threshold)).
Proof.
  assert (H0 : lookup 0 (tasks (loop w_two)) = Some (AwaitFlusher (ByDoFlush Threshold)))
    by reflexivity.
  assert (H1 : lookup 1 (tasks (loop w_two)) = Some (AwaitFlusher (ByDoFlush Threshold)))
    by reflexivity.
  split; [split; [exact H0 | exact H1] |]. split; [reflexivity |].
  pose proof (first_settlement_resets_flushing string string w_two 0 1
                (ByDoFlush Threshold) (ByDoFlush Threshold) (Fulfilled true) H0 H1
                ltac:(discriminate)) as P.
  cbv zeta in P. destruct P as (P1 & P2 & _).
  split; [exact P1 | exact P2].
Defined.

(** The cap of the first test ([maxBatchSize = 4]) over adds, a flush and a
    reset. *)
Lemma cap_invariant_witness :
  ((0 < maxBatchSize (config (self w_cap)))%Z
   /\ (Z.of_nat (length (items (self w_cap))) <= maxBatchSize (config (self w_cap)))%Z)
  /\ (Z.of_nat (length (items (self (run demo_to_string demo_flusher w_cap
        [EvAdd "e"; EvAdd "f"; EvFlush; EvAdd "g"; EvReset; EvAdd "h"]))))
      <= maxBatchSize (config (self w_cap)))%Z.
Proof.
  assert (Hm : (0 < maxBatchSize (config (self w_cap)))%Z) by reflexivity.
  assert (Hl : (Z.of_nat (length (items (self w_cap)))
                <= maxBatchSize (config (self w_cap)))%Z) by discriminate.
  split; [split; [exact Hm | exact Hl] |].
  pose proof (buffer_never_exceeds_cap string string demo_to_string demo_flusher w_cap
                [EvAdd "e"; EvAdd "f"; EvFlush; EvAdd "g"; EvReset; EvAdd "h"]
                Hm Hl eq_refl) as P.
  cbv zeta in P. destruct P as (P1 & _). exact P1.
Defined.

(** [maxBatchSize = 0]: two adds, both kept. *)
Lemma zero_cap_witness :
  maxBatchSize (config (self w_zero)) = 0%Z
  /\ items (self (run demo_to_string demo_flusher w_zero (map EvAdd ["a"; "b"])))
     = (items (self w_zero) ++ ["a"; "b"])%list.
Proof.
  assert (Hm : maxBatchSize (config (self w_zero)) = 0%Z) by reflexivity.
  split; [exact Hm |].
  pose proof (zero_cap_never_truncates string string demo_to_string demo_flusher
                ["a"; "b"] w_zero Hm ltac:(intros n; reflexivity)) as P.
  cbv zeta in P. destruct P as (P1 & _). exact P1.
Defined.

(** [maxBatchSize = -1]: two adds, nothing kept, nothing flushed. *)
Lemma negative_cap_witness :
  ((maxBatchSize (config (self w_negative)) < 0)%Z /\ items (self w_negative) = [])
  /\ items (self (run demo_to_string demo_flusher w_negative (map EvAdd ["a"; "b"]))) = []
  /\ flusher_calls (trace (run demo_to_string demo_flusher w_negative (map EvAdd ["a"; "b"])))
     = flusher_calls (trace w_negative).
Proof.
  assert (Hm : (maxBatchSize (config (self w_negative)) < 0)%Z) by reflexivity.
  assert (He : items (self w_negative) = []) by reflexivity.
  split; [split; [exact Hm | exact He] |].
  exact (negative_cap_drops_every_item string string demo_to_string demo_flusher
           ["a"; "b"] w_negative Hm He).
Defined.

(** A threshold flush whose callback resolves with [false]. *)
Lemma ignored_result_witness :
  lookup 0 (tasks (loop w_busy)) = Some (AwaitFlusher (ByDoFlush Threshold))
  /\ settled (trace (run demo_to_string demo_flusher w_busy
                       [EvSettle 0 (Fulfilled false); EvResume 0]))
     = settled (trace w_busy)
  /\ unhandled (trace (run demo_to_string demo_flusher w_busy
                         [EvSettle 0 (Fulfilled false); EvResume 0]))
     = unhandled (trace w_busy).
Proof.
  assert (H : lookup 0 (tasks (loop w_busy)) = Some (AwaitFlusher (ByDoFlush Threshold)))
    by reflexivity.
  split; [exact H |].
  pose proof (internal_flush_ignores_result string string demo_to_string demo_flusher
                w_busy 0 Threshold false H) as P.
  cbv zeta in P. destruct P as (_ & _ & _ & _ & P5 & P6 & _).
  split; [exact P5 | exact P6].
Defined.

(** Lowering the cap of the first test to 2, then one more [add]. *)
Lemma configure_cap_witness :
  (p_maxBatchSize (demo_config 20 2 None None) = Some 2%Z /\ (0 < 2)%Z)
  /\ items (self (configure (demo_config 20 2 None None) w_cap)) = items (self w_cap)
  /\ items (self (add demo_flusher "e" (configure (demo_config 20 2 None None) w_cap)))
     = ["d"; "e"].
Proof.
  assert (Hp : p_maxBatchSize (demo_config 20 2 None None) = Some 2%Z) by reflexivity.
  assert (Hm : (0 < 2)%Z) by reflexivity.
  split; [split; [exact Hp | exact Hm] |].
  pose proof (configure_cap_applies_on_next_add string string demo_flusher w_cap
                (demo_config 20 2 None None) 2%Z "e" Hp Hm) as P.
  cbv zeta in P. destruct P as (P1 & _ & P3 & _).
  split; [exact P1 |].
  destruct (P3 ltac:(vm_compute; reflexivity)) as [Q _]. rewrite Q. vm_compute. reflexivity.
Defined.

(** The amount-mode test: threshold 3, four items added. *)
Lemma threshold_batches_witness :
  (flushThreshold (config (self w_amount)) = Some 3%Z
   /\ (0 < 3)%Z
   /\ (3 <= maxBatchSize (config (self w_amount)))%Z
   /\ (Z.of_nat (length (items (self w_amount))) < 3)%Z)
  /\ exists later,
       flusher_calls (trace (run demo_to_string demo_flusher w_amount
                               (map EvAdd ["a"; "b"; "c"; "d"])))
       = (flusher_calls (trace w_amount) ++ later)%list
       /\ Forall (fun c => Z.of_nat (length (call_items c)) = 3%Z) later
       /\ (concat (map (@call_items string) later)
           ++ items (self (run demo_to_string demo_flusher w_amount
                             (map EvAdd ["a"; "b"; "c"; "d"]))))%list
          = (items (self w_amount) ++ ["a"; "b"; "c"; "d"])%list
       /\ (Z.of_nat (length (items (self (run demo_to_string demo_flusher w_amount
                                            (map EvAdd ["a"; "b"; "c"; "d"])))))
           < 3)%Z.
Proof.
  assert (H1 : flushThreshold (config (self w_amount)) = Some 3%Z) by reflexivity.
  assert (H2 : (0 < 3)%Z) by reflexivity.
  assert (H3 : (3 <= maxBatchSize (config (self w_amount)))%Z) by discriminate.
  assert (H4 : (Z.of_nat (length (items (self w_amount))) < 3)%Z) by reflexivity.
  split; [repeat split; assumption |].
  exact (threshold_batches_have_threshold_size string string demo_to_string demo_flusher
           ["a"; "b"; "c"; "d"] w_amount 3%Z H1 H2 H3 H4).
Defined.

(** Amount mode ([flushIntervalMs = 0]): [start()] twice and an [add]. *)
Lemma amount_mode_witness :
  (flushIntervalMs (config (self w_amount)) = Some 0%Z /\ timer_idle_check w_amount = true)
  /\ timers (loop (run demo_to_string demo_flusher w_amount [EvStart; EvAdd "a"; EvStart]))
     = [].
Proof.
  assert (H : flushIntervalMs (config (self w_amount)) = Some 0%Z) by reflexivity.
  assert (Hc : timer_idle_check w_amount = true) by reflexivity.
  split; [split; [exact H | exact Hc] |].
  pose proof (amount_mode_never_arms_timer string string demo_to_string demo_flusher w_amount
                [EvStart; EvAdd "a"; EvStart] (or_intror H)
                (timer_idle_of_check _ _ w_amount Hc) eq_refl) as P.
  cbv zeta in P. destruct P as (P1 & _). exact P1.
Defined.

(** A threshold flush that failed, without [strictFlush]. *)
Lemma nonstrict_witness :
  strictFlush (config (self w_failed)) <> Some true
  /\ unhandled (trace (run demo_to_string demo_flusher w_failed [EvResume 0; EvAdd "b"]))
     = unhandled (trace w_failed).
Proof.
  assert (H : strictFlush (config (self w_failed)) <> Some true) by discriminate.
  split; [exact H |].
  exact (nonstrict_never_unhandled string string demo_to_string demo_flusher w_failed
           [EvResume 0; EvAdd "b"] H
           ltac:(intros p Hin; destruct Hin as [<- | []]; reflexivity) eq_refl).
Defined.

(** The subscribe test: a subscriber of the idle accumulator. *)
Lemma subscriber_witness :
  last (calls_of 7 (delivered (trace (run demo_to_string demo_flusher (subscribe 7 w_idle)
                                        [EvAdd "a"; EvStart; EvFlush]))))
       {| size := 0; isRunning := false; isFlushing := false |}
  = getState (run demo_to_string demo_flusher (subscribe 7 w_idle)
                [EvAdd "a"; EvStart; EvFlush]).
Proof.
  exact (subscriber_holds_current_state string string demo_to_string demo_flusher w_idle 7
           [EvAdd "a"; EvStart; EvFlush]
           {| size := 0; isRunning := false; isFlushing := false |} eq_refl).
Defined.

(** The callback calls of the drain test. *)
Lemma nonempty_batch_witness :
  In {| call_id := 1; call_items := ["a"; "b"; "c"];
        call_seen := {| size := 0; isRunning := true; isFlushing := true |} |}
     (flusher_calls (trace (run demo_to_string demo_flusher w_three [EvFlush; EvFlush])))
  /\ (In {| call_id := 1; call_items := ["a"; "b"; "c"];
            call_seen := {| size := 0; isRunning := true; isFlushing := true |} |}
         (flusher_calls (trace w_three))
      \/ ["a"; "b"; "c"] <> []).
Proof.
  assert (H : In {| call_id := 1; call_items := ["a"; "b"; "c"];
                    call_seen := {| size := 0; isRunning := true; isFlushing := true |} |}
                 (flusher_calls (trace (run demo_to_string demo_flusher w_three
                                          [EvFlush; EvFlush]))))
    by (left; reflexivity).
  split; [exact H |].
  exact (callback_never_gets_empty_batch string string demo_to_string demo_flusher
           [EvFlush; EvFlush] w_three _ H).
Defined.
